(** * Portal de becados DI: activation tokens, access gate and hour approval

    A shallow embedding of the server actions and of the middleware of the
    portal, and the properties of the specification that can be stated on
    them.

    - [src/app/activar/actions.ts]: [validarToken], [activarCuenta]
    - [src/app/(admin)/admin/solicitudes/actions.ts]: [rechazarSolicitud],
      [aprobarSolicitud]
    - [src/app/(admin)/admin/estudiantes/actions.ts]:
      [resetearPerfilEstudiante], [desvincularCuentaEstudiante]
    - [src/middleware.ts]: [middleware]
    - [src/app/login/actions.ts]: [iniciarSesion]
    - [src/app/(portal)/dashboard/page.tsx]: [DashboardPage], with the
      component [AccesoRapido] ([src/unnamed/part_004])
    - [src/app/(portal)/completar-perfil/page.tsx]: [CompletarPerfilPage]
    - [src/unnamed/part_003]: [ActivarPage]
    - [src/unnamed/part_000]: [obtenerEstadoPerfil]
    - [src/lib/generar-documentos.ts]: [sanearNombreArchivo]

    The server actions are asynchronous functions that talk to two external
    collaborators (the relational store and the credential store) and that
    suspend only at these calls.  A server action is embedded as a tree of
    backend calls ([Prog]): every [await] of the source is one [Call] node.
    The same tree is run to completion by [run] (one request handled alone)
    and one call at a time by [paso] (two requests interleaved).

    Conventions of the embedding.
    - A database row is a finite map from column names to JSON values; a
      column that is absent reads as [null], as in the JavaScript source
      where both are falsy.
    - A string is the UTF-8 encoding of the JavaScript string.  [length]
      counts UTF-16 code units and [trim] strips the white space of
      ECMAScript, as the source does; [toLowerCase] and [toUpperCase] map
      the ASCII letters and leave every other character as it is.
      [sanearNombreArchivo], which cuts a string at a code unit, is
      embedded on lists of UTF-16 code units.
    - [console.error], [console.log] and [revalidatePath] have no effect on
      the state that the properties talk about and are left out.
    - The environment variables read by [createAdminClient] are present, so
      building a client never throws.  [createClient] of
      [lib/supabase/server] and [updateSession] of [lib/supabase/middleware]
      are not among the sources at hand: the client of [createClient] acts
      for the session of the caller ([sesion]), and the user that
      [updateSession] finds is an argument of [middleware].
    - Row level security is a matter of the database and is not modelled:
      the properties are about what the code itself checks.
    - A page is embedded up to the values it hands to its components (or
      the redirect it throws); the layout of the JSX is left out. *)

From Stdlib Require Import String Ascii List Bool Arith QArith Lia.
From stdpp Require Import base option list gmap strings.

Import ListNotations.
Local Open Scope string_scope.
Local Open Scope list_scope.

(** ** JavaScript strings *)

Module Js.

(** The white space of ECMAScript ([WhiteSpace] and [LineTerminator]), which
    [trim] strips.  U+0009 to U+000D and U+0020 take one byte: *)
Definition esEspacio (c : ascii) : bool :=
  let n := nat_of_ascii c in
  (Nat.leb 9 n && Nat.leb n 13) || Nat.eqb n 32.

(** U+00A0 takes two bytes, C2 A0: *)
Definition esEspacio2 (a b : ascii) : bool :=
  Nat.eqb (nat_of_ascii a) 194 && Nat.eqb (nat_of_ascii b) 160.

(** and U+1680 (E1 9A 80), U+2000 to U+200A, U+2028, U+2029 and U+202F
    (E2 80 80 to E2 80 8A, E2 80 A8, E2 80 A9, E2 80 AF), U+205F (E2 81 9F),
    U+3000 (E3 80 80) and U+FEFF (EF BB BF) take three. *)
Definition esEspacio3 (a b c : ascii) : bool :=
  let x := nat_of_ascii a in
  let y := nat_of_ascii b in
  let z := nat_of_ascii c in
  (Nat.eqb x 225 && Nat.eqb y 154 && Nat.eqb z 128)
  || (Nat.eqb x 226 && Nat.eqb y 128
      && ((Nat.leb 128 z && Nat.leb z 138)
          || Nat.eqb z 168 || Nat.eqb z 169 || Nat.eqb z 175))
  || (Nat.eqb x 226 && Nat.eqb y 129 && Nat.eqb z 159)
  || (Nat.eqb x 227 && Nat.eqb y 128 && Nat.eqb z 128)
  || (Nat.eqb x 239 && Nat.eqb y 187 && Nat.eqb z 191).

(** The list without the white space it begins with.  With [alReves] the
    list is a string read from its end, and so is every character. *)
Fixpoint quitarEspacios (alReves : bool) (l : list ascii) : list ascii :=
  match l with
  | [] => []
  | c1 :: r1 =>
      if esEspacio c1 then quitarEspacios alReves r1
      else
        match r1 with
        | [] => l
        | c2 :: r2 =>
            if (if alReves then esEspacio2 c2 c1 else esEspacio2 c1 c2)
            then quitarEspacios alReves r2
            else
              match r2 with
              | [] => l
              | c3 :: r3 =>
                  if (if alReves then esEspacio3 c3 c2 c1
                      else esEspacio3 c1 c2 c3)
                  then quitarEspacios alReves r3
                  else l
              end
        end
  end.

(** [String.prototype.trim] *)
Definition trim (s : string) : string :=
  string_of_list_ascii
    (rev (quitarEspacios true
            (rev (quitarEspacios false (list_ascii_of_string s))))).

Definition minuscula (c : ascii) : ascii :=
  let n := nat_of_ascii c in
  if Nat.leb 65 n && Nat.leb n 90 then ascii_of_nat (n + 32) else c.

(** [String.prototype.toLowerCase] *)
Fixpoint toLowerCase (s : string) : string :=
  match s with
  | EmptyString => EmptyString
  | String c r => String (minuscula c) (toLowerCase r)
  end.

(** [s.startsWith(p)] *)
Definition startsWith (s p : string) : bool := String.prefix p s.

(** [s.includes(sub)] *)
Definition includes (s sub : string) : bool :=
  match String.index 0 sub s with
  | Some _ => true
  | None => false
  end.

(** [/[a-b]/.test(s)]: some character of [s] lies in the range. *)
Fixpoint contieneRango (a b : nat) (s : string) : bool :=
  match s with
  | EmptyString => false
  | String c r =>
      let n := nat_of_ascii c in
      (Nat.leb a n && Nat.leb n b) || contieneRango a b r
  end.

(** The UTF-16 code units that a byte of the encoding stands for: none for
    a continuation byte (80 to BF), two for the first byte of a sequence
    of four (a character beyond U+FFFF, a surrogate pair), one for every
    other byte. *)
Definition unidades (c : ascii) : nat :=
  let n := nat_of_ascii c in
  if Nat.leb 128 n && Nat.leb n 191 then 0
  else if Nat.leb 240 n then 2
  else 1.

(** [s.length] *)
Fixpoint length (s : string) : nat :=
  match s with
  | EmptyString => 0
  | String c r => unidades c + length r
  end.

(** Every character of [s] is an ASCII character. *)
Fixpoint esAscii (s : string) : bool :=
  match s with
  | EmptyString => true
  | String c r => Nat.ltb (nat_of_ascii c) 128 && esAscii r
  end.

End Js.

(** ** JSON values and rows *)

(** A JavaScript number, as far as [isNaN] and [<= 0] can tell. *)
Inductive numero : Type :=
| NaN
| Finito (q : Q)
| Infinito (positivo : bool).

Inductive valor : Type :=
| VNull
| VTexto (s : string)
| VBool (b : bool)
| VNum (n : numero).

Abbreviation fila := (gmap string valor).

(** [fila.col]; an absent column reads as [null]. *)
Definition campo (f : fila) (col : string) : valor :=
  default VNull (f !! col).

(** JavaScript truthiness, [!!v]. *)
Definition truthy (v : valor) : bool :=
  match v with
  | VNull => false
  | VTexto s => negb (String.eqb s "")
  | VBool b => b
  | VNum NaN => false
  | VNum (Finito q) => negb (Qeq_bool q 0)
  | VNum (Infinito _) => true
  end.

(** [a || b] on values. *)
Definition oBien (a b : valor) : valor := if truthy a then a else b.

(** *** [Number(s)] on text: StringToNumber of ECMAScript *)

(** The value of a character as a digit, letters for ten to fifteen. *)
Definition valorDigito (c : ascii) : option N :=
  let n := N_of_ascii c in
  if (48 <=? n)%N && (n <=? 57)%N then Some (n - 48)%N
  else if (97 <=? n)%N && (n <=? 102)%N then Some (n - 87)%N
  else if (65 <=? n)%N && (n <=? 70)%N then Some (n - 55)%N
  else None.

Definition digito (base : N) (c : ascii) : option N :=
  match valorDigito c with
  | Some d => if (d <? base)%N then Some d else None
  | None => None
  end.

(** The number that [l] writes in [base] after the digits read so far;
    [None] when a character of [l] is not a digit. *)
Fixpoint digitos (base acc : N) (l : list ascii) : option N :=
  match l with
  | [] => Some acc
  | c :: r =>
      match digito base c with
      | Some d => digitos base (acc * base + d) r
      | None => None
      end
  end.

(** One digit at least. *)
Definition entero (base : N) (l : list ascii) : option N :=
  match l with
  | [] => None
  | _ :: _ => digitos base 0 l
  end.

(** The decimal digits that [l] begins with, and what follows them. *)
Fixpoint tomarDigitos (l : list ascii) : list ascii * list ascii :=
  match l with
  | [] => ([], [])
  | c :: r =>
      match digito 10 c with
      | Some _ => let '(d, s) := tomarDigitos r in (c :: d, s)
      | None => ([], l)
      end
  end.

(** The double next to a rational that is not negative, as far as [isNaN]
    and [<= 0] can tell: up to half of the least positive double, 2^-1075,
    it is zero, and from the midpoint between the greatest double and
    2^1024 on it is infinite. *)
Definition redondear (q : Q) : numero :=
  if Qle_bool q (1 # (2 ^ 1075))
  then Finito 0
  else if Qle_bool (inject_Z (2 ^ 1024 - 2 ^ 970)) q
  then Infinito true
  else Finito q.

Definition opuesto (n : numero) : numero :=
  match n with
  | NaN => NaN
  | Finito q => Finito (- q)
  | Infinito positivo => Infinito (negb positivo)
  end.

(** [ExponentPart], or nothing. *)
Definition exponente (l : list ascii) : option Z :=
  match l with
  | [] => Some 0%Z
  | c :: r =>
      if Ascii.eqb c "e" || Ascii.eqb c "E"
      then
        match r with
        | "+"%char :: d => option_map Z.of_N (entero 10 d)
        | "-"%char :: d =>
            option_map (fun n => (- Z.of_N n)%Z) (entero 10 d)
        | _ => option_map Z.of_N (entero 10 r)
        end
      else None
  end.

(** [StrUnsignedDecimalLiteral]: [Infinity], or digits with an optional
    point and an optional exponent, one digit at least before the
    exponent. *)
Definition decimalSinSigno (l : list ascii) : numero :=
  if String.eqb (string_of_list_ascii l) "Infinity" then Infinito true
  else
    let '(ent, r1) := tomarDigitos l in
    let '(frac, r2) :=
      match r1 with
      | "."%char :: r => tomarDigitos r
      | _ => ([], r1)
      end in
    match entero 10 (ent ++ frac), exponente r2 with
    | Some m, Some e =>
        redondear
          (inject_Z (Z.of_N m)
           * inject_Z 10 ^ (e - Z.of_nat (List.length frac)))
    | _, _ => NaN
    end.

(** [NonDecimalIntegerLiteral]: the digits after [0x], [0o] or [0b]. *)
Definition enteroEnBase (base : N) (l : list ascii) : numero :=
  match entero base l with
  | Some n => redondear (inject_Z (Z.of_N n))
  | None => NaN
  end.

(** White space around the literal is dropped and the empty string is
    zero; a sign goes with a decimal literal only. *)
Definition stringToNumber (s : string) : numero :=
  match list_ascii_of_string (Js.trim s) with
  | [] => Finito 0
  | "+"%char :: r => decimalSinSigno r
  | "-"%char :: r => opuesto (decimalSinSigno r)
  | ("0"%char :: c :: r) as l =>
      if Ascii.eqb c "x" || Ascii.eqb c "X" then enteroEnBase 16 r
      else if Ascii.eqb c "o" || Ascii.eqb c "O" then enteroEnBase 8 r
      else if Ascii.eqb c "b" || Ascii.eqb c "B" then enteroEnBase 2 r
      else decimalSinSigno l
  | l => decimalSinSigno l
  end.

(** [Number(v)] *)
Definition aNumero (v : valor) : numero :=
  match v with
  | VNull => Finito 0
  | VBool true => Finito 1
  | VBool false => Finito 0
  | VNum n => n
  | VTexto s => stringToNumber s
  end.

Definition isNaN (v : valor) : bool :=
  match aNumero v with NaN => true | _ => false end.

(** [v <= 0] *)
Definition menorIgualCero (v : valor) : bool :=
  match aNumero v with
  | NaN => false
  | Finito q => Qle_bool q 0
  | Infinito positivo => negb positivo
  end.

(** Interpolation of a value in a template literal; the columns that are
    interpolated hold text. *)
Definition aTexto (v : valor) : string :=
  match v with
  | VTexto s => s
  | VNull => "null"
  | VBool true => "true"
  | VBool false => "false"
  | VNum _ => "[number]"
  end.

Definition numero_eqb (a b : numero) : bool :=
  match a, b with
  | Finito p, Finito q => Qeq_bool p q
  | Infinito x, Infinito y => Bool.eqb x y
  | _, _ => false
  end.

(** Equality as the [eq] filter of the store decides it: [null] matches
    nothing. *)
Definition valor_eqb (a b : valor) : bool :=
  match a, b with
  | VTexto s, VTexto t => String.eqb s t
  | VBool x, VBool y => Bool.eqb x y
  | VNum m, VNum n => numero_eqb m n
  | _, _ => false
  end.

(** ** The two external collaborators *)

Inductive Tabla : Type :=
| T_estudiantes
| T_usuarios_administrativos
| T_solicitudes_horas
| T_horas_voluntariados.

(** The error object of a failed call: [error.code] and [error.message]. *)
Record ErrorBackend : Type := mkError {
  error_code : string;
  error_message : string
}.

(** What the next backend call does besides its normal behaviour: it can
    come back with an [error], or throw (network failure). *)
Inductive Fallo : Type :=
| SinFallo
| DevuelveError (e : ErrorBackend)
| Lanza (mensaje : string).

Record UsuarioAuth : Type := mkUsuario {
  au_id : string;
  au_email : string;
  au_password : string
}.

Record Mundo : Type := mkMundo {
  estudiantes : list fila;
  usuarios_administrativos : list fila;
  solicitudes_horas : list fila;
  horas_voluntariados : list fila;
  (** credential store *)
  auth_users : list UsuarioAuth;
  (** identity of the session cookie of the caller *)
  sesion : option string;
  (** welcome mails handed to the mail service: recipient and name *)
  correos : list (string * string);
  (** outcome of the backend calls to come, first call first;
      when it runs out the calls behave normally *)
  guion : list Fallo;
  (** values that [randomUUID] and the credential store will draw *)
  azar : list string
}.

Definition leerTabla (t : Tabla) (w : Mundo) : list fila :=
  match t with
  | T_estudiantes => estudiantes w
  | T_usuarios_administrativos => usuarios_administrativos w
  | T_solicitudes_horas => solicitudes_horas w
  | T_horas_voluntariados => horas_voluntariados w
  end.

Definition ponerTabla (t : Tabla) (l : list fila) (w : Mundo) : Mundo :=
  match t with
  | T_estudiantes =>
      mkMundo l (usuarios_administrativos w) (solicitudes_horas w)
        (horas_voluntariados w) (auth_users w) (sesion w) (correos w)
        (guion w) (azar w)
  | T_usuarios_administrativos =>
      mkMundo (estudiantes w) l (solicitudes_horas w)
        (horas_voluntariados w) (auth_users w) (sesion w) (correos w)
        (guion w) (azar w)
  | T_solicitudes_horas =>
      mkMundo (estudiantes w) (usuarios_administrativos w) l
        (horas_voluntariados w) (auth_users w) (sesion w) (correos w)
        (guion w) (azar w)
  | T_horas_voluntariados =>
      mkMundo (estudiantes w) (usuarios_administrativos w)
        (solicitudes_horas w) l (auth_users w) (sesion w) (correos w)
        (guion w) (azar w)
  end.

Definition ponerAuth (l : list UsuarioAuth) (w : Mundo) : Mundo :=
  mkMundo (estudiantes w) (usuarios_administrativos w) (solicitudes_horas w)
    (horas_voluntariados w) l (sesion w) (correos w) (guion w) (azar w).

Definition ponerSesion (s : option string) (w : Mundo) : Mundo :=
  mkMundo (estudiantes w) (usuarios_administrativos w) (solicitudes_horas w)
    (horas_voluntariados w) (auth_users w) s (correos w) (guion w) (azar w).

Definition ponerCorreos (c : list (string * string)) (w : Mundo) : Mundo :=
  mkMundo (estudiantes w) (usuarios_administrativos w) (solicitudes_horas w)
    (horas_voluntariados w) (auth_users w) (sesion w) c (guion w) (azar w).

Definition ponerGuion (g : list Fallo) (w : Mundo) : Mundo :=
  mkMundo (estudiantes w) (usuarios_administrativos w) (solicitudes_horas w)
    (horas_voluntariados w) (auth_users w) (sesion w) (correos w) g (azar w).

Definition ponerAzar (a : list string) (w : Mundo) : Mundo :=
  mkMundo (estudiantes w) (usuarios_administrativos w) (solicitudes_horas w)
    (horas_voluntariados w) (auth_users w) (sesion w) (correos w) (guion w) a.

(** *** Queries *)

(** [.eq(col, v)] and [.or(`c1.eq.v1,c2.eq.v2`)] *)
Inductive Filtro : Type :=
| Eq (col : string) (v : valor)
| OrEq (c1 : string) (v1 : valor) (c2 : string) (v2 : valor).

Definition cumple (q : Filtro) (f : fila) : bool :=
  match q with
  | Eq col v => valor_eqb (campo f col) v
  | OrEq c1 v1 c2 v2 =>
      valor_eqb (campo f c1) v1 || valor_eqb (campo f c2) v2
  end.

Definition seleccionar (q : Filtro) (l : list fila) : list fila :=
  List.filter (cumple q) l.

(** [.select('a, b')]: the row restricted to the listed columns;
    [.select('*')] is [None]. *)
Fixpoint proyectarCols (cols : list string) (f : fila) : fila :=
  match cols with
  | [] => ∅
  | c :: r =>
      match f !! c with
      | Some v => <[c := v]> (proyectarCols r f)
      | None => proyectarCols r f
      end
  end.

Definition proyectar (cols : option (list string)) (f : fila) : fila :=
  match cols with
  | None => f
  | Some cs => proyectarCols cs f
  end.

(** [.update(cambios)] on one row: the listed columns are overwritten. *)
Definition aplicar (cambios : fila) (f : fila) : fila := cambios ∪ f.

Definition actualizar (q : Filtro) (cambios : fila) (l : list fila)
  : list fila :=
  List.map (fun f => if cumple q f then aplicar cambios f else f) l.

Inductive Modo : Type := Single | MaybeSingle.

(** The [{ data, error }] pair every call of the client library returns. *)
Record Resp (D : Type) : Type := mkResp {
  data : option D;
  error : option ErrorBackend
}.
Arguments mkResp {D} _ _.
Arguments data {D} _.
Arguments error {D} _.

Definition respOk {D} (d : D) : Resp D := mkResp (Some d) None.
Definition respVacia {D} : Resp D := mkResp None None.
Definition respError {D} (e : ErrorBackend) : Resp D := mkResp None (Some e).

(** The calls the source makes on the two clients. *)
Inductive Op : Type -> Type :=
| SelectUno (t : Tabla) (cols : option (list string)) (q : Filtro)
    (m : Modo) : Op (Resp fila)
| Update (t : Tabla) (cambios : fila) (q : Filtro) (conSelect : bool)
    : Op (Resp (list fila))
| Insert (t : Tabla) (f : fila) : Op (Resp unit)
| AuthGetUser : Op (Resp string)
| AuthCreateUser (email password : string) : Op (Resp string)
| AuthDeleteUser (id : valor) : Op (Resp unit)
| AuthSignIn (email password : string) : Op (Resp unit)
| EnviarCorreo (para nombre : string) : Op (Resp unit)
| RandomUUID : Op string.

(** *** Behaviour of the calls *)

Inductive excepcion : Type :=
| ErrorJS (mensaje : string)
| NextRedirect (url : string).

Inductive Salida (A : Type) : Type :=
| Normal (a : A)
| Excepcion (e : excepcion).
Arguments Normal {A} _.
Arguments Excepcion {A} _.

Definition tomarFallo (w : Mundo) : Fallo * Mundo :=
  match guion w with
  | [] => (SinFallo, w)
  | f :: g => (f, ponerGuion g w)
  end.

Definition uuidPorDefecto : string := "00000000-0000-4000-8000-000000000000".

Definition tomarAzar (w : Mundo) : string * Mundo :=
  match azar w with
  | [] => (uuidPorDefecto, w)
  | u :: r => (u, ponerAzar r w)
  end.

(** The next [n] backend calls are not disturbed. *)
Fixpoint tranquilas (n : nat) (g : list Fallo) : bool :=
  match n, g with
  | O, _ => true
  | S _, [] => true
  | S n', SinFallo :: r => tranquilas n' r
  | S _, _ :: _ => false
  end.

(** The world once the script has moved past the call in course. *)
Definition avanzar (w : Mundo) : Mundo := ponerGuion (tail (guion w)) w.

Definition errorFilas : ErrorBackend :=
  mkError "PGRST116" "JSON object requested, multiple (or no) rows returned".
Definition errorEmailEnUso : ErrorBackend :=
  mkError "email_exists"
    "A user with this email address has already been registered".
Definition errorSinEmail : ErrorBackend :=
  mkError "validation_failed"
    "Cannot create a user without either an email or phone".
Definition errorUsuarioNoExiste : ErrorBackend :=
  mkError "user_not_found" "User not found".
Definition errorCredenciales : ErrorBackend :=
  mkError "invalid_credentials" "Invalid login credentials".
Definition errorSinSesion : ErrorBackend :=
  mkError "session_missing" "Auth session missing!".

Definition selectUno (t : Tabla) (cols : option (list string)) (q : Filtro)
    (m : Modo) (w : Mundo) : Resp fila :=
  match seleccionar q (leerTabla t w), m with
  | [f], _ => respOk (proyectar cols f)
  | [], MaybeSingle => respVacia
  | _, _ => respError errorFilas
  end.

Definition tieneEmail (email : string) (u : UsuarioAuth) : bool :=
  String.eqb (au_email u) email.

Definition tieneId (id : valor) (u : UsuarioAuth) : bool :=
  valor_eqb (VTexto (au_id u)) id.

(** A call that is not disturbed, as the client library answers it.
    - [single()] wants exactly one row and [maybeSingle()] at most one;
      otherwise they answer with an error.
    - An update writes every row that the filter matches; matching no row
      is not an error.  With [.select()] the rows written come back as
      [data], without it [data] is [null].
    - The credential store refuses an empty mail and a mail that is taken,
      the deletion of an identity it does not have, and a sign-in with
      credentials it does not have. *)
Definition normal {X} (op : Op X) (w : Mundo) : X * Mundo :=
  match op in Op X return X * Mundo with
  | SelectUno t cols q m => (selectUno t cols q m w, w)
  | Update t cambios q conSelect =>
      let l := leerTabla t w in
      (mkResp
         (if conSelect
          then Some (List.map (aplicar cambios) (seleccionar q l))
          else None)
         None,
       ponerTabla t (actualizar q cambios l) w)
  | Insert t f => (respVacia, ponerTabla t (leerTabla t w ++ [f]) w)
  | AuthGetUser =>
      match sesion w with
      | Some id => (respOk id, w)
      | None => (respError errorSinSesion, w)
      end
  | AuthCreateUser email password =>
      if String.eqb email "" then (respError errorSinEmail, w)
      else if existsb (tieneEmail email) (auth_users w)
      then (respError errorEmailEnUso, w)
      else
        let '(id, w1) := tomarAzar w in
        (respOk id,
         ponerAuth (auth_users w1 ++ [mkUsuario id email password]) w1)
  | AuthDeleteUser id =>
      if existsb (tieneId id) (auth_users w)
      then (respVacia,
            ponerAuth
              (List.filter (fun u => negb (tieneId id u)) (auth_users w)) w)
      else (respError errorUsuarioNoExiste, w)
  | AuthSignIn email password =>
      match
        List.find
          (fun u => tieneEmail email u && String.eqb (au_password u) password)
          (auth_users w)
      with
      | Some u => (respVacia, ponerSesion (Some (au_id u)) w)
      | None => (respError errorCredenciales, w)
      end
  | EnviarCorreo para nombre =>
      (respVacia, ponerCorreos (correos w ++ [(para, nombre)]) w)
  | RandomUUID => tomarAzar w
  end.

(** The [{ data: null, error }] answer of a call that comes back with an
    error; [randomUUID] is local and cannot fail. *)
Definition conError {X} (op : Op X) (e : ErrorBackend) : option X :=
  match op in Op X return option X with
  | SelectUno _ _ _ _ => Some (respError e)
  | Update _ _ _ _ => Some (respError e)
  | Insert _ _ => Some (respError e)
  | AuthGetUser => Some (respError e)
  | AuthCreateUser _ _ => Some (respError e)
  | AuthDeleteUser _ => Some (respError e)
  | AuthSignIn _ _ => Some (respError e)
  | EnviarCorreo _ _ => Some (respError e)
  | RandomUUID => None
  end.

Definition esRemota {X} (op : Op X) : bool :=
  match op with
  | RandomUUID => false
  | _ => true
  end.

Definition sinFallo {X} (op : Op X) (w : Mundo) : Salida X * Mundo :=
  let '(x, w') := normal op w in (Normal x, w').

(** A call as the script of the world has it: a returned error and a
    thrown exception leave both stores as they were. *)
Definition ejecutar {X} (op : Op X) (w : Mundo) : Salida X * Mundo :=
  if esRemota op then
    match tomarFallo w with
    | (SinFallo, w1) => sinFallo op w1
    | (DevuelveError e, w1) =>
        match conError op e with
        | Some x => (Normal x, w1)
        | None => sinFallo op w1
        end
    | (Lanza m, w1) => (Excepcion (ErrorJS m), w1)
    end
  else sinFallo op w.

(** ** Asynchronous functions as trees of backend calls *)

(** [Call op k]: the function awaits [op]; [k] is the rest of the function,
    resumed with the answer of the call or with the exception it threw. *)
Inductive Prog (A : Type) : Type :=
| Ret (a : A)
| Throw (e : excepcion)
| Call {X : Type} (op : Op X) (k : Salida X -> Prog A).
Arguments Ret {A} _.
Arguments Throw {A} _.
Arguments Call {A X} _ _.

Fixpoint bind {A B} (m : Prog A) (f : A -> Prog B) : Prog B :=
  match m with
  | Ret a => f a
  | Throw e => Throw e
  | Call op k => Call op (fun r => bind (k r) f)
  end.

(** [await op]: an exception of the call propagates. *)
Definition llamar {X} (op : Op X) : Prog X :=
  Call op (fun r =>
    match r with
    | Normal x => Ret x
    | Excepcion e => Throw e
    end).

(** [try { m } catch (e) { h e }] *)
Fixpoint intentar {A} (m : Prog A) (h : excepcion -> Prog A) : Prog A :=
  match m with
  | Ret a => Ret a
  | Throw e => h e
  | Call op k => Call op (fun r => intentar (k r) h)
  end.

Declare Scope prog_scope.
Delimit Scope prog_scope with prog.
Notation "x <- m ;; k" := (bind m (fun x => k))
  (at level 100, m at level 99, k at level 200, right associativity,
   only parsing) : prog_scope.
Notation "m ;;; k" := (bind m (fun _ => k))
  (at level 100, k at level 200, right associativity,
   only parsing) : prog_scope.
Local Open Scope prog_scope.

(** One request handled from start to end. *)
Fixpoint run {A} (m : Prog A) (w : Mundo) : Salida A * Mundo :=
  match m with
  | Ret a => (Normal a, w)
  | Throw e => (Excepcion e, w)
  | Call op k => let '(r, w') := ejecutar op w in run (k r) w'
  end.

(** One request advanced by one backend call. *)
Definition paso {A} (m : Prog A) (w : Mundo) : Prog A * Mundo :=
  match m with
  | Call op k => let '(r, w') := ejecutar op w in (k r, w')
  | _ => (m, w)
  end.

(** Two requests in flight: [true] lets the first one make its next call,
    [false] the second one.  Both act on the same stores; a request that
    has ended stays as it is. *)
Fixpoint intercalar {A B} (plan : list bool) (p : Prog A) (q : Prog B)
    (w : Mundo) : Prog A * Prog B * Mundo :=
  match plan with
  | [] => (p, q, w)
  | true :: resto =>
      let '(p', w') := paso p w in intercalar resto p' q w'
  | false :: resto =>
      let '(q', w') := paso q w in intercalar resto p q' w'
  end.

(** The uniform result of the server actions. *)
Record Resultado : Type := mkResultado {
  success : bool;
  message : string
}.

(** [s || d] on strings. *)
Definition oCadena (s d : string) : string :=
  if String.eqb s "" then d else s.

(** [error instanceof Error ? error.message : 'Error desconocido'] *)
Definition mensajeDe (e : excepcion) : string :=
  match e with
  | ErrorJS m => m
  | NextRedirect _ => "NEXT_REDIRECT"
  end.

(** [redirect(url)] of next/navigation throws. *)
Definition redirect {A} (url : string) : Prog A := Throw (NextRedirect url).

(** ** src/app/activar/actions.ts *)

Module Activar.

(** [passwordSchema.safeParse(password)]: the message of the first check
    that fails. *)
Definition passwordSchema (password : string) : option string :=
  if Nat.ltb (Js.length password) 8
  then Some "La contraseña debe tener al menos 8 caracteres"
  else if negb (Js.contieneRango 65 90 password)
  then Some "La contraseña debe contener al menos una letra mayúscula"
  else if negb (Js.contieneRango 97 122 password)
  then Some "La contraseña debe contener al menos una letra minúscula"
  else if negb (Js.contieneRango 48 57 password)
  then Some "La contraseña debe contener al menos un número"
  else None.

Record Validacion : Type := mkValidacion {
  v_success : bool;
  v_message : option string;
  (** [nombre_completo_becado] and [correo_personal] *)
  v_estudiante : option (valor * valor)
}.

Definition msgTokenInvalido : string := "Token inválido o no encontrado".
Definition msgTokenUsado : string := "Este token ya ha sido utilizado".
Definition msgFaltanDatos : string :=
  "Faltan datos requeridos en el registro del estudiante".

Definition validarToken (token : string) : Prog Validacion :=
  r <- llamar
         (SelectUno T_estudiantes
            (Some ["id"; "nombre_completo_becado"; "correo_personal";
                   "ha_completado_onboarding"; "onboarding_token"])
            (Eq "onboarding_token" (VTexto token)) Single) ;;
  match error r, data r with
  | None, Some d =>
      if truthy (campo d "ha_completado_onboarding")
      then Ret (mkValidacion false (Some msgTokenUsado) None)
      else if negb (truthy (campo d "nombre_completo_becado"))
              || negb (truthy (campo d "correo_personal"))
      then Ret (mkValidacion false (Some msgFaltanDatos) None)
      else Ret (mkValidacion true None
                  (Some (campo d "nombre_completo_becado",
                         campo d "correo_personal")))
  | _, _ => Ret (mkValidacion false (Some msgTokenInvalido) None)
  end.

Definition esRedirect (e : excepcion) : bool :=
  match e with
  | NextRedirect _ => true
  | ErrorJS _ => false
  end.

Definition msgErrorCrear : string :=
  "Error al crear la cuenta. El correo podría estar en uso.".
Definition msgErrorVincular : string :=
  "Error al vincular la cuenta. Por favor, intenta nuevamente.".
Definition msgInesperado : string :=
  "Error inesperado. Por favor, intenta nuevamente.".

(** The columns written by the activation; [onboarding_token: null] burns
    the token. *)
Definition datosActivacion (authId email : string) : fila :=
  {[ "auth_user_id" := VTexto authId;
     "correo_personal" := VTexto (Js.toLowerCase (Js.trim email));
     "ha_completado_onboarding" := VBool true;
     "onboarding_token" := VNull ]}.

(** The [try] block up to [tokenQuemado = true] (steps 1 and 2): it either
    returns from [activarCuenta] ([inl]) or goes on with the identity it
    created ([inr]). *)
Definition crearYVincular (token email password : string)
  : Prog (Resultado + string) :=
  creado <- llamar (AuthCreateUser (Js.toLowerCase (Js.trim email)) password) ;;
  match error creado, data creado with
  | None, Some authUserId =>
      upd <- llamar
               (Update T_estudiantes (datosActivacion authUserId email)
                  (Eq "onboarding_token" (VTexto token)) false) ;;
      match error upd with
      | Some _ =>
          (if truthy (VTexto authUserId)
           then llamar (AuthDeleteUser (VTexto authUserId)) ;;; Ret tt
           else Ret tt) ;;;
          Ret (inl (mkResultado false msgErrorVincular))
      | None => Ret (inr authUserId)
      end
  | Some e, _ =>
      Ret (inl (mkResultado false (oCadena (error_message e) msgErrorCrear)))
  | None, None => Ret (inl (mkResultado false msgErrorCrear))
  end.

(** Step 2.5, in its own [try]: whatever goes wrong is only logged. *)
Definition enviarBienvenida (authUserId email : string) : Prog unit :=
  intentar
    (r <- llamar
            (SelectUno T_estudiantes (Some ["nombre_completo_becado"])
               (Eq "auth_user_id" (VTexto authUserId)) Single) ;;
     let nombreCompleto :=
       match data r with
       | Some d => oBien (campo d "nombre_completo_becado") (VTexto "Becario")
       | None => VTexto "Becario"
       end in
     llamar (EnviarCorreo (Js.toLowerCase (Js.trim email))
               (aTexto nombreCompleto)) ;;;
     Ret tt)
    (fun _ => Ret tt).

(** The [try] block after [tokenQuemado = true] (steps 2.5 and 3); its
    value is [debeRedirigirALogin]. *)
Definition correoYSesion (authUserId email password : string) : Prog bool :=
  enviarBienvenida authUserId email ;;;
  entrada <- llamar (AuthSignIn (Js.toLowerCase (Js.trim email)) password) ;;
  match error entrada with
  | Some _ => Ret true
  | None =>
      adm <- llamar
               (SelectUno T_usuarios_administrativos (Some ["id"])
                  (Eq "auth_user_id" (VTexto authUserId)) MaybeSingle) ;;
      let isAdmin :=
        match error adm, data adm with
        | None, Some _ => true
        | _, _ => false
        end in
      if isAdmin then redirect "/admin/dashboard" else Ret false
  end.

Definition urlLoginCuentaCreada : string :=
  "/login?error=Cuenta%20creada.%20Por%20favor%2C%20inicia%20sesi%C3%B3n.".

(** [activarCuenta].  The source has one [try] block and the flag
    [tokenQuemado] that its [catch] reads; here the block is cut at the
    assignment of the flag, and each half has the [catch] with the value the
    flag has there. *)
Definition activarCuenta (token email password : string) : Prog Resultado :=
  validacion <- validarToken token ;;
  if negb (v_success validacion)
  then Ret (mkResultado false
              (match v_message validacion with
               | Some m => oCadena m "Error al validar el token"
               | None => "Error al validar el token"
               end))
  else
    match passwordSchema password with
    | Some m => Ret (mkResultado false m)
    | None =>
        paso12 <- intentar (crearYVincular token email password)
                    (fun e => if esRedirect e then Throw e
                              else Ret (inl (mkResultado false msgInesperado))) ;;
        match paso12 with
        | inl r => Ret r
        | inr authUserId =>
            debeRedirigirALogin <-
              intentar (correoYSesion authUserId email password)
                (fun e => if esRedirect e then Throw e else Ret true) ;;
            if debeRedirigirALogin : bool
            then redirect urlLoginCuentaCreada
            else redirect "/dashboard"
        end
    end.

End Activar.

(** ** src/app/(admin)/admin/solicitudes/actions.ts *)

Module Solicitudes.

(** [!solicitudId || solicitudId === 'undefined'] *)
Definition idInvalido (solicitudId : string) : bool :=
  String.eqb solicitudId "" || String.eqb solicitudId "undefined".

Definition msgIdInvalido : string := "ID de solicitud inválido.".
Definition msgErrorRechazar : string :=
  "Error al rechazar la solicitud. Por favor, intenta nuevamente.".
Definition msgRechazada : string := "Solicitud rechazada correctamente.".
Definition msgInesperado : string :=
  "Error inesperado. Por favor, intenta nuevamente.".
Definition msgNoEncontrada : string := "No se pudo encontrar la solicitud.".
Definition msgYaProcesada : string := "Esta solicitud ya ha sido procesada.".
Definition msgSinEstudiante : string :=
  "No se pudo encontrar el estudiante asociado a esta solicitud.".
Definition msgSinIdInterno : string :=
  "El estudiante no tiene un ID de becado interno asignado.".
Definition msgSinNombre : string :=
  "El estudiante no tiene un nombre completo asignado.".
Definition msgHorasInvalidas : string :=
  "La cantidad de horas debe ser un número mayor a 0.".
Definition msgErrorInsertar : string :=
  "Error al registrar las horas de voluntariado. Por favor, intenta nuevamente.".
Definition msgParcial : string :=
  "Las horas se registraron, pero hubo un error al actualizar el estado de la solicitud.".
Definition msgAprobada : string :=
  "Solicitud aprobada y horas registradas correctamente.".

Definition rechazarSolicitud (solicitudId : string) : Prog Resultado :=
  intentar
    (if idInvalido solicitudId then Ret (mkResultado false msgIdInvalido)
     else
       r <- llamar
              (Update T_solicitudes_horas {[ "estado" := VTexto "rechazado" ]}
                 (Eq "id" (VTexto solicitudId)) false) ;;
       match error r with
       | Some _ => Ret (mkResultado false msgErrorRechazar)
       | None => Ret (mkResultado true msgRechazada)
       end)
    (fun _ => Ret (mkResultado false msgInesperado)).

(** [solicitud.estado === 'aprobado' || solicitud.estado === 'rechazado'] *)
Definition yaProcesada (solicitud : fila) : bool :=
  valor_eqb (campo solicitud "estado") (VTexto "aprobado")
  || valor_eqb (campo solicitud "estado") (VTexto "rechazado").

(** [!nombre || nombre.trim() === '']; [trim] on a truthy value that is not
    a string is a TypeError. *)
Definition nombreEnBlanco (nombre : valor) : Prog bool :=
  if negb (truthy nombre) then Ret true
  else
    match nombre with
    | VTexto s => Ret (String.eqb (Js.trim s) "")
    | _ => Throw (ErrorJS "nombre_completo_becado.trim is not a function")
    end.

(** [horasAprobadas !== undefined && horasAprobadas !== null
      ? horasAprobadas : solicitud.cantidad_horas] *)
Definition cantidadHorasFinal (horasAprobadas : option numero)
    (solicitud : fila) : valor :=
  match horasAprobadas with
  | Some n => VNum n
  | None => campo solicitud "cantidad_horas"
  end.

Definition horasData (estudiante solicitud : fila) (horas : valor) : fila :=
  {[ "id_becado_interno" := campo estudiante "id_becado_interno";
     "nombre_completo_becado" := campo estudiante "nombre_completo_becado";
     "fecha_actividad" := campo solicitud "fecha_actividad";
     "nombre_actividad" := campo solicitud "nombre_actividad";
     "cantidad_horas" := horas;
     "responsable_encargado" :=
       oBien (campo solicitud "responsable_encargado") (VTexto "N/A");
     "estado" := VTexto "validado" ]}.

Definition aprobarSolicitud (solicitudId : string)
    (horasAprobadas : option numero) : Prog Resultado :=
  intentar
    (if idInvalido solicitudId then Ret (mkResultado false msgIdInvalido)
     else
       (* Paso 1 *)
       rs <- llamar
               (SelectUno T_solicitudes_horas None
                  (Eq "id" (VTexto solicitudId)) Single) ;;
       match error rs, data rs with
       | None, Some solicitud =>
           if yaProcesada solicitud
           then Ret (mkResultado false msgYaProcesada)
           else
             (* Paso 2 *)
             re <- llamar
                     (SelectUno T_estudiantes
                        (Some ["id_becado_interno"; "nombre_completo_becado"])
                        (Eq "id" (campo solicitud "estudiante_id")) Single) ;;
             match error re, data re with
             | None, Some estudiante =>
                 if negb (truthy (campo estudiante "id_becado_interno"))
                 then Ret (mkResultado false msgSinIdInterno)
                 else
                   blanco <- nombreEnBlanco
                               (campo estudiante "nombre_completo_becado") ;;
                   if blanco : bool
                   then Ret (mkResultado false msgSinNombre)
                   else
                     let horas :=
                       cantidadHorasFinal horasAprobadas solicitud in
                     if isNaN horas || menorIgualCero horas
                     then Ret (mkResultado false msgHorasInvalidas)
                     else
                       (* Paso 3 *)
                       ri <- llamar
                               (Insert T_horas_voluntariados
                                  (horasData estudiante solicitud horas)) ;;
                       match error ri with
                       | Some _ => Ret (mkResultado false msgErrorInsertar)
                       | None =>
                           (* Paso 4 *)
                           ru <- llamar
                                   (Update T_solicitudes_horas
                                      {[ "estado" := VTexto "aprobado" ]}
                                      (Eq "id" (VTexto solicitudId)) false) ;;
                           match error ru with
                           | Some _ => Ret (mkResultado false msgParcial)
                           | None => Ret (mkResultado true msgAprobada)
                           end
                       end
             | _, _ => Ret (mkResultado false msgSinEstudiante)
             end
       | _, _ => Ret (mkResultado false msgNoEncontrada)
       end)
    (fun _ => Ret (mkResultado false msgInesperado)).

End Solicitudes.

(** ** src/app/(portal)/completar-perfil/page.tsx *)

Module Perfil.

(** The columns that the profile wizard writes: the keys of [datosUpdate]
    in [guardarPerfilCompleto]. *)
Definition camposWizard : list string :=
  [ "fecha_de_nacimiento"; "telefono_llamada"; "telefono_whatsapp";
    "id_becado_universidad"; "correo_estudiantil";
    "departamento"; "municipio"; "distrito";
    "tiene_una_discapacidad"; "detalle_discapacidad";
    "miembro_de_consejo"; "becado_elite";
    "nombre_emergencia"; "telefono_emergencia"; "parentesco_emergencia" ].

(** The keys of [urlsUpdate]. *)
Definition camposDocumentos : list string :=
  [ "url_expediente_digital"; "url_carnet_digital" ].

End Perfil.

(** ** src/app/(admin)/admin/estudiantes/actions.ts *)

Module Estudiantes.

Definition msgIdInvalido : string := "ID de estudiante inválido.".
Definition msgSinUsuario : string :=
  "No hay usuario autenticado. Por favor, inicia sesión nuevamente.".
Definition msgSinPermisoReset : string :=
  "No tienes permisos para realizar esta acción. Solo los administradores pueden resetear perfiles.".
Definition msgSinPermisoDesvincular : string :=
  "No tienes permisos para realizar esta acción. Solo los administradores pueden desvincular cuentas.".
Definition msgNoEncontrado : string :=
  "No se pudo encontrar el estudiante especificado.".
Definition msgSinRegistro : string :=
  "Error: No se encontró el registro del estudiante. Por favor, verifica el ID.".
Definition msgPermisosPerfil : string :=
  "Error de permisos: No tienes permiso para actualizar este perfil. Por favor, contacta al administrador.".
Definition msgPermisosRegistro : string :=
  "Error de permisos: No tienes permiso para actualizar este registro. Por favor, contacta al administrador.".

Definition msgColumnas (e : ErrorBackend) : string :=
  "Error: Una o más columnas no existen en la base de datos. Por favor, contacta al administrador del sistema. Detalles: "
  ++ error_message e.

Definition msgInesperado (e : excepcion) : string :=
  "Error inesperado: " ++ mensajeDe e ++ ". Por favor, intenta nuevamente.".

(** [estudiante.nombre_completo_becado || estudiante.id_becado_interno
      || 'estudiante'] *)
Definition nombreMostrado (estudiante : fila) : string :=
  aTexto (oBien (campo estudiante "nombre_completo_becado")
            (oBien (campo estudiante "id_becado_interno")
               (VTexto "estudiante"))).

(** [!estudianteId || estudianteId.trim() === ''] *)
Definition idEnBlanco (estudianteId : string) : bool :=
  String.eqb estudianteId "" || String.eqb (Js.trim estudianteId) "".

Definition errorDeColumna (e : ErrorBackend) : bool :=
  String.eqb (error_code e) "PGRST202"
  || Js.includes (error_message e) "column"
  || Js.includes (error_message e) "does not exist".

Definition errorDePermiso (e : ErrorBackend) : bool :=
  String.eqb (error_code e) "PGRST301"
  || Js.includes (error_message e) "permission"
  || Js.includes (error_message e) "policy".

(** Steps 2 and 3 of both actions: the caller must be signed in and have a
    row in [usuarios_administrativos].  [inl] is the failure to return. *)
Definition verificarAdmin (msgSinPermiso : string)
  : Prog (Resultado + string) :=
  u <- llamar AuthGetUser ;;
  match error u, data u with
  | None, Some userId =>
      adm <- llamar
               (SelectUno T_usuarios_administrativos (Some ["id"])
                  (Eq "auth_user_id" (VTexto userId)) MaybeSingle) ;;
      let isAdmin :=
        match error adm, data adm with
        | None, Some _ => true
        | _, _ => false
        end in
      if negb isAdmin then Ret (inl (mkResultado false msgSinPermiso))
      else Ret (inr userId)
  | _, _ => Ret (inl (mkResultado false msgSinUsuario))
  end.

(** [.or(`id.eq.${estudianteId},id_becado_interno.eq.${estudianteId}`)] *)
Definition porIdOIdInterno (estudianteId : string) : Filtro :=
  OrEq "id" (VTexto estudianteId) "id_becado_interno" (VTexto estudianteId).

Definition datosReset : fila :=
  list_to_map
    [ ("fecha_de_nacimiento", VNull);
      ("telefono_llamada", VNull);
      ("telefono_whatsapp", VNull);
      ("id_becado_universidad", VNull);
      ("correo_estudiantil", VNull);
      ("departamento", VNull);
      ("municipio", VNull);
      ("distrito", VNull);
      ("nombre_emergencia", VNull);
      ("telefono_emergencia", VNull);
      ("parentesco_emergencia", VNull);
      ("tiene_una_discapacidad", VNull);
      ("detalle_discapacidad", VNull);
      ("miembro_de_consejo", VNull);
      ("becado_elite", VNull);
      ("url_carnet_digital", VNull);
      ("url_expediente_digital", VNull) ].

Definition msgErrorReset (e : ErrorBackend) : string :=
  "Error al resetear el perfil: "
  ++ oCadena (error_message e) "Error desconocido"
  ++ ". Por favor, intenta nuevamente.".

Definition msgReseteado (estudiante : fila) : string :=
  "Perfil de " ++ nombreMostrado estudiante
  ++ " reseteado exitosamente. El estudiante podrá completar el formulario nuevamente.".

Definition resetearPerfilEstudiante (estudianteId : string)
  : Prog Resultado :=
  intentar
    (if idEnBlanco estudianteId then Ret (mkResultado false msgIdInvalido)
     else
       adm <- verificarAdmin msgSinPermisoReset ;;
       match adm with
       | inl r => Ret r
       | inr _ =>
           (* Paso 4 *)
           re <- llamar
                   (SelectUno T_estudiantes
                      (Some ["id"; "id_becado_interno";
                             "nombre_completo_becado"])
                      (porIdOIdInterno estudianteId) MaybeSingle) ;;
           match error re, data re with
           | None, Some estudiante =>
               (* Pasos 5 y 6 *)
               ru <- llamar
                       (Update T_estudiantes datosReset
                          (Eq "id" (campo estudiante "id")) true) ;;
               match error ru with
               | Some e =>
                   if errorDeColumna e
                   then Ret (mkResultado false (msgColumnas e))
                   else if errorDePermiso e
                   then Ret (mkResultado false msgPermisosPerfil)
                   else Ret (mkResultado false (msgErrorReset e))
               | None =>
                   match data ru with
                   | None | Some [] => Ret (mkResultado false msgSinRegistro)
                   | Some _ =>
                       Ret (mkResultado true (msgReseteado estudiante))
                   end
               end
           | _, _ => Ret (mkResultado false msgNoEncontrado)
           end
       end)
    (fun e => Ret (mkResultado false (msgInesperado e))).

Definition datosDesvinculacion (nuevoOnboardingToken : string) : fila :=
  {[ "auth_user_id" := VNull;
     "ha_completado_onboarding" := VBool false;
     "onboarding_token" := VTexto nuevoOnboardingToken ]}.

Definition msgErrorDesvincular (e : ErrorBackend) : string :=
  "Error al desvincular el estudiante en la base de datos: "
  ++ oCadena (error_message e) "Error desconocido"
  ++ ". Por favor, intenta nuevamente.".

Definition msgParcialError (e : ErrorBackend) : string :=
  "El estudiante fue desvinculado en la base de datos, pero hubo un error al borrar el usuario de Auth: "
  ++ oCadena (error_message e) "Error desconocido"
  ++ ". Por favor, contacta al administrador del sistema.".

Definition msgParcialExcepcion (e : excepcion) : string :=
  "El estudiante fue desvinculado en la base de datos, pero hubo un error inesperado al borrar el usuario de Auth: "
  ++ mensajeDe e
  ++ ". Por favor, contacta al administrador del sistema.".

Definition msgDesvinculado (estudiante : fila) : string :=
  "Cuenta de " ++ nombreMostrado estudiante
  ++ " desvinculada exitosamente. El usuario de Auth ha sido eliminado y se ha generado un nuevo token de activación.".

(** Step 6 with its own [try]: [Some r] is the result to return, [None]
    falls through to the end of the action. *)
Definition borrarDeAuth (authUserId : valor) : Prog (option Resultado) :=
  if truthy authUserId
  then
    intentar
      (del <- llamar (AuthDeleteUser authUserId) ;;
       match error del with
       | Some e => Ret (Some (mkResultado false (msgParcialError e)))
       | None => Ret None
       end)
      (fun e => Ret (Some (mkResultado false (msgParcialExcepcion e))))
  else Ret None.

Definition desvincularCuentaEstudiante (estudianteId : string)
  : Prog Resultado :=
  intentar
    (if idEnBlanco estudianteId then Ret (mkResultado false msgIdInvalido)
     else
       adm <- verificarAdmin msgSinPermisoDesvincular ;;
       match adm with
       | inl r => Ret r
       | inr _ =>
           (* Paso 4 *)
           re <- llamar
                   (SelectUno T_estudiantes
                      (Some ["id"; "id_becado_interno";
                             "nombre_completo_becado"; "auth_user_id"])
                      (porIdOIdInterno estudianteId) MaybeSingle) ;;
           match error re, data re with
           | None, Some estudiante =>
               let authUserId := campo estudiante "auth_user_id" in
               (* Paso 5 *)
               nuevoOnboardingToken <- llamar RandomUUID ;;
               ru <- llamar
                       (Update T_estudiantes
                          (datosDesvinculacion nuevoOnboardingToken)
                          (Eq "id" (campo estudiante "id")) true) ;;
               match error ru with
               | Some e =>
                   if errorDeColumna e
                   then Ret (mkResultado false (msgColumnas e))
                   else if errorDePermiso e
                   then Ret (mkResultado false msgPermisosRegistro)
                   else Ret (mkResultado false (msgErrorDesvincular e))
               | None =>
                   match data ru with
                   | None | Some [] => Ret (mkResultado false msgSinRegistro)
                   | Some _ =>
                       (* Paso 6 *)
                       borrado <- borrarDeAuth authUserId ;;
                       match borrado with
                       | Some r => Ret r
                       | None =>
                           Ret (mkResultado true (msgDesvinculado estudiante))
                       end
                   end
               end
           | _, _ => Ret (mkResultado false msgNoEncontrado)
           end
       end)
    (fun e => Ret (mkResultado false (msgInesperado e))).

End Estudiantes.

(** ** src/middleware.ts *)

Module Middleware.

(** [return response] and [NextResponse.redirect(new URL(url, request.url))] *)
Inductive Respuesta : Type :=
| Continuar
| Redirigir (url : string).

Definition publicPaths : list string :=
  [ "/activar"; "/auth/callback"; "/login"; "/unauthorized" ].

Definition isPublicPath (pathname : string) : bool :=
  existsb (Js.startsWith pathname) publicPaths || String.eqb pathname "/".

Definition isAdminRoute (pathname : string) : bool :=
  Js.startsWith pathname "/admin".
Definition isDashboardRoute (pathname : string) : bool :=
  Js.startsWith pathname "/dashboard".
Definition isRootOrAuth (pathname : string) : bool :=
  String.eqb pathname "/" || Js.startsWith pathname "/login"
  || Js.startsWith pathname "/auth".

(** Step 4 for an administrator. *)
Definition reglasAdmin (pathname : string) : Respuesta :=
  if isDashboardRoute pathname || isRootOrAuth pathname
  then
    if negb (String.eqb pathname "/admin/dashboard")
    then Redirigir "/admin/dashboard" else Continuar
  else if isAdminRoute pathname then Continuar
  else if negb (String.eqb pathname "/admin/dashboard")
  then Redirigir "/admin/dashboard"
  else Continuar.

(** Step 4 for everybody else. *)
Definition reglasEstudiante (pathname : string) : Respuesta :=
  if isAdminRoute pathname then Redirigir "/dashboard"
  else if isDashboardRoute pathname then Continuar
  else if isRootOrAuth pathname then Redirigir "/dashboard"
  else if isPublicPath pathname then Continuar
  else Continuar.

(** [middleware(request)]; [pathname] is [request.nextUrl.pathname] and
    [user] is the user that [updateSession(request)] found in the session
    cookie ([updateSession] is not part of the sources at hand). *)
Definition middleware (pathname : string) (user : option string)
  : Prog Respuesta :=
  if isPublicPath pathname then Ret Continuar
  else
    match user with
    | None =>
        if negb (isPublicPath pathname) && negb (String.eqb pathname "/login")
        then Ret (Redirigir "/login")
        else Ret Continuar
    | Some userId =>
        intentar
          (adm <- llamar
                    (SelectUno T_usuarios_administrativos (Some ["id"])
                       (Eq "auth_user_id" (VTexto userId)) MaybeSingle) ;;
           let isAdmin :=
             match error adm, data adm with
             | None, Some _ => true
             | _, _ => false
             end in
           if isAdmin then Ret (reglasAdmin pathname)
           else Ret (reglasEstudiante pathname))
          (fun _ =>
             if isAdminRoute pathname then Ret (Redirigir "/dashboard")
             else Ret Continuar)
    end.

End Middleware.

(** ** src/unnamed/part_003: the page ActivarPage *)

Module PaginaActivar.

(** What the page shows. *)
Inductive Vista : Type :=
| TokenRequerido
| TokenInvalido (message : option string)
| Formulario (token : string) (nombreCompleto correoPredeterminado : valor)
    (error : option string).

(** [ActivarPage({ searchParams })]; [token] and [error] are the two
    parameters of the URL, [None] when absent. *)
Definition ActivarPage (token error : option string) : Prog Vista :=
  match token with
  | None => Ret TokenRequerido
  | Some t =>
      if String.eqb t "" then Ret TokenRequerido
      else
        validacion <- Activar.validarToken t ;;
        match Activar.v_success validacion,
              Activar.v_estudiante validacion with
        | true, Some (nombre, correo) =>
            Ret (Formulario t nombre correo error)
        | _, _ => Ret (TokenInvalido (Activar.v_message validacion))
        end
  end.

End PaginaActivar.

(** ** src/unnamed/part_004: the component AccesoRapido of the dashboard *)

Module AccesoRapido.

Record Opcion : Type := mkOpcion {
  titulo : string;
  descripcion : string;
  link : valor;
  internalLink : option string;
  textoBoton : string;
  esExterno : bool;
  habilitado : bool;
  tieneLink : bool;
  estaGenerando : bool
}.

(** [url === 'PENDIENTE'] *)
Definition esPendiente (url : valor) : bool :=
  match url with
  | VTexto s => String.eqb s "PENDIENTE"
  | _ => false
  end.

(** The first option, with the constants of the component that go into
    it. *)
Definition opcionCarnet (perfilCompleto : bool) (urlCarnet : valor)
  : Opcion :=
  let carnetEstaPendiente := esPendiente urlCarnet in
  let carnetLink :=
    if truthy urlCarnet && negb carnetEstaPendiente
    then urlCarnet else VNull in
  let carnetInternalLink :=
    if truthy urlCarnet && negb carnetEstaPendiente then None
    else if perfilCompleto then None else Some "/completar-perfil" in
  let carnetTexto :=
    if carnetEstaPendiente then "Generando Carnet..."
    else if truthy urlCarnet then "Ver Carnet"
    else if perfilCompleto then "Solicitar Carnet"
    else "Completar Perfil" in
  let carnetEsExterno := truthy urlCarnet && negb carnetEstaPendiente in
  let carnetTieneLink :=
    (truthy urlCarnet && negb carnetEstaPendiente)
    || (negb perfilCompleto && negb carnetEstaPendiente) in
  let carnetEstaGenerando := carnetEstaPendiente in
  mkOpcion "Mi Carnet Digital"
    (if carnetEstaPendiente
     then "Tu carnet digital se está generando. Estará disponible pronto."
     else if truthy urlCarnet
     then "Accede a tu ID virtual de estudiante."
     else if perfilCompleto
     then "Solicita tu carnet digital de estudiante."
     else "Completa tu perfil para obtener tu carnet digital.")
    carnetLink carnetInternalLink carnetTexto carnetEsExterno true
    carnetTieneLink carnetEstaGenerando.

(** The second option. *)
Definition opcionExpediente (perfilCompleto : bool) (urlExpediente : valor)
  : Opcion :=
  let expedienteEstaPendiente := esPendiente urlExpediente in
  let expedienteLink :=
    if truthy urlExpediente && negb expedienteEstaPendiente
    then urlExpediente else VNull in
  let expedienteInternalLink :=
    if truthy urlExpediente && negb expedienteEstaPendiente then None
    else if perfilCompleto then None else Some "/completar-perfil" in
  let expedienteTexto :=
    if expedienteEstaPendiente then "Generando Expediente..."
    else if truthy urlExpediente then "Ver Expediente"
    else if perfilCompleto then "Solicitar Expediente"
    else "Completar Perfil" in
  let expedienteEsExterno :=
    truthy urlExpediente && negb expedienteEstaPendiente in
  let expedienteTieneLink :=
    (truthy urlExpediente && negb expedienteEstaPendiente)
    || (negb perfilCompleto && negb expedienteEstaPendiente) in
  let expedienteEstaGenerando := expedienteEstaPendiente in
  mkOpcion "Mi Expediente"
    (if expedienteEstaPendiente
     then "Tu expediente digital se está generando. Estará disponible pronto."
     else if truthy urlExpediente
     then "Consulta tus datos personales y académicos."
     else if perfilCompleto
     then "Solicita tu expediente digital."
     else "Completa tu perfil para generar tu expediente.")
    expedienteLink expedienteInternalLink expedienteTexto
    expedienteEsExterno true expedienteTieneLink expedienteEstaGenerando.

Definition opcionHoras : Opcion :=
  mkOpcion "Mis Horas" "Revisa tu progreso de horas de voluntariado."
    VNull (Some "/horas-voluntariado") "Ver Detalles"
    false true true false.

Definition opcionReglamento : Opcion :=
  mkOpcion "Reglamento de Beca" "Consulta tus derechos y deberes oficiales."
    (VTexto "https://drive.google.com/file/d/1re1biPhFXCQH0BegBXE4Amzek4dklxuJ/view?usp=drive_link")
    None "Abrir Reglamento"
    true true true false.

Definition opciones (perfilCompleto : bool) (urlCarnet urlExpediente : valor)
  : list Opcion :=
  [ opcionCarnet perfilCompleto urlCarnet;
    opcionExpediente perfilCompleto urlExpediente;
    opcionHoras;
    opcionReglamento ].

(** The five cards the component can render for an option; the last one
    shows a disabled button 'Próximamente' instead of the text of the
    option. *)
Inductive Tarjeta : Type :=
| Generando (titulo descripcion textoBoton : string)
| EnlaceExterno (href : valor) (titulo descripcion textoBoton : string)
| EnlaceInterno (href : string) (titulo descripcion textoBoton : string)
| SinEnlace (titulo descripcion textoBoton : string)
| Proximamente (titulo descripcion : string).

(** The body of [opciones.map]: the first test that holds decides. *)
Definition tarjeta (opcion : Opcion) : Tarjeta :=
  if estaGenerando opcion
  then Generando (titulo opcion) (descripcion opcion) (textoBoton opcion)
  else if truthy (link opcion) && esExterno opcion && tieneLink opcion
  then EnlaceExterno (link opcion)
         (titulo opcion) (descripcion opcion) (textoBoton opcion)
  else
    let sinEnlace :=
      if habilitado opcion && negb (tieneLink opcion)
      then SinEnlace (titulo opcion) (descripcion opcion) (textoBoton opcion)
      else Proximamente (titulo opcion) (descripcion opcion) in
    match internalLink opcion with
    | Some href =>
        if negb (String.eqb href "") && tieneLink opcion
        then EnlaceInterno href
               (titulo opcion) (descripcion opcion) (textoBoton opcion)
        else sinEnlace
    | None => sinEnlace
    end.

Definition AccesoRapido (perfilCompleto : bool)
    (urlCarnet urlExpediente : valor) : list Tarjeta :=
  List.map tarjeta (opciones perfilCompleto urlCarnet urlExpediente).

End AccesoRapido.

(** ** src/app/(portal)/dashboard/page.tsx *)

Module Dashboard.

Definition mayuscula (c : ascii) : ascii :=
  let n := nat_of_ascii c in
  if Nat.leb 97 n && Nat.leb n 122 then ascii_of_nat (n - 32) else c.

(** [String.prototype.toUpperCase] *)
Fixpoint toUpperCase (s : string) : string :=
  match s with
  | EmptyString => EmptyString
  | String c r => String (mayuscula c) (toUpperCase r)
  end.

(** What the page hands to its heading and to [AccesoRapido]. *)
Record Props : Type := mkProps {
  saludo : string;
  nombreCompleto : valor;
  perfilCompleto : bool;
  urlCarnet : valor;
  urlExpediente : valor
}.

Definition camposExtra (estudianteExtra : fila) : fila :=
  {[ "nombre_emergencia" :=
       oBien (campo estudianteExtra "nombre_emergencia") VNull;
     "url_carnet" :=
       oBien (campo estudianteExtra "url_carnet")
         (oBien (campo estudianteExtra "url_carnet_digital") VNull);
     "url_expediente" :=
       oBien (campo estudianteExtra "url_expediente")
         (oBien (campo estudianteExtra "url_expediente_digital") VNull) ]}.

(** The second query, in its own [try]: an error and an exception are
    only logged, and the page goes on with the basic columns. *)
Definition consultarExtra (userId : string) (estudiante : fila)
  : Prog fila :=
  intentar
    (r <- llamar
            (SelectUno T_estudiantes None
               (Eq "auth_user_id" (VTexto userId)) MaybeSingle) ;;
     match error r, data r with
     | None, Some estudianteExtra =>
         Ret (aplicar (camposExtra estudianteExtra) estudiante)
     | _, _ => Ret estudiante
     end)
    (fun _ => Ret estudiante).

(** [errorBasico && errorBasico.code !== 'PGRST116'] *)
Definition esCritico (e : option ErrorBackend) : bool :=
  match e with
  | Some e => negb (String.eqb (error_code e) "PGRST116")
  | None => false
  end.

(** [Boolean(n && typeof n === 'string' && n.trim() !== '')] *)
Definition perfilCompletoDe (nombreEmergencia : valor) : bool :=
  match nombreEmergencia with
  | VTexto s => truthy (VTexto s) && negb (String.eqb (Js.trim s) "")
  | _ => false
  end.

(** [sexo?.toUpperCase() === 'MUJER' ? 'Bienvenida' : 'Bienvenido'];
    [toUpperCase] on a value that is neither null nor a string is a
    TypeError. *)
Definition saludoDe (sexo : valor) : Prog string :=
  match sexo with
  | VNull => Ret "Bienvenido"
  | VTexto s =>
      Ret (if String.eqb (toUpperCase s) "MUJER"
           then "Bienvenida" else "Bienvenido")
  | _ => Throw (ErrorJS "sexo.toUpperCase is not a function")
  end.

(** Step 4. *)
Definition presentar (estudiante : fila) : Prog Props :=
  let nombreCompleto :=
    oBien (campo estudiante "nombre_completo_becado") (VTexto "Becario") in
  let sexo := oBien (campo estudiante "sexo") VNull in
  let nombreEmergencia := oBien (campo estudiante "nombre_emergencia") VNull in
  let urlCarnet :=
    oBien (campo estudiante "url_carnet")
      (oBien (campo estudiante "url_carnet_digital") VNull) in
  let urlExpediente :=
    oBien (campo estudiante "url_expediente")
      (oBien (campo estudiante "url_expediente_digital") VNull) in
  saludo <- saludoDe sexo ;;
  Ret (mkProps saludo nombreCompleto (perfilCompletoDe nombreEmergencia)
         urlCarnet urlExpediente).

(** [DashboardPage()]: the props of the page when it renders; a redirect
    is thrown, as [redirect] of next/navigation does. *)
Definition DashboardPage : Prog Props :=
  u <- llamar AuthGetUser ;;
  match data u with
  | None => redirect "/login"
  | Some userId =>
      (* Paso 2 *)
      rb <- llamar
              (SelectUno T_estudiantes
                 (Some ["id"; "nombre_completo_becado"; "sexo"])
                 (Eq "auth_user_id" (VTexto userId)) MaybeSingle) ;;
      encontrado <-
        (if esCritico (error rb) then Ret (None, error rb)
         else
           match data rb with
           | Some estudianteBasico =>
               estudiante <- consultarExtra userId estudianteBasico ;;
               Ret (Some estudiante, None)
           | None => Ret (None, None)
           end) ;;
      let '(estudiante, estudianteError) := encontrado in
      match estudiante, estudianteError with
      | Some e, None => presentar e
      | _, _ =>
          (* Paso 3 *)
          adm <- llamar
                   (SelectUno T_usuarios_administrativos (Some ["id"])
                      (Eq "auth_user_id" (VTexto userId)) MaybeSingle) ;;
          let isAdmin :=
            match error adm, data adm with
            | None, Some _ => true
            | _, _ => false
            end in
          if isAdmin then redirect "/admin/dashboard"
          else
            match estudianteError with
            | Some _ => redirect "/unauthorized"
            | None =>
                match estudiante with
                | None => redirect "/unauthorized"
                | Some e => presentar e
                end
            end
      end
  end.

End Dashboard.

(** ** src/app/(portal)/completar-perfil/page.tsx, the page *)

Module CompletarPerfil.

(** [nombreEmergencia && nombreEmergencia.trim() !== '']; [trim] on a
    truthy value that is not a string is a TypeError. *)
Definition perfilCompleto (nombreEmergencia : valor) : Prog bool :=
  if negb (truthy nombreEmergencia) then Ret false
  else
    match nombreEmergencia with
    | VTexto s => Ret (negb (String.eqb (Js.trim s) ""))
    | _ => Throw (ErrorJS "nombreEmergencia.trim is not a function")
    end.

(** [CompletarPerfilPage()] up to step 4: the value is the row of the
    student from which step 5 fills in the wizard; a redirect is thrown. *)
Definition CompletarPerfilPage : Prog fila :=
  u <- llamar AuthGetUser ;;
  match data u with
  | None => redirect "/login"
  | Some userId =>
      (* Paso 2 *)
      re <- llamar
              (SelectUno T_estudiantes None
                 (Eq "auth_user_id" (VTexto userId)) MaybeSingle) ;;
      match error re, data re with
      | None, Some estudiante =>
          (* Pasos 3 y 4 *)
          completo <- perfilCompleto (campo estudiante "nombre_emergencia") ;;
          if completo : bool then redirect "/dashboard"
          else Ret estudiante
      | _, _ =>
          adm <- llamar
                   (SelectUno T_usuarios_administrativos (Some ["id"])
                      (Eq "auth_user_id" (VTexto userId)) MaybeSingle) ;;
          let isAdmin :=
            match error adm, data adm with
            | None, Some _ => true
            | _, _ => false
            end in
          if isAdmin then redirect "/admin/dashboard"
          else redirect "/unauthorized"
      end
  end.

End CompletarPerfil.

(** ** src/unnamed/part_000: the table of students of the administrator *)

Module TablaEstudiantes.

Inductive EstadoPerfil : Type := Completo | Pendiente.

(** [url !== null && url !== undefined && url.trim() !== '']; [trim] on a
    value that is not a string is a TypeError. *)
Definition tieneValor (url : valor) : Salida bool :=
  match url with
  | VNull => Normal false
  | VTexto s => Normal (negb (String.eqb (Js.trim s) ""))
  | _ => Excepcion (ErrorJS "url.trim is not a function")
  end.

Definition obtenerEstadoPerfil (urlCarnet urlExpediente : valor)
  : Salida EstadoPerfil :=
  match tieneValor urlCarnet with
  | Excepcion e => Excepcion e
  | Normal tieneCarnet =>
      match tieneValor urlExpediente with
      | Excepcion e => Excepcion e
      | Normal tieneExpediente =>
          Normal (if tieneCarnet || tieneExpediente
                  then Completo else Pendiente)
      end
  end.

(** The state shown in the row of [estudiante]. *)
Definition estadoDe (estudiante : fila) : Salida EstadoPerfil :=
  obtenerEstadoPerfil (campo estudiante "url_carnet_digital")
    (campo estudiante "url_expediente_digital").

End TablaEstudiantes.

(** ** src/lib/generar-documentos.ts: the name of the generated files *)

Module Documentos.

(** The function cuts its string at a position counted in UTF-16 code
    units, which can fall inside a character: here a string is the list of
    its code units. *)
Definition Cadena : Type := list N.

(** A literal of ASCII characters. *)
Definition literal (s : string) : Cadena :=
  List.map N_of_ascii (list_ascii_of_string s).

(** The white space of ECMAScript, which [trim] strips and [\s] matches:
    U+0009 to U+000D, U+0020, U+00A0, U+1680, U+2000 to U+200A, U+2028,
    U+2029, U+202F, U+205F, U+3000 and U+FEFF. *)
Definition esEspacio (u : N) : bool :=
  ((9 <=? u) && (u <=? 13) || (u =? 32) || (u =? 160) || (u =? 5760)
   || (8192 <=? u) && (u <=? 8202) || (u =? 8232) || (u =? 8233)
   || (u =? 8239) || (u =? 8287) || (u =? 12288) || (u =? 65279))%N.

Fixpoint quitarEspaciosInicio (l : Cadena) : Cadena :=
  match l with
  | [] => []
  | u :: r => if esEspacio u then quitarEspaciosInicio r else l
  end.

(** [String.prototype.trim] *)
Definition trim (l : Cadena) : Cadena :=
  rev (quitarEspaciosInicio (rev (quitarEspaciosInicio l))).

(** [.replace(/\s+/g, ' ')]: every run of white space becomes one space;
    [enRacha] says that the previous code unit was white space. *)
Fixpoint colapsarEspacios (enRacha : bool) (l : Cadena) : Cadena :=
  match l with
  | [] => []
  | u :: r =>
      if esEspacio u
      then if enRacha then colapsarEspacios true r
           else 32%N :: colapsarEspacios true r
      else u :: colapsarEspacios false r
  end.

(** The class of the second [replace]: one of the nine characters, given
    by their codes (less than, greater than, colon, double quote, slash,
    backslash, bar, question mark, asterisk), or a code up to 0x1f. *)
Definition problematico (u : N) : bool :=
  (u <=? 31)%N
  || existsb (N.eqb u) [60; 62; 58; 34; 47; 92; 124; 63; 42]%N.

Definition esGuion (u : N) : bool := (u =? 45)%N.

(** [.replace(/-+/g, '-')] *)
Fixpoint colapsarGuiones (enRacha : bool) (l : Cadena) : Cadena :=
  match l with
  | [] => []
  | u :: r =>
      if esGuion u
      then if enRacha then colapsarGuiones true r
           else u :: colapsarGuiones true r
      else u :: colapsarGuiones false r
  end.

Fixpoint quitarGuionesInicio (l : Cadena) : Cadena :=
  match l with
  | [] => []
  | u :: r => if esGuion u then quitarGuionesInicio r else l
  end.

(** [.replace(/^-+|-+$/g, '')] *)
Definition quitarGuionesExtremos (l : Cadena) : Cadena :=
  rev (quitarGuionesInicio (rev (quitarGuionesInicio l))).

Definition vacia (l : Cadena) : bool :=
  match l with
  | [] => true
  | _ :: _ => false
  end.

Definition sanearNombreArchivo (nombre : Cadena) : Cadena :=
  if vacia nombre then literal "SinNombre"
  else
    let normalizado := colapsarEspacios false (trim nombre) in
    let reemplazado :=
      List.map (fun u => if problematico u then 45%N else u) normalizado in
    let sinExtremos :=
      quitarGuionesExtremos (colapsarGuiones false reemplazado) in
    let nombreSaneado :=
      if Nat.ltb 150 (length sinExtremos)
      then trim (firstn 150 sinExtremos)
      else sinExtremos in
    if vacia nombreSaneado then literal "SinNombre" else nombreSaneado.

End Documentos.

(** ** src/app/login/actions.ts *)

(** This action reads the user out of the answer of the sign-in, which
    [AuthSignIn] does not carry; it is therefore written with the world
    passed along explicitly, on top of [ejecutar]. *)
Module Login.

Definition msgSinUsuario : string := "No se pudo iniciar sesión".
Definition msgInesperado : string :=
  "Error inesperado. Por favor, intenta nuevamente.".




End Login.

(** * Notions used in the statements *)

(** ** What a request can call *)

(** Every call that the tree can make satisfies [P]. *)
Inductive Todas (P : forall X, Op X -> Prop) {A : Type} : Prog A -> Prop :=
| Todas_ret (a : A) : Todas P (Ret a)
| Todas_throw (e : excepcion) : Todas P (Throw e)
| Todas_call {X} (op : Op X) (k : Salida X -> Prog A) :
    P X op -> (forall r, Todas P (k r)) -> Todas P (Call op k).

(** The call does not write table [t]. *)
Definition noEscribe (t : Tabla) (X : Type) (op : Op X) : Prop :=
  match op with
  | Update t' _ _ _ => t' <> t
  | Insert t' _ => t' <> t
  | _ => True
  end.

Module Rol.
Import Estudiantes.





End Rol.

(** Both messages of a partial unlink begin like this, and no other
    message of the action does. *)
Definition prefijoParcial : string :=
  "El estudiante fue desvinculado en la base de datos, pero hubo un error".

(** ** Who is calling *)

Module Permisos.

(** The lookup of the administrator row of [userId], as [middleware] and
    the actions on students make it. *)
Definition consultaAdmin (userId : string) : Op (Resp fila) :=
  SelectUno T_usuarios_administrativos (Some ["id"])
    (Eq "auth_user_id" (VTexto userId)) MaybeSingle.

(** Somebody is signed in and has exactly one row in
    [usuarios_administrativos]. *)
Definition llamadorEsAdmin (w : Mundo) : bool :=
  match sesion w with
  | Some userId =>
      match seleccionar (Eq "auth_user_id" (VTexto userId))
              (usuarios_administrativos w) with
      | [_] => true
      | _ => false
      end
  | None => false
  end.

End Permisos.

(** ** The password policy *)

(** The policy in the words of the specification: eight characters at
    least, counted in UTF-16 code units, an upper-case letter, a lower-case
    letter and a digit. *)
Definition contrasenaValida (password : string) : Prop :=
  8 <= Js.length password
  /\ Exists (fun c => 65 <= nat_of_ascii c <= 90)
       (list_ascii_of_string password)
  /\ Exists (fun c => 97 <= nat_of_ascii c <= 122)
       (list_ascii_of_string password)
  /\ Exists (fun c => 48 <= nat_of_ascii c <= 57)
       (list_ascii_of_string password).

(** ** Worlds of the scenarios *)

Module Escenario.

Definition jane : fila :=
  list_to_map
    [ ("id", VTexto "7");
      ("id_becado_interno", VTexto "BDI-042");
      ("nombre_completo_becado", VTexto "Jane Doe");
      ("correo_personal", VTexto "jane@example.org");
      ("ha_completado_onboarding", VBool false);
      ("onboarding_token", VTexto "tok-1") ].

(** Jane has been invited and nobody has signed up yet. *)
Definition invitada : Mundo :=
  mkMundo [jane] [] [] [] [] None [] [] ["uid-1"; "uid-2"; "uid-3"].

(** Jane after activation, with the wizard filled in. *)
Definition janeActiva : fila :=
  list_to_map
    [ ("id", VTexto "7");
      ("id_becado_interno", VTexto "BDI-042");
      ("nombre_completo_becado", VTexto "Jane Doe");
      ("correo_personal", VTexto "jane@example.org");
      ("ha_completado_onboarding", VBool true);
      ("onboarding_token", VNull);
      ("auth_user_id", VTexto "uid-1");
      ("telefono_llamada", VTexto "7000-0000");
      ("departamento", VTexto "San Salvador");
      ("becado_elite", VTexto "NO");
      ("url_carnet_digital", VTexto "https://cdn.example.org/carnet.pdf");
      ("url_expediente_digital", VTexto "PENDIENTE") ].

Definition solicitud (estado : string) : fila :=
  list_to_map
    [ ("id", VTexto "s-1");
      ("estudiante_id", VTexto "7");
      ("nombre_actividad", VTexto "Limpieza de playa");
      ("fecha_actividad", VTexto "2025-03-01");
      ("cantidad_horas", VNum (Finito 4));
      ("estado", VTexto estado) ].

Definition adminRow : fila :=
  list_to_map [ ("id", VTexto "a-1"); ("auth_user_id", VTexto "uid-admin") ].

(** One request of Jane in state [estado]; an administrator is signed in. *)
Definition conSolicitud (estado : string) : Mundo :=
  mkMundo [jane] [adminRow] [solicitud estado] []
    [mkUsuario "uid-admin" "admin@example.org" "Secreto123"]
    (Some "uid-admin") [] [] [].

(** Jane has an account; an administrator is signed in. *)
Definition activa : Mundo :=
  mkMundo [janeActiva] [adminRow] [solicitud "pendiente"] []
    [ mkUsuario "uid-admin" "admin@example.org" "Secreto123";
      mkUsuario "uid-1" "jane@example.org" "LongEnough1" ]
    (Some "uid-admin") [] [] ["tok-2"].

(** The same, and the credential store will refuse to delete an
    identity after four calls have gone through. *)
Definition borradoFalla : Mundo :=
  ponerGuion
    [ SinFallo; SinFallo; SinFallo; SinFallo;
      DevuelveError (mkError "unexpected_failure" "Database error deleting user") ]
    activa.

(** Jane has an account, and her row has lost the personal mail. *)
Definition janeSinCorreo : fila :=
  list_to_map
    [ ("id", VTexto "7");
      ("id_becado_interno", VTexto "BDI-042");
      ("nombre_completo_becado", VTexto "Jane Doe");
      ("ha_completado_onboarding", VBool true);
      ("onboarding_token", VNull);
      ("auth_user_id", VTexto "uid-1") ].

(** An administrator is signed in, and the credential store will refuse to
    delete an identity after four calls have gone through. *)
Definition borradoFallaSinCorreo : Mundo :=
  mkMundo [janeSinCorreo] [adminRow] [] []
    [ mkUsuario "uid-admin" "admin@example.org" "Secreto123";
      mkUsuario "uid-1" "jane@example.org" "LongEnough1" ]
    (Some "uid-admin") []
    [ SinFallo; SinFallo; SinFallo; SinFallo;
      DevuelveError (mkError "unexpected_failure" "Database error deleting user") ]
    ["tok-2"].

(** Both requests take turns, one backend call each. *)
Definition porTurnos : list bool :=
  [ true; false; true; false; true; false; true; false;
    true; false; true; false; true; false; true; false ].

End Escenario.

(** * Properties *)

(** ** Running a tree of calls *)

Section Ejecucion.

Context {A B : Type}.

Lemma run_bind (m : Prog A) (f : A -> Prog B) (w : Mundo) :
  run (bind m f) w =
  match run m w with
  | (Normal a, w') => run (f a) w'
  | (Excepcion e, w') => (Excepcion e, w')
  end.
Proof.
  revert w; induction m as [a | e | X op k IH]; intros w; cbn [bind run].
  - reflexivity.
  - reflexivity.
  - destruct (ejecutar op w) as [r w']. apply IH.
Qed.

Lemma run_intentar (m : Prog A) (h : excepcion -> Prog A) (w : Mundo) :
  run (intentar m h) w =
  match run m w with
  | (Normal a, w') => (Normal a, w')
  | (Excepcion e, w') => run (h e) w'
  end.
Proof.
  revert w; induction m as [a | e | X op k IH]; intros w; cbn [intentar run].
  - reflexivity.
  - reflexivity.
  - destruct (ejecutar op w) as [r w']. apply IH.
Qed.

End Ejecucion.

Lemma run_llamar {X} (op : Op X) (w : Mundo) :
  run (llamar op) w = ejecutar op w.
Proof.
  unfold llamar; cbn [run].
  destruct (ejecutar op w) as [[x | e] w']; reflexivity.
Qed.

(** ** The script of faults *)

Lemma ponerAzar_azar (w : Mundo) : ponerAzar (azar w) w = w.
Proof. destruct w; reflexivity. Qed.

Lemma tomarAzar_mundo (w m : Mundo) (s : string) :
  tomarAzar w = (s, m) -> m = ponerAzar (tail (azar w)) w.
Proof.
  unfold tomarAzar. destruct (azar w) as [| u r] eqn:E; intros H;
    injection H as _ <-; cbn [tail].
  - rewrite <- E. symmetry. apply ponerAzar_azar.
  - reflexivity.
Qed.

Lemma ponerGuion_guion (w : Mundo) : ponerGuion (guion w) w = w.
Proof. destruct w; reflexivity. Qed.

Lemma leerTabla_avanzar (t : Tabla) (w : Mundo) :
  leerTabla t (avanzar w) = leerTabla t w.
Proof. destruct t; reflexivity. Qed.

Lemma tranquilas_avanzar (n : nat) (w : Mundo) :
  tranquilas (S n) (guion w) = true ->
  tranquilas n (guion (avanzar w)) = true.
Proof.
  unfold avanzar; cbn [guion ponerGuion].
  destruct (guion w) as [| [| e | m] g]; cbn [tranquilas tail];
    try discriminate; auto.
  destruct n; reflexivity.
Qed.

Lemma tranquilas_menos (n : nat) (g : list Fallo) :
  tranquilas (S n) g = true -> tranquilas n g = true.
Proof.
  revert g; induction n as [| n IH]; intros g H; [reflexivity |].
  destruct g as [| [| e | m] g]; cbn [tranquilas] in *;
    try discriminate; auto.
Qed.

(** An undisturbed call behaves normally. *)
Lemma ejecutar_tranquila {X} (op : Op X) (w : Mundo) (n : nat) :
  tranquilas (S n) (guion w) = true ->
  esRemota op = true ->
  ejecutar op w = sinFallo op (avanzar w).
Proof.
  intros Hg Hop. unfold ejecutar, tomarFallo, avanzar. rewrite Hop.
  destruct (guion w) as [| [| e | m] g] eqn:Eg; cbn [tranquilas tail] in *;
    try discriminate.
  - rewrite <- Eg, ponerGuion_guion. reflexivity.
  - reflexivity.
Qed.

(** A call either behaves normally, or comes back with the error of the
    script, or throws; the script moves on in the three cases. *)
Lemma ejecutar_casos {X} (op : Op X) (w : Mundo) :
  esRemota op = true ->
  (tranquilas 1 (guion w) = true
   /\ ejecutar op w = sinFallo op (avanzar w))
  \/ (exists e x g,
        guion w = DevuelveError e :: g
        /\ conError op e = Some x
        /\ ejecutar op w = (Normal x, avanzar w))
  \/ (exists m g,
        guion w = Lanza m :: g
        /\ ejecutar op w = (Excepcion (ErrorJS m), avanzar w)).
Proof.
  intros Hop. unfold ejecutar, tomarFallo, avanzar. rewrite Hop.
  destruct (guion w) as [| [| e | m] g] eqn:Eg; cbn [tail].
  - left. split; [reflexivity |].
    rewrite <- Eg, ponerGuion_guion. reflexivity.
  - left. split; reflexivity.
  - right; left. exists e.
    destruct op; try discriminate Hop; cbn [conError]; eauto.
  - right; right. eauto.
Qed.

(** [randomUUID] is local: it draws from [azar] and is not scripted. *)
Lemma ejecutar_uuid (w : Mundo) :
  ejecutar RandomUUID w
  = (Normal (hd uuidPorDefecto (azar w)), ponerAzar (tail (azar w)) w).
Proof.
  unfold ejecutar, sinFallo, normal, tomarAzar; cbn [esRemota].
  destruct (azar w) as [| u r] eqn:E; cbn [hd tail]; [| reflexivity].
  rewrite <- E, ponerAzar_azar. reflexivity.
Qed.

(** ** Rows and tables *)

Lemma campo_aplicar_escrito (cambios f : fila) (c : string) (v : valor) :
  cambios !! c = Some v -> campo (aplicar cambios f) c = v.
Proof.
  intros H. unfold campo, aplicar.
  rewrite (lookup_union_Some_l cambios f c v H). reflexivity.
Qed.

Lemma campo_aplicar_intacto (cambios f : fila) (c : string) :
  cambios !! c = None -> campo (aplicar cambios f) c = campo f c.
Proof.
  intros H. unfold campo, aplicar. rewrite lookup_union_r; auto.
Qed.

Lemma proyectarCols_lookup (cols : list string) (f : fila) (c : string) :
  proyectarCols cols f !! c = if decide (c ∈ cols) then f !! c else None.
Proof.
  induction cols as [| x cols IH]; cbn [proyectarCols].
  - rewrite lookup_empty. destruct (decide (c ∈ [])) as [Hin |]; [| done].
    inversion Hin.
  - destruct (decide (x = c)) as [-> | Hne].
    + rewrite decide_True by (left; reflexivity).
      destruct (f !! c) as [v |] eqn:Ef.
      * rewrite lookup_insert_eq. reflexivity.
      * rewrite IH. destruct (decide (c ∈ cols)); auto.
    + assert (Hiff : c ∈ x :: cols <-> c ∈ cols).
      { rewrite elem_of_cons. split; [intros [-> | ?]; [congruence | done] | auto]. }
      destruct (f !! x) as [v |].
      * rewrite lookup_insert_ne by done. rewrite IH.
        destruct (decide (c ∈ cols)), (decide (c ∈ x :: cols)); tauto.
      * rewrite IH.
        destruct (decide (c ∈ cols)), (decide (c ∈ x :: cols)); tauto.
Qed.

Lemma campo_proyectar (cols : list string) (f : fila) (c : string) :
  c ∈ cols -> campo (proyectar (Some cols) f) c = campo f c.
Proof.
  intros Hin. unfold campo, proyectar. rewrite proyectarCols_lookup.
  rewrite decide_True by done. reflexivity.
Qed.

Lemma numero_eqb_derecha (a b : numero) :
  numero_eqb a b = true -> numero_eqb b b = true.
Proof.
  destruct a as [| p | x], b as [| q | y]; cbn; try discriminate; intros H.
  - apply Qeq_bool_iff. reflexivity.
  - destruct y; reflexivity.
Qed.

Lemma valor_eqb_derecha (a b : valor) :
  valor_eqb a b = true -> valor_eqb b b = true.
Proof.
  destruct a as [| s | x | m], b as [| t | y | n]; cbn; try discriminate;
    intros H.
  - apply String.eqb_refl.
  - destruct y; reflexivity.
  - eapply numero_eqb_derecha; eauto.
Qed.

Lemma selectUno_dato t cols q m w d :
  data (selectUno t cols q m w) = Some d ->
  exists f, seleccionar q (leerTabla t w) = [f] /\ d = proyectar cols f.
Proof.
  unfold selectUno.
  destruct (seleccionar q (leerTabla t w)) as [| f [| f' l]], m;
    cbn; intros H; try discriminate.
  - injection H as <-. eauto.
  - injection H as <-. eauto.
Qed.

Lemma selectUno_vacio t cols q m w :
  error (selectUno t cols q m w) = None ->
  data (selectUno t cols q m w) = None ->
  seleccionar q (leerTabla t w) = [].
Proof.
  unfold selectUno.
  destruct (seleccionar q (leerTabla t w)) as [| f [| f' l]], m;
    cbn; intros H1 H2; try discriminate; reflexivity.
Qed.

Lemma seleccionar_uno_lookup q (l : list fila) (f : fila) :
  seleccionar q l = [f] ->
  cumple q f = true /\ exists i, l !! i = Some f.
Proof.
  intros H.
  assert (Hin : In f (seleccionar q l)) by (rewrite H; left; reflexivity).
  unfold seleccionar in Hin. apply filter_In in Hin as [Hin Hq].
  split; [exact Hq |].
  apply list_elem_of_In, list_elem_of_lookup in Hin. exact Hin.
Qed.

Lemma seleccionar_no_vacio q (l : list fila) :
  seleccionar q l <> [] -> exists f, In f l /\ cumple q f = true.
Proof.
  intros H. destruct (seleccionar q l) as [| f r] eqn:E; [congruence |].
  exists f. apply filter_In. unfold seleccionar in E. rewrite E. left.
  reflexivity.
Qed.

Lemma length_actualizar q cambios (l : list fila) :
  length (actualizar q cambios l) = length l.
Proof. unfold actualizar. apply length_map. Qed.

Lemma actualizar_lookup q cambios (l : list fila) (i : nat) (f : fila) :
  l !! i = Some f ->
  actualizar q cambios l !! i
  = Some (if cumple q f then aplicar cambios f else f).
Proof.
  intros H. unfold actualizar.
  change (List.map ?g l) with (g <$> l).
  rewrite list_lookup_fmap, H. reflexivity.
Qed.

(** An update that matches no row changes nothing. *)
Lemma actualizar_sin_filas q cambios (l : list fila) :
  seleccionar q l = [] -> actualizar q cambios l = l.
Proof.
  unfold seleccionar, actualizar.
  induction l as [| f l IH]; cbn [List.map List.filter]; [reflexivity |].
  destruct (cumple q f); [discriminate |].
  intros H. rewrite IH by exact H. reflexivity.
Qed.

(** An update that leaves the filtered columns alone selects the rows it
    has just written. *)
Lemma seleccionar_actualizar q cambios (l : list fila) :
  (forall f, cumple q (aplicar cambios f) = cumple q f) ->
  seleccionar q (actualizar q cambios l)
  = List.map (aplicar cambios) (seleccionar q l).
Proof.
  intros Hq. unfold seleccionar, actualizar.
  induction l as [| f l IH]; cbn [List.map List.filter]; [reflexivity |].
  destruct (cumple q f) eqn:E.
  - rewrite Hq, E. cbn [List.map]. rewrite IH. reflexivity.
  - rewrite E. exact IH.
Qed.

(** ** Symbolic execution of a request *)

Arguments campo : simpl never.
Arguments aplicar : simpl never.
Arguments seleccionar : simpl never.
Arguments actualizar : simpl never.
Arguments proyectar : simpl never.
Arguments truthy : simpl never.
Arguments valor_eqb : simpl never.
Arguments ejecutar : simpl never.
Arguments selectUno : simpl never.
Arguments Estudiantes.datosReset : simpl never.
Arguments Estudiantes.datosDesvinculacion : simpl never.
Arguments Activar.datosActivacion : simpl never.
Arguments Solicitudes.horasData : simpl never.
Arguments Solicitudes.yaProcesada : simpl never.
Arguments Solicitudes.idInvalido : simpl never.
Arguments Solicitudes.cantidadHorasFinal : simpl never.
Arguments Estudiantes.idEnBlanco : simpl never.
Arguments isNaN : simpl never.
Arguments menorIgualCero : simpl never.
Arguments Js.trim : simpl never.
Arguments Js.toLowerCase : simpl never.
Arguments Js.includes : simpl never.
Arguments String.eqb : simpl never.
Arguments String.append : simpl never.

(** Case analysis on the innermost scrutinee of a [match] in [H]. *)
Ltac romper_en x :=
  lazymatch x with
  | context [ejecutar] => fail
  | context [match ?y with _ => _ end] => romper_en y
  | _ => first [ is_var x; destruct x | destruct x eqn:? ]
  end.

Ltac romper H :=
  match type of H with
  | context [match ?x with _ => _ end] => romper_en x
  end.

(** The three outcomes of the next backend call in [H]. *)
Ltac llamada H :=
  match type of H with
  | context [ejecutar ?op ?w] =>
      let E := fresh "E" in
      let Hc := fresh "Hc" in
      destruct (ejecutar_casos op w eq_refl)
        as [(_ & E) | [(? & ? & ? & _ & Hc & E) | (? & ? & _ & E)]];
      rewrite E in H; clear E;
      [ unfold sinFallo, normal in H
      | cbn in Hc; injection Hc as <-
      | ];
      cbn in H
  end.

(** The same for the next call of the goal; the script is kept. *)
Ltac llamada_meta :=
  match goal with
  | |- context [ejecutar ?op ?w] =>
      let E := fresh "E" in
      let Hc := fresh "Hc" in
      let Hg := fresh "Hguion" in
      destruct (ejecutar_casos op w eq_refl)
        as [(Hg & E) | [(? & ? & ? & Hg & Hc & E) | (? & ? & Hg & E)]];
      rewrite E; clear E;
      [ unfold sinFallo, normal
      | cbn in Hc; injection Hc as <-
      | ];
      cbn
  end.

Lemma selectUno_uno t cols q m w f :
  seleccionar q (leerTabla t w) = [f] ->
  selectUno t cols q m w = respOk (proyectar cols f).
Proof. intros H. unfold selectUno. rewrite H. destruct m; reflexivity. Qed.

(** The next call of the goal is not disturbed: [Hg] says so. *)
Ltac tranquila Hg :=
  match goal with
  | |- context [ejecutar ?op ?w] =>
      rewrite (ejecutar_tranquila op w _ Hg) by reflexivity;
      apply tranquilas_avanzar in Hg;
      unfold sinFallo, normal; cbn
  end.

Ltac simbolico H :=
  cbn in H;
  repeat (first [ discriminate H
                | rewrite ejecutar_uuid in H; cbn in H
                | llamada H
                | romper H; cbn in H ]).

(** ** Calls of a request, one by one *)

Section TodasLemas.

Variable P : forall X, Op X -> Prop.

Lemma Todas_bind {A B} (m : Prog A) (f : A -> Prog B) :
  Todas P m -> (forall a, Todas P (f a)) -> Todas P (bind m f).
Proof.
  intros Hm Hf. induction Hm as [a | e | X op k Hop Hk IH]; cbn [bind].
  - apply Hf.
  - constructor.
  - constructor; auto.
Qed.

Lemma Todas_intentar {A} (m : Prog A) (h : excepcion -> Prog A) :
  Todas P m -> (forall e, Todas P (h e)) -> Todas P (intentar m h).
Proof.
  intros Hm Hh. induction Hm as [a | e | X op k Hop Hk IH]; cbn [intentar].
  - constructor.
  - apply Hh.
  - constructor; auto.
Qed.

Lemma Todas_llamar {X} (op : Op X) : P X op -> Todas P (llamar op).
Proof.
  intros Hop. unfold llamar. constructor; [exact Hop |].
  intros [x | e]; constructor.
Qed.

(** A property of the world that every such call keeps is kept by the
    whole request. *)
Lemma run_conserva {A} (I : Mundo -> Prop) (m : Prog A) :
  (forall X (op : Op X) w, P X op -> I w -> I (snd (ejecutar op w))) ->
  Todas P m -> forall w, I w -> I (snd (run m w)).
Proof.
  intros Hop Hm. induction Hm as [a | e | X op k Hp Hk IH]; intros w Hw;
    cbn [run snd]; auto.
  specialize (Hop X op w Hp Hw).
  destruct (ejecutar op w) as [r w']. apply IH. exact Hop.
Qed.


End TodasLemas.

(** Proves [Todas P m] for a tree given by the source constructs. *)
Ltac todas :=
  repeat first
    [ apply Todas_ret
    | apply Todas_throw
    | apply Todas_llamar
    | apply Todas_bind
    | apply Todas_intentar
    | progress intros
    | match goal with
      | |- Todas _ (match ?x with _ => _ end) => destruct x
      | |- Todas _ (if ?x then _ else _) => destruct x
      | |- Todas _ (let _ := _ in _) => cbv zeta
      end ].

Lemma leerTabla_ponerTabla_otra (t t' : Tabla) (l : list fila) (w : Mundo) :
  t' <> t -> leerTabla t (ponerTabla t' l w) = leerTabla t w.
Proof. destruct t, t'; intros H; try reflexivity; congruence. Qed.

Lemma normal_noEscribe (t : Tabla) {X} (op : Op X) (w : Mundo) :
  noEscribe t X op ->
  leerTabla t (snd (normal op w)) = leerTabla t w.
Proof.
  destruct op; cbn [normal noEscribe]; intros Hop.
  - reflexivity.
  - apply leerTabla_ponerTabla_otra, Hop.
  - apply leerTabla_ponerTabla_otra, Hop.
  - destruct (sesion w); reflexivity.
  - destruct (String.eqb email ""); [reflexivity |].
    destruct (existsb (tieneEmail email) (auth_users w)); [reflexivity |].
    unfold tomarAzar. destruct (azar w); destruct t; reflexivity.
  - destruct (existsb (tieneId id) (auth_users w)); destruct t; reflexivity.
  - destruct (List.find _ (auth_users w)); destruct t; reflexivity.
  - destruct t; reflexivity.
  - unfold tomarAzar. destruct (azar w); destruct t; reflexivity.
Qed.

Lemma ejecutar_noEscribe (t : Tabla) {X} (op : Op X) (w : Mundo) :
  noEscribe t X op ->
  leerTabla t (snd (ejecutar op w)) = leerTabla t w.
Proof.
  intros Hop. unfold ejecutar, tomarFallo, sinFallo.
  pose proof (normal_noEscribe t op) as Hn.
  destruct (esRemota op).
  - destruct (guion w) as [| [| e | m] g].
    + specialize (Hn w Hop). destruct (normal op w). exact Hn.
    + specialize (Hn (ponerGuion g w) Hop).
      destruct (normal op (ponerGuion g w)).
      cbn [snd] in *. rewrite Hn. destruct t; reflexivity.
    + destruct (conError op e).
      * destruct t; reflexivity.
      * specialize (Hn (ponerGuion g w) Hop).
        destruct (normal op (ponerGuion g w)).
        cbn [snd] in *. rewrite Hn. destruct t; reflexivity.
    + destruct t; reflexivity.
  - specialize (Hn w Hop). destruct (normal op w). exact Hn.
Qed.

(** A request that never writes a table leaves it as it was. *)
Lemma run_noEscribe (t : Tabla) {A} (m : Prog A) (w : Mundo) :
  Todas (noEscribe t) m -> leerTabla t (snd (run m w)) = leerTabla t w.
Proof.
  intros Hm.
  apply (run_conserva (noEscribe t)
           (fun w' => leerTabla t w' = leerTabla t w) m); auto.
  intros X op w0 Hop Hw0. rewrite ejecutar_noEscribe; auto.
Qed.

(** ** Access control gate *)

Module MiddlewareProps.
Import Middleware.

(** C7.  The three scenarios of the policy table: an anonymous caller on
    /admin/dashboard is sent to /login; a caller with a row in
    usuarios_administrativos on /dashboard is sent to /admin/dashboard; a
    signed-in caller without such a row on /admin/estudiantes is sent to
    /dashboard, however the lookup goes. *)
Theorem middleware_escenarios :
  (forall w,
     fst (run (middleware "/admin/dashboard" None) w)
     = Normal (Redirigir "/login"))
  /\ (forall w userId adminData,
        tranquilas 1 (guion w) = true ->
        seleccionar (Eq "auth_user_id" (VTexto userId))
          (usuarios_administrativos w) = [adminData] ->
        fst (run (middleware "/dashboard" (Some userId)) w)
        = Normal (Redirigir "/admin/dashboard"))
  /\ (forall w userId,
        seleccionar (Eq "auth_user_id" (VTexto userId))
          (usuarios_administrativos w) = [] ->
        fst (run (middleware "/admin/estudiantes" (Some userId)) w)
        = Normal (Redirigir "/dashboard")).
Proof.
  split; [| split].
  - intros w. reflexivity.
  - intros w userId adminData Hg Hsel.
    unfold middleware.
    change (isPublicPath "/dashboard") with false. cbv iota.
    rewrite run_intentar, run_bind, run_llamar.
    rewrite (ejecutar_tranquila _ _ 0 Hg) by reflexivity.
    unfold sinFallo, normal, selectUno.
    rewrite leerTabla_avanzar. cbn [leerTabla].
    rewrite Hsel. reflexivity.
  - intros w userId Hsel.
    unfold middleware.
    change (isPublicPath "/admin/estudiantes") with false. cbv iota.
    rewrite run_intentar, run_bind, run_llamar.
    unfold ejecutar, tomarFallo; cbn [esRemota].
    destruct (guion w) as [| [| e | m] g];
      unfold sinFallo, normal, selectUno; cbn [leerTabla ponerGuion usuarios_administrativos conError];
      try rewrite Hsel; reflexivity.
Qed.

Lemma middleware_escenarios_witness :
  fst (run (middleware "/dashboard" (Some "uid-admin"))
         (Escenario.conSolicitud "pendiente"))
  = Normal (Redirigir "/admin/dashboard")
  /\ fst (run (middleware "/admin/estudiantes" (Some "uid-1"))
            (Escenario.conSolicitud "pendiente"))
     = Normal (Redirigir "/dashboard").
Proof.
  split.
  - apply (proj1 (proj2 middleware_escenarios)
             (Escenario.conSolicitud "pendiente") "uid-admin"
             Escenario.adminRow); reflexivity.
  - apply (proj2 (proj2 middleware_escenarios)). reflexivity.
Defined.

Lemma noPublica_rootOrAuth (pathname : string) :
  isPublicPath pathname = false ->
  isRootOrAuth pathname = Js.startsWith pathname "/auth".
Proof.
  unfold isPublicPath, isRootOrAuth, publicPaths; cbn [existsb].
  intros H. rewrite !orb_false_iff in H.
  destruct H as [(_ & _ & Hlogin & _) Hroot].
  rewrite Hroot, Hlogin. reflexivity.
Qed.

(** C8 (as amended).  When the lookup of the administrator row fails the
    request still gets an answer.  If the lookup comes back with an error
    the caller is routed by the rules for students; if it throws, the
    admin area is refused and every other route is let through.  The two
    agree, and amount to "admin area refused, the rest allowed", on every
    route that does not begin with /auth. *)
Theorem middleware_consulta_fallida (pathname userId : string) (w : Mundo) :
  isPublicPath pathname = false ->
  (forall e g,
     guion w = DevuelveError e :: g ->
     fst (run (middleware pathname (Some userId)) w)
     = Normal (reglasEstudiante pathname))
  /\ (forall m g,
        guion w = Lanza m :: g ->
        fst (run (middleware pathname (Some userId)) w)
        = Normal (if isAdminRoute pathname
                  then Redirigir "/dashboard" else Continuar))
  /\ (isAdminRoute pathname = true ->
        reglasEstudiante pathname = Redirigir "/dashboard")
  /\ (Js.startsWith pathname "/auth" = false ->
        reglasEstudiante pathname
        = if isAdminRoute pathname then Redirigir "/dashboard" else Continuar).
Proof.
  intros Hpub. repeat split.
  - intros e g Hg. unfold middleware. rewrite Hpub.
    rewrite run_intentar, run_bind, run_llamar.
    unfold ejecutar, tomarFallo; cbn [esRemota]. rewrite Hg. reflexivity.
  - intros m g Hg. unfold middleware. rewrite Hpub.
    rewrite run_intentar, run_bind, run_llamar.
    unfold ejecutar, tomarFallo; cbn [esRemota]. rewrite Hg.
    cbn [conError]. destruct (isAdminRoute pathname); reflexivity.
  - intros Hadm. unfold reglasEstudiante. rewrite Hadm. reflexivity.
  - intros Hauth. unfold reglasEstudiante.
    rewrite (noPublica_rootOrAuth _ Hpub), Hauth, Hpub.
    destruct (isAdminRoute pathname), (isDashboardRoute pathname);
      reflexivity.
Qed.

Lemma middleware_consulta_fallida_witness :
  fst (run (middleware "/admin/estudiantes" (Some "uid-1"))
         (ponerGuion [Lanza "fetch failed"]
            (Escenario.conSolicitud "pendiente")))
  = Normal (Redirigir "/dashboard")
  /\ fst (run (middleware "/horas-voluntariado" (Some "uid-1"))
            (ponerGuion [DevuelveError errorFilas]
               (Escenario.conSolicitud "pendiente")))
     = Normal Continuar.
Proof.
  split.
  - apply (proj1 (proj2 (middleware_consulta_fallida "/admin/estudiantes"
             "uid-1" _ eq_refl)) "fetch failed" []).
    reflexivity.
  - apply (proj1 (middleware_consulta_fallida "/horas-voluntariado"
             "uid-1" _ eq_refl) errorFilas []).
    reflexivity.
Defined.

(** C8 as it is written fails on a route such as /auth/confirm, which is
    neither public nor in the admin area: when the lookup throws, the
    caller is let through although the rules for students send it to
    /dashboard; when the lookup returns an error, the caller is sent to
    /dashboard and so is not "allowed elsewhere". *)
Lemma middleware_consulta_fallida_contraejemplo :
  let w f := ponerGuion [f] (Escenario.conSolicitud "pendiente") in
  isAdminRoute "/auth/confirm" = false
  /\ fst (run (middleware "/auth/confirm" (Some "uid-1"))
            (w (Lanza "fetch failed")))
     = Normal Continuar
  /\ fst (run (middleware "/auth/confirm" (Some "uid-1")) (w SinFallo))
     = Normal (Redirigir "/dashboard")
  /\ fst (run (middleware "/auth/confirm" (Some "uid-1"))
            (w (DevuelveError errorFilas)))
     = Normal (Redirigir "/dashboard").
Proof. repeat split. Qed.

End MiddlewareProps.

(** ** Activation tokens *)

Module ActivarProps.
Import Activar.

(** C1 (the code departs from it).  Two activations with the same token
    take turns.  The update of the second one matches no row and returns
    no error, so nothing is compensated: both callers are sent to
    /dashboard, both identities stay in the credential store, and the
    student row is linked to the first one only. *)
Theorem activar_carrera_sin_compensacion :
  let '(p, q, w) :=
    intercalar Escenario.porTurnos
      (activarCuenta "tok-1" "a@example.org" "LongEnough1")
      (activarCuenta "tok-1" "b@example.org" "LongEnough1")
      Escenario.invitada in
  p = redirect "/dashboard"
  /\ q = redirect "/dashboard"
  /\ auth_users w
     = [ mkUsuario "uid-1" "a@example.org" "LongEnough1";
         mkUsuario "uid-2" "b@example.org" "LongEnough1" ]
  /\ List.map (fun f => campo f "auth_user_id") (estudiantes w)
     = [ VTexto "uid-1" ].
Proof. vm_compute. repeat split. Qed.

Lemma crearYVincular_vincula (w w' : Mundo)
    (token email password authUserId : string) :
  run (crearYVincular token email password) w
  = (Normal (inr authUserId), w') ->
  estudiantes w'
  = actualizar (Eq "onboarding_token" (VTexto token))
      (datosActivacion authUserId email) (estudiantes w).
Proof.
  intros H. unfold crearYVincular in H.
  simbolico H.
  match goal with
  | Ha : tomarAzar _ = _ |- _ => apply tomarAzar_mundo in Ha as ->
  end.
  injection H as <- <-. reflexivity.
Qed.

Lemma crearYVincular_excepcion (w w' : Mundo)
    (token email password : string) (e : excepcion) :
  run (crearYVincular token email password) w = (Excepcion e, w') ->
  esRedirect e = false.
Proof.
  intros H. unfold crearYVincular in H.
  simbolico H; injection H as <- _; reflexivity.
Qed.

Lemma correoYSesion_noEscribe (authUserId email password : string) :
  Todas (noEscribe T_estudiantes)
    (correoYSesion authUserId email password).
Proof. unfold correoYSesion, enviarBienvenida, redirect. todas; exact I. Qed.

Lemma validarToken_noEscribe (token : string) :
  Todas (noEscribe T_estudiantes) (validarToken token).
Proof. unfold validarToken. todas; exact I. Qed.

Lemma validarToken_excepcion (w w' : Mundo) (token : string)
    (e : excepcion) :
  run (validarToken token) w = (Excepcion e, w') -> esRedirect e = false.
Proof.
  intros H. unfold validarToken in H.
  simbolico H; injection H as <- _; reflexivity.
Qed.

(** No row carries a token that has just been burnt. *)
Lemma seleccionar_quemado (token authUserId email : string)
    (l : list fila) :
  seleccionar (Eq "onboarding_token" (VTexto token))
    (actualizar (Eq "onboarding_token" (VTexto token))
       (datosActivacion authUserId email) l)
  = [].
Proof.
  unfold seleccionar, actualizar.
  induction l as [| f l IH]; cbn [List.map List.filter]; [reflexivity |].
  destruct (cumple (Eq "onboarding_token" (VTexto token)) f) eqn:E.
  - cbn [cumple].
    rewrite (campo_aplicar_escrito _ _ _ VNull) by (vm_compute; reflexivity).
    exact IH.
  - rewrite E. exact IH.
Qed.

(** C2 (as amended).  After an activation that ended in a redirect, no
    student row carries the token any more: validating the token again
    reports 'Token inválido o no encontrado' and never a valid token
    (it can only throw instead, when the backend call itself throws). *)
Theorem validar_tras_activar (w w1 : Mundo)
    (token email password url : string) :
  run (activarCuenta token email password) w
  = (Excepcion (NextRedirect url), w1) ->
  seleccionar (Eq "onboarding_token" (VTexto token)) (estudiantes w1) = []
  /\ match run (validarToken token) w1 with
     | (Normal v, _) => v = mkValidacion false (Some msgTokenInvalido) None
     | (Excepcion e, _) =>
         exists m g, guion w1 = Lanza m :: g /\ e = ErrorJS m
     end.
Proof.
  intros H.
  assert (Hsel : seleccionar (Eq "onboarding_token" (VTexto token))
                   (estudiantes w1) = []).
  { unfold activarCuenta in H. rewrite run_bind in H.
    pose proof (run_noEscribe T_estudiantes (validarToken token) w
                  (validarToken_noEscribe token)) as Hv.
    destruct (run (validarToken token) w) as [[v | e] w0] eqn:Hrun.
    2:{ apply validarToken_excepcion in Hrun.
        injection H as -> _. discriminate Hrun. }
    cbn [snd leerTabla] in Hv.
    destruct (negb (v_success v)); [discriminate H |].
    destruct (passwordSchema password); [discriminate H |].
    rewrite run_bind, run_intentar in H.
    destruct (run (crearYVincular token email password) w0)
      as [[[r | authUserId] | e] wA] eqn:HA.
    - cbn in H. discriminate H.
    - apply crearYVincular_vincula in HA.
      rewrite run_bind, run_intentar in H.
      pose proof (run_noEscribe T_estudiantes
                    (correoYSesion authUserId email password) wA
                    (correoYSesion_noEscribe _ _ _)) as HB.
      cbn [leerTabla] in HB.
      assert (Hw1 : estudiantes w1 = estudiantes wA).
      { destruct (run (correoYSesion authUserId email password) wA)
          as [[b | e] wB]; cbn [snd] in HB.
        - destruct b; cbn in H; injection H as _ <-; exact HB.
        - destruct (esRedirect e); cbn in H; injection H as _ <-; exact HB. }
      rewrite Hw1, HA. apply seleccionar_quemado.
    - apply crearYVincular_excepcion in HA. rewrite HA in H.
      cbn in H. discriminate H. }
  split; [exact Hsel |].
  unfold validarToken. rewrite run_bind, run_llamar.
  match goal with
  | |- context [ejecutar ?op ?w] =>
      destruct (ejecutar_casos op w eq_refl)
        as [(_ & E) | [(e & x & g & _ & Hc & E) | (m & g & Hg & E)]];
      rewrite E; clear E
  end.
  - unfold sinFallo, normal, selectUno.
    cbn [leerTabla avanzar ponerGuion estudiantes]. rewrite Hsel.
    reflexivity.
  - cbn in Hc. injection Hc as <-. reflexivity.
  - eauto.
Qed.

Lemma validar_tras_activar_witness :
  let w1 :=
    snd (run (activarCuenta "tok-1" "jane@example.org" "LongEnough1")
           Escenario.invitada) in
  run (activarCuenta "tok-1" "jane@example.org" "LongEnough1")
    Escenario.invitada
  = (Excepcion (NextRedirect "/dashboard"), w1)
  /\ seleccionar (Eq "onboarding_token" (VTexto "tok-1")) (estudiantes w1)
     = [].
Proof.
  intros w1.
  assert (H : run (activarCuenta "tok-1" "jane@example.org" "LongEnough1")
                Escenario.invitada
              = (Excepcion (NextRedirect "/dashboard"), w1))
    by (vm_compute; reflexivity).
  split; [exact H |].
  exact (proj1 (validar_tras_activar _ _ _ _ _ _ H)).
Defined.

(** An update that matches no row is not an error: the identity that was
    just created stays and the activation goes on as if it had linked a
    row. *)
Lemma crearYVincular_sin_filas (w : Mundo) (token email password : string) :
  seleccionar (Eq "onboarding_token" (VTexto token)) (estudiantes w) = [] ->
  tranquilas 2 (guion w) = true ->
  String.eqb (Js.toLowerCase (Js.trim email)) "" = false ->
  existsb (tieneEmail (Js.toLowerCase (Js.trim email))) (auth_users w)
  = false ->
  let authUserId := hd uuidPorDefecto (azar w) in
  let '(r, w') := run (crearYVincular token email password) w in
  r = Normal (inr authUserId)
  /\ estudiantes w' = estudiantes w
  /\ auth_users w'
     = auth_users w
       ++ [mkUsuario authUserId (Js.toLowerCase (Js.trim email)) password].
Proof.
  intros Hsel Hg Hemail Hlibre authUserId.
  unfold crearYVincular. cbn [run bind llamar].
  tranquila Hg. rewrite Hemail, Hlibre.
  unfold tomarAzar. cbn [azar avanzar ponerGuion].
  destruct (azar w) as [| u resto] eqn:Eazar; cbn;
    tranquila Hg;
    (split; [reflexivity |]); (split; [| reflexivity]);
    apply actualizar_sin_filas, Hsel.
Qed.




(** C2 as it is written fails: after Jane has activated her account the
    token is gone from her row, so validating it again reports that the
    token is not found, not that it has been used. *)
Lemma validar_tras_activar_contraejemplo :
  let '(r, w) :=
    run (activarCuenta "tok-1" "jane@example.org" "LongEnough1")
      Escenario.invitada in
  r = Excepcion (NextRedirect "/dashboard")
  /\ fst (run (validarToken "tok-1") w)
     = Normal (mkValidacion false (Some msgTokenInvalido) None)
  /\ fst (run (validarToken "tok-1") w)
     <> Normal (mkValidacion false (Some msgTokenUsado) None).
Proof. vm_compute. repeat split. discriminate. Qed.

End ActivarProps.

(** ** Approval workflow *)

Module SolicitudesProps.
Import Solicitudes.

(** C3 (the code departs from it).  [rechazarSolicitud] does not look at
    the state of the request: a request that is already approved becomes
    rejected, and the action reports success. *)
Theorem rechazar_solicitud_aprobada :
  let '(r, w) :=
    run (rechazarSolicitud "s-1") (Escenario.conSolicitud "aprobado") in
  r = Normal (mkResultado true msgRechazada)
  /\ List.map (fun f => campo f "estado") (solicitudes_horas w)
     = [ VTexto "rechazado" ].
Proof. vm_compute. repeat split. Qed.

Lemma valor_eqb_texto_distinto (v : valor) (s : string) :
  v <> VTexto s -> valor_eqb v (VTexto s) = false.
Proof.
  intros H. destruct v as [| t | b | n]; try reflexivity.
  cbn. apply String.eqb_neq. congruence.
Qed.

(** C5.  A request that is neither approved nor rejected, whose hour count
    is the number [pedidas], of a student with an internal ID and a name
    that is not blank, is approved with none of the four backend calls
    disturbed.  The hours that count are those the administrator gives,
    and the requested ones when none are given.  If they are a positive
    number, exactly one row is added to horas_voluntariados, with these
    hours and with the internal ID and the name of the student, the
    request becomes 'aprobado' and the action reports success.  If they
    are NaN, zero or negative, the action fails with the validation message
    and writes nothing. *)
Theorem aprobar_registra_horas (w : Mundo) (solicitudId nombre : string)
    (horasAprobadas : option numero) (pedidas : numero)
    (solicitud estudiante : fila) :
  solicitudId <> "" -> solicitudId <> "undefined" ->
  tranquilas 4 (guion w) = true ->
  seleccionar (Eq "id" (VTexto solicitudId)) (solicitudes_horas w)
  = [solicitud] ->
  campo solicitud "estado" <> VTexto "aprobado" ->
  campo solicitud "estado" <> VTexto "rechazado" ->
  campo solicitud "cantidad_horas" = VNum pedidas ->
  seleccionar (Eq "id" (campo solicitud "estudiante_id")) (estudiantes w)
  = [estudiante] ->
  truthy (campo estudiante "id_becado_interno") = true ->
  campo estudiante "nombre_completo_becado" = VTexto nombre ->
  Js.trim nombre <> "" ->
  let horas :=
    match horasAprobadas with
    | Some dadas => dadas
    | None => pedidas
    end in
  let '(r, w') := run (aprobarSolicitud solicitudId horasAprobadas) w in
  let registrada :=
    r = Normal (mkResultado true msgAprobada)
    /\ (exists entrada,
          horas_voluntariados w' = horas_voluntariados w ++ [entrada]
          /\ campo entrada "cantidad_horas" = VNum horas
          /\ campo entrada "id_becado_interno"
             = campo estudiante "id_becado_interno"
          /\ campo entrada "nombre_completo_becado" = VTexto nombre)
    /\ (exists aprobada,
          seleccionar (Eq "id" (VTexto solicitudId)) (solicitudes_horas w')
          = [aprobada]
          /\ campo aprobada "estado" = VTexto "aprobado") in
  let rechazada :=
    r = Normal (mkResultado false msgHorasInvalidas)
    /\ horas_voluntariados w' = horas_voluntariados w
    /\ solicitudes_horas w' = solicitudes_horas w in
  match horas with
  | NaN => rechazada
  | Finito q => ((0 < q)%Q -> registrada) /\ ((q <= 0)%Q -> rechazada)
  | Infinito positivo => if positivo then registrada else rechazada
  end.
Proof.
  intros Hid1 Hid2 Hg Hsol Hap Hre Hped Hest Hinterno Hnombre Hblanco horas.
  assert (Hid : idInvalido solicitudId = false).
  { unfold idInvalido. apply orb_false_iff.
    split; apply String.eqb_neq; assumption. }
  assert (Hpend : yaProcesada solicitud = false).
  { unfold yaProcesada.
    rewrite !valor_eqb_texto_distinto by assumption. reflexivity. }
  assert (Hfinal : cantidadHorasFinal horasAprobadas solicitud = VNum horas).
  { unfold cantidadHorasFinal, horas. destruct horasAprobadas; auto. }
  unfold aprobarSolicitud. rewrite Hid.
  cbn [run bind intentar llamar].
  tranquila Hg.
  rewrite (selectUno_uno _ _ _ _ _ solicitud) by exact Hsol.
  change (proyectar None solicitud) with solicitud.
  cbn. rewrite Hpend. cbn.
  tranquila Hg.
  rewrite (selectUno_uno _ _ _ _ _ estudiante) by exact Hest.
  cbn.
  rewrite !campo_proyectar by (repeat constructor).
  rewrite Hinterno, Hnombre. cbn.
  assert (Htruthy : truthy (VTexto nombre) = true).
  { unfold truthy. destruct nombre; [| reflexivity].
    exfalso. apply Hblanco. reflexivity. }
  unfold nombreEnBlanco. rewrite Htruthy. cbn.
  apply String.eqb_neq in Hblanco. rewrite Hblanco. cbn.
  rewrite !Hfinal.
  destruct (isNaN (VNum horas) || menorIgualCero (VNum horas)) eqn:Hhoras;
    cbn.
  - clearbody horas.
    destruct horas as [| q | []]; try (repeat split; fail).
    + unfold isNaN, menorIgualCero in Hhoras. cbn in Hhoras.
      apply Qle_bool_iff in Hhoras.
      split; [| repeat split].
      intros Hq. exfalso. exact (Qlt_not_le _ _ Hq Hhoras).
    + discriminate Hhoras.
  - tranquila Hg. tranquila Hg.
    assert (Hregistrada :
      (exists entrada,
         horas_voluntariados w
         ++ [horasData
               (proyectar
                  (Some ["id_becado_interno"; "nombre_completo_becado"])
                  estudiante)
               solicitud (VNum horas)]
         = horas_voluntariados w ++ [entrada]
         /\ campo entrada "cantidad_horas" = VNum horas
         /\ campo entrada "id_becado_interno"
            = campo estudiante "id_becado_interno"
         /\ campo entrada "nombre_completo_becado" = VTexto nombre)
      /\ (exists aprobada,
            seleccionar (Eq "id" (VTexto solicitudId))
              (actualizar (Eq "id" (VTexto solicitudId))
                 {[ "estado" := VTexto "aprobado" ]} (solicitudes_horas w))
            = [aprobada]
            /\ campo aprobada "estado" = VTexto "aprobado")).
    { split.
      - eexists. split; [reflexivity |].
        rewrite <- Hnombre,
          <- (campo_proyectar
                ["id_becado_interno"; "nombre_completo_becado"]
                estudiante "id_becado_interno") by (repeat constructor).
        rewrite <- (campo_proyectar
                      ["id_becado_interno"; "nombre_completo_becado"]
                      estudiante "nombre_completo_becado")
          by (repeat constructor).
        repeat split.
      - exists (aplicar {[ "estado" := VTexto "aprobado" ]} solicitud).
        split.
        + rewrite seleccionar_actualizar, Hsol; [reflexivity |].
          intros f. cbn [cumple].
          rewrite campo_aplicar_intacto; [reflexivity |].
          vm_compute; reflexivity.
        + apply campo_aplicar_escrito. vm_compute; reflexivity. }
    clearbody horas.
    destruct horas as [| q | []]; try discriminate Hhoras;
      try (split; [reflexivity | exact Hregistrada]).
    unfold isNaN, menorIgualCero in Hhoras. cbn in Hhoras.
    split; [intros _; split; [reflexivity | exact Hregistrada] |].
    intros Hq. apply Qle_bool_iff in Hq. congruence.
Qed.

Lemma aprobar_registra_horas_witness :
  let '(r, w') :=
    run (aprobarSolicitud "s-1" (Some (Finito 5)))
      (Escenario.conSolicitud "pendiente") in
  campo (Escenario.solicitud "pendiente") "cantidad_horas" = VNum (Finito 4)
  /\ r = Normal (mkResultado true msgAprobada)
  /\ (exists entrada,
        horas_voluntariados w' = [] ++ [entrada]
        /\ campo entrada "cantidad_horas" = VNum (Finito 5)
        /\ campo entrada "id_becado_interno" = VTexto "BDI-042"
        /\ campo entrada "nombre_completo_becado" = VTexto "Jane Doe")
  /\ (exists aprobada,
        seleccionar (Eq "id" (VTexto "s-1")) (solicitudes_horas w')
        = [aprobada]
        /\ campo aprobada "estado" = VTexto "aprobado").
Proof.
  pose proof (aprobar_registra_horas (Escenario.conSolicitud "pendiente")
                "s-1" "Jane Doe" (Some (Finito 5)) (Finito 4)
                (Escenario.solicitud "pendiente") Escenario.jane) as H.
  cbv zeta in H.
  destruct (run (aprobarSolicitud "s-1" (Some (Finito 5)))
              (Escenario.conSolicitud "pendiente")) as [r w'].
  destruct H as [Hregistrada _];
    try reflexivity; try (vm_compute; discriminate).
  split; [reflexivity |].
  apply Hregistrada. reflexivity.
Defined.

(** Hours that come as text are read as [Number] reads them. *)
Lemma horas_en_texto :
  List.map (fun s => (isNaN (VTexto s), menorIgualCero (VTexto s)))
    ["4"; " 4.5 "; "cuatro"; ""; "-2"; "0x1F"; "1e-400"; "Infinity"]
  = [ (false, false); (false, false); (true, false); (false, true);
      (false, true); (false, false); (false, true); (false, false) ].
Proof. vm_compute. reflexivity. Qed.

(** A request whose hour count is the text '4' is approved, and the text
    goes into the ledger as it is. *)
Lemma aprobar_horas_en_texto :
  let pedida := <[ "cantidad_horas" := VTexto "4" ]>
                  (Escenario.solicitud "pendiente") in
  let w := ponerTabla T_solicitudes_horas [pedida]
             (Escenario.conSolicitud "pendiente") in
  let '(r, w') := run (aprobarSolicitud "s-1" None) w in
  r = Normal (mkResultado true msgAprobada)
  /\ List.map (fun f => campo f "cantidad_horas") (horas_voluntariados w')
     = [VTexto "4"].
Proof. vm_compute. repeat split. Qed.

Lemma yaProcesada_aprobada (solicitud : fila) :
  yaProcesada (aplicar {[ "estado" := VTexto "aprobado" ]} solicitud) = true.
Proof.
  unfold yaProcesada.
  rewrite (campo_aplicar_escrito _ _ _ (VTexto "aprobado"))
    by (vm_compute; reflexivity).
  reflexivity.
Qed.

(** C4.  After an approval that went through, approving the same request
    again fails and adds no row to horas_voluntariados, whatever the
    backend does; when the lookup of the request is not disturbed the
    failure is 'Esta solicitud ya ha sido procesada.'. *)
Theorem aprobar_dos_veces (w w1 : Mundo) (solicitudId msg : string)
    (h1 h2 : option numero) :
  run (aprobarSolicitud solicitudId h1) w
  = (Normal (mkResultado true msg), w1) ->
  let '(r2, w2) := run (aprobarSolicitud solicitudId h2) w1 in
  horas_voluntariados w2 = horas_voluntariados w1
  /\ (exists m, r2 = Normal (mkResultado false m))
  /\ (tranquilas 1 (guion w1) = true ->
      r2 = Normal (mkResultado false msgYaProcesada)).
Proof.
  intros H.
  unfold aprobarSolicitud in H.
  destruct (idInvalido solicitudId) eqn:Hid; [discriminate |].
  unfold nombreEnBlanco in H.
  simbolico H.
  injection H as _ <-.
  match goal with
  | Hd : data (selectUno T_solicitudes_horas _ _ _ _) = Some _ |- _ =>
      apply selectUno_dato in Hd as (solicitud & Hsol & ->)
  end.
  cbn [leerTabla solicitudes_horas avanzar ponerGuion] in Hsol.
  unfold aprobarSolicitud. rewrite Hid.
  cbn [run bind intentar llamar].
  llamada_meta.
  - rewrite (selectUno_uno _ _ _ _ _
               (aplicar {[ "estado" := VTexto "aprobado" ]} solicitud)).
    + change (proyectar None ?f) with f. cbn.
      rewrite yaProcesada_aprobada. cbn. eauto.
    + cbn [leerTabla solicitudes_horas avanzar ponerGuion].
      rewrite seleccionar_actualizar, Hsol; [reflexivity |].
      intros f. cbn [cumple]. rewrite campo_aplicar_intacto; [reflexivity |].
      vm_compute; reflexivity.
  - repeat split; eauto.
    cbn [guion] in *. intros Hg.
    match goal with E : _ = DevuelveError _ :: _ |- _ => rewrite E in Hg end.
    discriminate.
  - repeat split; eauto.
    cbn [guion] in *. intros Hg.
    match goal with E : _ = Lanza _ :: _ |- _ => rewrite E in Hg end.
    discriminate.
Qed.

Lemma aprobar_dos_veces_witness :
  let w1 :=
    snd (run (aprobarSolicitud "s-1" (Some (Finito 5)))
           (Escenario.conSolicitud "pendiente")) in
  run (aprobarSolicitud "s-1" (Some (Finito 5)))
    (Escenario.conSolicitud "pendiente")
  = (Normal (mkResultado true msgAprobada), w1)
  /\ fst (run (aprobarSolicitud "s-1" None) w1)
     = Normal (mkResultado false msgYaProcesada)
  /\ length (horas_voluntariados
               (snd (run (aprobarSolicitud "s-1" None) w1))) = 1.
Proof.
  intros w1.
  assert (H : run (aprobarSolicitud "s-1" (Some (Finito 5)))
                (Escenario.conSolicitud "pendiente")
              = (Normal (mkResultado true msgAprobada), w1))
    by (vm_compute; reflexivity).
  split; [exact H |].
  pose proof (aprobar_dos_veces _ _ _ _ _ None H) as H2.
  destruct (run (aprobarSolicitud "s-1" None) w1) as [r2 w2].
  destruct H2 as (Hhoras & _ & Hmsg).
  split; [apply Hmsg; reflexivity |].
  cbn [snd]. rewrite Hhoras. reflexivity.
Defined.

End SolicitudesProps.

(** ** Administration of students *)

Module EstudiantesProps.
Import Estudiantes.

Lemma datosReset_anula (c : string) :
  c ∈ Perfil.camposWizard ++ Perfil.camposDocumentos ->
  datosReset !! c = Some VNull.
Proof.
  unfold Perfil.camposWizard, Perfil.camposDocumentos. cbn [app].
  intros H.
  repeat (apply elem_of_cons in H as [-> | H]; [vm_compute; reflexivity |]).
  inversion H.
Qed.

(** C6.  After a successful reset the row of the student named by
    [estudianteId] has [null] in every column that the profile wizard
    writes and in both document URLs, and every row of the table keeps its
    [auth_user_id] and its [ha_completado_onboarding]. *)
Theorem resetear_anula_campos (w w' : Mundo) (estudianteId msg : string) :
  run (resetearPerfilEstudiante estudianteId) w
  = (Normal (mkResultado true msg), w') ->
  length (estudiantes w') = length (estudiantes w)
  /\ (exists i est est',
        estudiantes w !! i = Some est
        /\ cumple (porIdOIdInterno estudianteId) est = true
        /\ estudiantes w' !! i = Some est'
        /\ forall c,
             c ∈ Perfil.camposWizard ++ Perfil.camposDocumentos ->
             campo est' c = VNull)
  /\ (forall i est est',
        estudiantes w !! i = Some est ->
        estudiantes w' !! i = Some est' ->
        campo est' "auth_user_id" = campo est "auth_user_id"
        /\ campo est' "ha_completado_onboarding"
           = campo est "ha_completado_onboarding").
Proof.
  intros H.
  unfold resetearPerfilEstudiante, verificarAdmin in H.
  destruct (idEnBlanco estudianteId); [discriminate |].
  simbolico H.
  injection H as _ <-. cbn [estudiantes].
  match goal with
  | Hd : data (selectUno _ _ _ _ _) = Some ?d |- _ =>
      apply selectUno_dato in Hd as (est & Hsel & ->)
  end.
  cbn [leerTabla estudiantes avanzar ponerGuion] in *.
  rewrite campo_proyectar in * by (left; reflexivity).
  set (q := Eq "id" (campo est "id")) in *.
  apply seleccionar_uno_lookup in Hsel as (Hcumple & i & Hi).
  assert (Hq : cumple q est = true).
  { match goal with
    | Hl : List.map _ (seleccionar q ?l) = _ :: _ |- _ =>
        destruct (seleccionar_no_vacio q l) as (f0 & _ & Hf0);
          [intros E; rewrite E in Hl; discriminate |]
    end.
    unfold q in *. cbn [cumple] in *. eapply valor_eqb_derecha; eauto. }
  split; [apply length_actualizar |]. split.
  - exists i, est, (aplicar datosReset est). repeat split; auto.
    + rewrite (actualizar_lookup _ _ _ _ _ Hi), Hq. reflexivity.
    + intros c Hc. apply campo_aplicar_escrito, datosReset_anula, Hc.
  - intros j f f' Hf Hf'.
    rewrite (actualizar_lookup _ _ _ _ _ Hf) in Hf'.
    destruct (cumple q f); injection Hf' as <-; [| auto].
    split; apply campo_aplicar_intacto; vm_compute; reflexivity.
Qed.

Lemma resetear_anula_campos_witness :
  let w' := snd (run (resetearPerfilEstudiante "BDI-042") Escenario.activa) in
  run (resetearPerfilEstudiante "BDI-042") Escenario.activa
  = (Normal (mkResultado true (msgReseteado Escenario.janeActiva)), w')
  /\ length (estudiantes w') = 1
  /\ List.map (fun f => campo f "telefono_llamada") (estudiantes w')
     = [ VNull ]
  /\ List.map (fun f => campo f "auth_user_id") (estudiantes w')
     = [ VTexto "uid-1" ].
Proof.
  intros w'.
  assert (H : run (resetearPerfilEstudiante "BDI-042") Escenario.activa
              = (Normal (mkResultado true (msgReseteado Escenario.janeActiva)),
                 w'))
    by (vm_compute; reflexivity).
  split; [exact H |].
  split; [exact (proj1 (resetear_anula_campos _ _ _ _ H)) |].
  vm_compute. split; reflexivity.
Defined.

(** A row that is unlinked carries the fresh token, and only such a row. *)
Lemma seleccionar_token_nuevo (token : string) (v : valor) (l : list fila) :
  seleccionar (Eq "onboarding_token" (VTexto token)) l = [] ->
  seleccionar (Eq "onboarding_token" (VTexto token))
    (actualizar (Eq "id" v) (datosDesvinculacion token) l)
  = List.map (aplicar (datosDesvinculacion token))
      (seleccionar (Eq "id" v) l).
Proof.
  unfold seleccionar, actualizar.
  induction l as [| f l IH]; cbn [List.map List.filter]; [reflexivity |].
  destruct (cumple (Eq "onboarding_token" (VTexto token)) f) eqn:Etok;
    [discriminate |].
  intros Hl. specialize (IH Hl).
  destruct (cumple (Eq "id" v) f) eqn:Eid.
  - assert (Hc : cumple (Eq "onboarding_token" (VTexto token))
                   (aplicar (datosDesvinculacion token) f) = true).
    { cbn [cumple].
      rewrite (campo_aplicar_escrito _ _ _ (VTexto token))
        by (vm_compute; reflexivity).
      unfold valor_eqb. apply String.eqb_refl. }
    rewrite Hc. cbn [List.map]. rewrite IH. reflexivity.
  - rewrite Etok. exact IH.
Qed.

(** What an unlink has done can be read off its result.  A failure that
    begins with [prefijoParcial] has removed no identity and has unlinked a
    row that was linked; any other failure has touched neither store. *)
Lemma desvincular_huella (w w' : Mundo) (estudianteId : string)
    (r : Salida Resultado) :
  run (desvincularCuentaEstudiante estudianteId) w = (r, w') ->
  exists r0,
    r = Normal r0
    /\ if Js.startsWith (message r0) prefijoParcial
       then
         success r0 = false
         /\ auth_users w' = auth_users w
         /\ exists i est est',
              estudiantes w !! i = Some est
              /\ truthy (campo est "auth_user_id") = true
              /\ estudiantes w' !! i = Some est'
              /\ campo est' "auth_user_id" = VNull
       else
         success r0 = true
         \/ (estudiantes w' = estudiantes w /\ auth_users w' = auth_users w).
Proof.
  intros H.
  unfold desvincularCuentaEstudiante, verificarAdmin, borrarDeAuth in H.
  destruct (idEnBlanco estudianteId).
  { cbn in H. injection H as <- <-. eexists; split; [reflexivity |].
    cbn. right. split; reflexivity. }
  simbolico H;
    repeat match goal with
           | Ha : tomarAzar _ = _ |- _ => apply tomarAzar_mundo in Ha as ->
           end.
  all:
    injection H as <- <-; (eexists; split; [reflexivity |]);
    cbn [success message orb];
    try match goal with
        | |- context [Js.startsWith ?m prefijoParcial] =>
            let b := eval vm_compute in (Js.startsWith m prefijoParcial) in
            change (Js.startsWith m prefijoParcial) with b
        end;
    cbv iota;
    cbn [estudiantes auth_users avanzar ponerGuion ponerAzar ponerAuth].
  all: try (left; reflexivity).
  all: try (right; split;
        [ first [ reflexivity
                | apply actualizar_sin_filas;
                  eapply map_eq_nil; eassumption ]
        | reflexivity ]).
  all:
    match goal with
    | Hd : data (selectUno T_estudiantes _ _ _ _) = Some ?d |- _ =>
        apply selectUno_dato in Hd as (est & Hsel & ->)
    end;
    cbn [leerTabla estudiantes avanzar ponerGuion] in *;
    rewrite !campo_proyectar in *
      by (repeat first [apply list_elem_of_here | apply list_elem_of_further]);
    apply seleccionar_uno_lookup in Hsel as (_ & i & Hi);
    assert (Hq : cumple (Eq "id" (campo est "id")) est = true)
      by (match goal with
          | Hl : List.map _ (seleccionar ?q ?l) = _ :: _ |- _ =>
              destruct (seleccionar_no_vacio q l) as (f0 & _ & Hf0);
                [intros E; rewrite E in Hl; discriminate |];
              cbn [cumple] in *; eapply valor_eqb_derecha; eauto
          end);
    split; [reflexivity |]; split; [reflexivity |];
    exists i, est,
      (aplicar (datosDesvinculacion (hd uuidPorDefecto (azar w))) est);
    split; [exact Hi |]; split; [assumption |]; split;
    [ rewrite (actualizar_lookup _ _ _ _ _ Hi), Hq; reflexivity
    | apply campo_aplicar_escrito; vm_compute; reflexivity ].
Qed.

Section Corrida.

Variables (w : Mundo) (estudianteId adminId authUserId nuevoToken : string)
  (resto : list string) (adminData estudiante : fila) (f4 f5 : Fallo)
  (g : list Fallo).

Hypothesis Hid : idEnBlanco estudianteId = false.
Hypothesis Hses : sesion w = Some adminId.
Hypothesis Hadm :
  seleccionar (Eq "auth_user_id" (VTexto adminId))
    (usuarios_administrativos w) = [adminData].
Hypothesis Hest :
  seleccionar (porIdOIdInterno estudianteId) (estudiantes w) = [estudiante].
Hypothesis Hpk :
  seleccionar (Eq "id" (campo estudiante "id")) (estudiantes w)
  = [estudiante].
Hypothesis Hauth : campo estudiante "auth_user_id" = VTexto authUserId.
Hypothesis Hvacio : authUserId <> "".
Hypothesis Hazar : azar w = nuevoToken :: resto.
Hypothesis Hguion :
  guion w = SinFallo :: SinFallo :: SinFallo :: f4 :: f5 :: g.

(** The run of an unlink by an administrator, call by call: the update of
    the row is the fourth call and the deletion of the identity the
    fifth. *)
Lemma desvincular_corrida :
  let '(r, w') := run (desvincularCuentaEstudiante estudianteId) w in
  match f4 with
  | SinFallo =>
      estudiantes w'
      = actualizar (Eq "id" (campo estudiante "id"))
          (datosDesvinculacion nuevoToken) (estudiantes w)
      /\ guion w' = g
      /\ match f5 with
         | SinFallo =>
             if existsb (fun u => String.eqb (au_id u) authUserId)
                  (auth_users w)
             then
               (exists msg, r = Normal (mkResultado true msg))
               /\ auth_users w'
                  = List.filter
                      (fun u => negb (String.eqb (au_id u) authUserId))
                      (auth_users w)
             else
               r = Normal
                     (mkResultado false (msgParcialError errorUsuarioNoExiste))
               /\ auth_users w' = auth_users w
         | DevuelveError e =>
             r = Normal (mkResultado false (msgParcialError e))
             /\ auth_users w' = auth_users w
         | Lanza m =>
             r = Normal (mkResultado false (msgParcialExcepcion (ErrorJS m)))
             /\ auth_users w' = auth_users w
         end
  | DevuelveError e =>
      r = Normal
            (mkResultado false
               (if errorDeColumna e then msgColumnas e
                else if errorDePermiso e then msgPermisosRegistro
                else msgErrorDesvincular e))
      /\ estudiantes w' = estudiantes w /\ auth_users w' = auth_users w
  | Lanza m =>
      r = Normal (mkResultado false (msgInesperado (ErrorJS m)))
      /\ estudiantes w' = estudiantes w /\ auth_users w' = auth_users w
  end.
Proof.
  assert (Htruthy : truthy (VTexto authUserId) = true).
  { unfold truthy. apply negb_true_iff, String.eqb_neq, Hvacio. }
  assert (Hg : tranquilas 3 (guion w) = true) by (rewrite Hguion; reflexivity).
  unfold desvincularCuentaEstudiante, verificarAdmin. rewrite Hid.
  cbn [run bind intentar llamar].
  tranquila Hg. rewrite Hses. cbn.
  tranquila Hg.
  rewrite (selectUno_uno _ _ _ _ _ adminData) by exact Hadm. cbn.
  tranquila Hg.
  rewrite (selectUno_uno _ _ _ _ _ estudiante) by exact Hest. cbn.
  rewrite ejecutar_uuid. cbn [azar avanzar ponerGuion].
  rewrite Hazar. cbn.
  rewrite !campo_proyectar by (repeat constructor).
  unfold ejecutar at 1, tomarFallo.
  cbn [esRemota guion ponerAzar avanzar ponerGuion].
  rewrite Hguion. cbn [tail].
  destruct f4 as [| e4 | m4].
  - cbn. rewrite Hpk. cbn.
    unfold borrarDeAuth. rewrite Hauth, Htruthy. cbn.
    unfold ejecutar, tomarFallo. cbn [esRemota guion].
    destruct f5 as [| e5 | m5]; cbn.
    + unfold sinFallo, normal. cbn [auth_users ponerGuion].
      change (tieneId (VTexto authUserId))
        with (fun u => String.eqb (au_id u) authUserId).
      destruct (existsb (fun u => String.eqb (au_id u) authUserId)
                  (auth_users w)); cbn; eauto 6.
    + auto.
    + auto.
  - cbn. destruct (errorDeColumna e4); [| destruct (errorDePermiso e4)];
      cbn; auto.
  - cbn. auto.
Qed.

End Corrida.

(** C9 (as amended).  An administrator unlinks a student whose row carries
    the id of an identity, and the three calls before the update of the row
    go through; [f4] is what happens to the update (the fourth call) and
    [f5] to the deletion of the identity (the fifth call).

    If the update goes through, the row is unlinked (no identity,
    onboarding not completed, the fresh token) whatever happens to the
    deletion, and validating the fresh token afterwards succeeds exactly
    when the row has a name and a personal mail; otherwise it reports the
    missing data.  If the deletion goes through as well and the store has
    the identity, the action succeeds and the identity is gone.  If not,
    the identity is still there and the action reports a failure whose
    message begins with [prefijoParcial]: a result that is not a success,
    and that a run of the action only returns when it has unlinked a row
    that was linked and has removed no identity.

    If the update fails, neither the row nor the identity is touched, and
    the failure does not begin with [prefijoParcial]. *)
Theorem desvincular_parcial (w : Mundo)
    (estudianteId adminId authUserId nuevoToken : string)
    (resto : list string) (adminData estudiante : fila)
    (f4 f5 : Fallo) (g : list Fallo) :
  idEnBlanco estudianteId = false ->
  sesion w = Some adminId ->
  seleccionar (Eq "auth_user_id" (VTexto adminId))
    (usuarios_administrativos w) = [adminData] ->
  seleccionar (porIdOIdInterno estudianteId) (estudiantes w)
  = [estudiante] ->
  seleccionar (Eq "id" (campo estudiante "id")) (estudiantes w)
  = [estudiante] ->
  campo estudiante "auth_user_id" = VTexto authUserId ->
  authUserId <> "" ->
  azar w = nuevoToken :: resto ->
  seleccionar (Eq "onboarding_token" (VTexto nuevoToken)) (estudiantes w)
  = [] ->
  guion w = SinFallo :: SinFallo :: SinFallo :: f4 :: f5 :: g ->
  let '(r, w') := run (desvincularCuentaEstudiante estudianteId) w in
  let parcial :=
    exists r0,
      r = Normal r0 /\ success r0 = false
      /\ Js.startsWith (message r0) prefijoParcial = true
      /\ auth_users w' = auth_users w
      /\ forall w2 w2' id2,
           run (desvincularCuentaEstudiante id2) w2 = (Normal r0, w2') ->
           auth_users w2' = auth_users w2
           /\ exists i est est',
                estudiantes w2 !! i = Some est
                /\ truthy (campo est "auth_user_id") = true
                /\ estudiantes w2' !! i = Some est'
                /\ campo est' "auth_user_id" = VNull in
  match f4 with
  | SinFallo =>
      (exists desvinculado,
         seleccionar (Eq "id" (campo estudiante "id")) (estudiantes w')
         = [desvinculado]
         /\ campo desvinculado "auth_user_id" = VNull
         /\ campo desvinculado "ha_completado_onboarding" = VBool false
         /\ campo desvinculado "onboarding_token" = VTexto nuevoToken)
      /\ (tranquilas 1 (guion w') = true ->
          fst (run (Activar.validarToken nuevoToken) w')
          = Normal
              (if truthy (campo estudiante "nombre_completo_becado")
                  && truthy (campo estudiante "correo_personal")
               then
                 Activar.mkValidacion true None
                   (Some (campo estudiante "nombre_completo_becado",
                          campo estudiante "correo_personal"))
               else
                 Activar.mkValidacion false (Some Activar.msgFaltanDatos)
                   None))
      /\ match f5 with
         | SinFallo =>
             if existsb (fun u => String.eqb (au_id u) authUserId)
                  (auth_users w)
             then
               (exists msg, r = Normal (mkResultado true msg))
               /\ auth_users w'
                  = List.filter
                      (fun u => negb (String.eqb (au_id u) authUserId))
                      (auth_users w)
             else parcial
         | _ => parcial
         end
  | _ =>
      exists r0,
        r = Normal r0 /\ success r0 = false
        /\ Js.startsWith (message r0) prefijoParcial = false
        /\ estudiantes w' = estudiantes w
        /\ auth_users w' = auth_users w
  end.
Proof.
  intros Hid Hses Hadm Hest Hpk Hauth Hvacio Hazar Hfresco Hguion.
  pose proof (desvincular_corrida w estudianteId adminId authUserId
                nuevoToken resto adminData estudiante f4 f5 g
                Hid Hses Hadm Hest Hpk Hauth Hvacio Hazar Hguion) as Hc.
  destruct (run (desvincularCuentaEstudiante estudianteId) w) as [r w'].
  cbv zeta.
  assert (Hdistinta : forall r0,
    Js.startsWith (message r0) prefijoParcial = true ->
    forall w2 w2' id2,
      run (desvincularCuentaEstudiante id2) w2 = (Normal r0, w2') ->
      auth_users w2' = auth_users w2
      /\ exists i est est',
           estudiantes w2 !! i = Some est
           /\ truthy (campo est "auth_user_id") = true
           /\ estudiantes w2' !! i = Some est'
           /\ campo est' "auth_user_id" = VNull).
  { intros r0 Hpre w2 w2' id2 H2.
    destruct (desvincular_huella _ _ _ _ H2) as (r2 & Hr2 & H2c).
    injection Hr2 as <-. rewrite Hpre in H2c. tauto. }
  destruct f4 as [| e4 | m4].
  - destruct Hc as (Hest' & Hg' & Hc).
    split; [| split].
    + exists (aplicar (datosDesvinculacion nuevoToken) estudiante).
      rewrite Hest'. split.
      * rewrite seleccionar_actualizar, Hpk; [reflexivity |].
        intros f0. cbn [cumple].
        rewrite campo_aplicar_intacto; [reflexivity |].
        vm_compute; reflexivity.
      * repeat split; apply campo_aplicar_escrito; vm_compute; reflexivity.
    + intros Hg0. unfold Activar.validarToken.
      rewrite run_bind, run_llamar.
      rewrite (ejecutar_tranquila _ _ 0 Hg0) by reflexivity.
      unfold sinFallo, normal.
      rewrite (selectUno_uno _ _ _ _ _
                 (aplicar (datosDesvinculacion nuevoToken) estudiante)).
      * cbn [fst]. cbn.
        rewrite !campo_proyectar by (repeat constructor).
        rewrite (campo_aplicar_escrito _ _ _ (VBool false))
          by (vm_compute; reflexivity).
        rewrite !campo_aplicar_intacto by (vm_compute; reflexivity).
        change (truthy (VBool false)) with false. cbv iota.
        destruct (truthy (campo estudiante "nombre_completo_becado")),
          (truthy (campo estudiante "correo_personal")); reflexivity.
      * cbn [leerTabla avanzar ponerGuion estudiantes]. rewrite Hest'.
        rewrite seleccionar_token_nuevo, Hpk by exact Hfresco. reflexivity.
    + assert (Hparcial : forall m,
        Js.startsWith m prefijoParcial = true ->
        r = Normal (mkResultado false m) /\ auth_users w' = auth_users w ->
        exists r0,
          r = Normal r0 /\ success r0 = false
          /\ Js.startsWith (message r0) prefijoParcial = true
          /\ auth_users w' = auth_users w
          /\ forall w2 w2' id2,
               run (desvincularCuentaEstudiante id2) w2 = (Normal r0, w2') ->
               auth_users w2' = auth_users w2
               /\ exists i est est',
                    estudiantes w2 !! i = Some est
                    /\ truthy (campo est "auth_user_id") = true
                    /\ estudiantes w2' !! i = Some est'
                    /\ campo est' "auth_user_id" = VNull).
      { intros m Hm [-> Hau]. eexists. split; [reflexivity |].
        split; [reflexivity |]. split; [exact Hm |].
        split; [exact Hau |]. apply Hdistinta. exact Hm. }
      destruct f5 as [| e5 | m5].
      * destruct (existsb (fun u => String.eqb (au_id u) authUserId)
                    (auth_users w)); [exact Hc |].
        eapply Hparcial; [| exact Hc]. reflexivity.
      * eapply Hparcial; [| exact Hc]. reflexivity.
      * eapply Hparcial; [| exact Hc]. reflexivity.
  - destruct Hc as (-> & He & Ha). eexists. split; [reflexivity |].
    split; [reflexivity |]. split; [| auto].
    cbn [message].
    destruct (errorDeColumna e4); [| destruct (errorDePermiso e4)];
      reflexivity.
  - destruct Hc as (-> & He & Ha). eexists. split; [reflexivity |].
    split; [reflexivity |]. split; [reflexivity | auto].
Qed.

Lemma desvincular_parcial_witness :
  (let '(r, w') :=
     run (desvincularCuentaEstudiante "BDI-042") Escenario.borradoFalla in
   (exists r0,
      r = Normal r0 /\ success r0 = false
      /\ Js.startsWith (message r0) prefijoParcial = true)
   /\ auth_users w' = auth_users Escenario.borradoFalla
   /\ fst (run (Activar.validarToken "tok-2") w')
      = Normal
          (Activar.mkValidacion true None
             (Some (VTexto "Jane Doe", VTexto "jane@example.org"))))
  /\ (let '(r, w') :=
        run (desvincularCuentaEstudiante "BDI-042")
          (ponerGuion [SinFallo; SinFallo; SinFallo; SinFallo; SinFallo]
             Escenario.activa) in
      (exists msg, r = Normal (mkResultado true msg))
      /\ List.map au_id (auth_users w') = ["uid-admin"]).
Proof.
  split.
  - pose proof (desvincular_parcial Escenario.borradoFalla "BDI-042"
                  "uid-admin" "uid-1" "tok-2" [] Escenario.adminRow
                  Escenario.janeActiva SinFallo
                  (DevuelveError
                     (mkError "unexpected_failure"
                        "Database error deleting user"))
                  []
                  eq_refl eq_refl eq_refl eq_refl eq_refl eq_refl) as H.
    destruct (run (desvincularCuentaEstudiante "BDI-042")
                Escenario.borradoFalla) as [r w'] eqn:E.
    destruct H as (_ & Hvalida & r0 & Hr & Hs & Hp & Hau & _);
      try reflexivity; try discriminate.
    split; [eauto |]. split; [exact Hau |].
    rewrite Hvalida; [reflexivity |].
    apply (f_equal snd) in E. cbn [snd] in E. rewrite <- E.
    vm_compute. reflexivity.
  - pose proof (desvincular_parcial
                  (ponerGuion
                     [SinFallo; SinFallo; SinFallo; SinFallo; SinFallo]
                     Escenario.activa)
                  "BDI-042" "uid-admin" "uid-1" "tok-2" []
                  Escenario.adminRow Escenario.janeActiva SinFallo SinFallo
                  []
                  eq_refl eq_refl eq_refl eq_refl eq_refl eq_refl) as H.
    destruct (run (desvincularCuentaEstudiante "BDI-042")
                (ponerGuion
                   [SinFallo; SinFallo; SinFallo; SinFallo; SinFallo]
                   Escenario.activa)) as [r w'].
    destruct H as (_ & _ & Hexito & Hau);
      try reflexivity; try discriminate.
    split; [exact Hexito |]. rewrite Hau. reflexivity.
Defined.

(** C9 as it is written fails for a linked student whose row has no
    personal mail: the deletion of the identity fails after the row was
    unlinked, the action reports the partial failure, and validating the
    token just issued reports that data is missing. *)
Lemma desvincular_parcial_contraejemplo :
  let '(r, w') :=
    run (desvincularCuentaEstudiante "BDI-042") Escenario.borradoFallaSinCorreo in
  r = Normal
        (mkResultado false
           (msgParcialError
              (mkError "unexpected_failure" "Database error deleting user")))
  /\ List.map (fun f => campo f "auth_user_id") (estudiantes w') = [VNull]
  /\ List.map (fun f => campo f "onboarding_token") (estudiantes w')
     = [VTexto "tok-2"]
  /\ fst (run (Activar.validarToken "tok-2") w')
     = Normal
         (Activar.mkValidacion false (Some Activar.msgFaltanDatos) None).
Proof. vm_compute. repeat split. Qed.

End EstudiantesProps.

(** ** Who may approve and reject *)

Module RolProps.
Import Solicitudes Estudiantes Rol.








End RolProps.

(** * Further properties of the modelled code *)

(** ** Strings *)

Lemma startsWith_elim (s p : string) :
  Js.startsWith s p = true -> exists r, s = (p ++ r)%string.
Proof.
  unfold Js.startsWith. revert s.
  induction p as [| a p IH]; intros s H.
  - exists s. reflexivity.
  - destruct s as [| b s]; [discriminate H |].
    cbn [String.prefix] in H.
    destruct (ascii_dec a b) as [-> | Hne]; [| discriminate H].
    destruct (IH s H) as (r & ->). exists r. reflexivity.
Qed.

(** ** The access gate, route by route *)

Module PoliticaProps.
Import Middleware Permisos.

Lemma adminRoute_noPublica (pathname : string) :
  isAdminRoute pathname = true -> isPublicPath pathname = false.
Proof.
  intros H. apply startsWith_elim in H as (r & ->). reflexivity.
Qed.

Lemma dashboardRoute_noPublica (pathname : string) :
  isDashboardRoute pathname = true ->
  isPublicPath pathname = false
  /\ String.eqb pathname "/admin/dashboard" = false.
Proof.
  intros H. apply startsWith_elim in H as (r & ->). split; reflexivity.
Qed.

Lemma run_middleware (pathname userId : string) (w : Mundo) :
  isPublicPath pathname = false ->
  fst (run (middleware pathname (Some userId)) w)
  = match fst (ejecutar (consultaAdmin userId) w) with
    | Normal adm =>
        match error adm, data adm with
        | None, Some _ => Normal (reglasAdmin pathname)
        | _, _ => Normal (reglasEstudiante pathname)
        end
    | Excepcion _ =>
        Normal (if isAdminRoute pathname
                then Redirigir "/dashboard" else Continuar)
    end.
Proof.
  intros Hpub. unfold middleware. rewrite Hpub.
  rewrite run_intentar, run_bind, run_llamar.
  fold (consultaAdmin userId).
  destruct (ejecutar (consultaAdmin userId) w) as [[adm | e] w1];
    cbn [fst].
  - destruct (error adm), (data adm); reflexivity.
  - destruct (isAdminRoute pathname); reflexivity.
Qed.

(** X1.  Following a redirect of the gate never leads to another redirect:
    the same caller, asking for the route it was sent to, is let through. *)
Theorem middleware_sin_bucle (pathname url : string) (user : option string)
    (w : Mundo) :
  fst (run (middleware pathname user) w) = Normal (Redirigir url) ->
  fst (run (middleware url user) w) = Normal Continuar.
Proof.
  intros H.
  destruct (isPublicPath pathname) eqn:Hpub.
  { unfold middleware in H. rewrite Hpub in H. discriminate H. }
  destruct user as [userId |].
  - rewrite (run_middleware _ _ _ Hpub) in H.
    destruct (fst (ejecutar (consultaAdmin userId) w)) as [adm | e] eqn:Hadm.
    + destruct (error adm) eqn:Herr, (data adm) eqn:Hdat.
      all: try (unfold reglasEstudiante in H;
                destruct (isAdminRoute pathname);
                [| destruct (isDashboardRoute pathname);
                   [discriminate H
                   | destruct (isRootOrAuth pathname);
                     [| rewrite Hpub in H; discriminate H]]];
                injection H as <-;
                rewrite (run_middleware "/dashboard" userId w eq_refl), Hadm,
                  Herr, ?Hdat; reflexivity).
      unfold reglasAdmin in H.
      assert (Hurl : url = "/admin/dashboard").
      { destruct (isDashboardRoute pathname || isRootOrAuth pathname).
        - destruct (negb (String.eqb pathname "/admin/dashboard"));
            [injection H as <-; reflexivity | discriminate H].
        - destruct (isAdminRoute pathname); [discriminate H |].
          destruct (negb (String.eqb pathname "/admin/dashboard"));
            [injection H as <-; reflexivity | discriminate H]. }
      subst url.
      rewrite (run_middleware "/admin/dashboard" userId w eq_refl), Hadm,
        Herr, Hdat.
      reflexivity.
    + destruct (isAdminRoute pathname); [| discriminate H].
      injection H as <-.
      rewrite (run_middleware "/dashboard" userId w eq_refl), Hadm.
      reflexivity.
  - unfold middleware in H. rewrite Hpub in H. cbn [negb andb] in H.
    destruct (negb (String.eqb pathname "/login"));
      [| discriminate H].
    cbn in H. injection H as <-. reflexivity.
Qed.

Lemma middleware_sin_bucle_witness :
  fst (run (middleware "/admin/estudiantes" (Some "uid-1")) Escenario.activa)
  = Normal (Redirigir "/dashboard")
  /\ fst (run (middleware "/dashboard" (Some "uid-1")) Escenario.activa)
     = Normal Continuar.
Proof.
  assert (H : fst (run (middleware "/admin/estudiantes" (Some "uid-1"))
                     Escenario.activa)
              = Normal (Redirigir "/dashboard")) by reflexivity.
  split; [exact H | exact (middleware_sin_bucle _ _ _ _ H)].
Defined.

(** X2.  Each area is for its own role.  A route of the admin area is let
    through only when the lookup was not disturbed and found the one
    administrator row of the caller; and a caller for whom it does so is
    never let into the student dashboard but sent to /admin/dashboard. *)
Theorem middleware_areas (pathname : string) (user : option string)
    (w : Mundo) :
  (isAdminRoute pathname = true ->
   fst (run (middleware pathname user) w) = Normal Continuar ->
   exists userId adminData,
     user = Some userId
     /\ tranquilas 1 (guion w) = true
     /\ seleccionar (Eq "auth_user_id" (VTexto userId))
          (usuarios_administrativos w) = [adminData])
  /\ (isDashboardRoute pathname = true ->
      forall userId adminData,
        user = Some userId ->
        tranquilas 1 (guion w) = true ->
        seleccionar (Eq "auth_user_id" (VTexto userId))
          (usuarios_administrativos w) = [adminData] ->
        fst (run (middleware pathname user) w)
        = Normal (Redirigir "/admin/dashboard")).
Proof.
  split.
  - intros Hadm H.
    pose proof (adminRoute_noPublica _ Hadm) as Hpub.
    destruct user as [userId |].
    2:{ assert (Hlogin : String.eqb pathname "/login" = false)
          by (destruct (startsWith_elim _ _ Hadm) as (r & ->); reflexivity).
        unfold middleware in H. rewrite Hpub, Hlogin in H. discriminate H. }
    rewrite (run_middleware _ _ _ Hpub) in H.
    destruct (ejecutar_casos (consultaAdmin userId) w eq_refl)
      as [(Hg & E) | [(e & x & g & Hg & Hc & E) | (m & g & Hg & E)]];
      rewrite E in H; cbn [fst] in H.
    + unfold sinFallo, normal, consultaAdmin in H. cbn [fst] in H.
      destruct (error (selectUno _ _ _ _ (avanzar w))) eqn:Herr.
      { unfold reglasEstudiante in H. rewrite Hadm in H. discriminate H. }
      destruct (data (selectUno _ _ _ _ (avanzar w))) as [d |] eqn:Hdat.
      2:{ unfold reglasEstudiante in H. rewrite Hadm in H. discriminate H. }
      apply selectUno_dato in Hdat as (adminData & Hsel & _).
      exists userId, adminData. auto.
    + cbn in Hc. injection Hc as <-. cbn in H.
      unfold reglasEstudiante in H. rewrite Hadm in H. discriminate H.
    + rewrite Hadm in H. discriminate H.
  - intros Hdash userId adminData -> Hg Hsel.
    destruct (dashboardRoute_noPublica _ Hdash) as [Hpub Hne].
    rewrite (run_middleware _ _ _ Hpub).
    rewrite (ejecutar_tranquila _ _ 0 Hg) by reflexivity.
    unfold sinFallo, normal, consultaAdmin.
    rewrite (selectUno_uno _ _ _ _ _ adminData) by exact Hsel.
    cbn. unfold reglasAdmin. rewrite Hdash, Hne. reflexivity.
Qed.

Lemma middleware_areas_witness :
  fst (run (middleware "/dashboard/perfil" (Some "uid-admin"))
         Escenario.activa)
  = Normal (Redirigir "/admin/dashboard").
Proof.
  apply (proj2 (middleware_areas "/dashboard/perfil" (Some "uid-admin")
                  Escenario.activa) eq_refl "uid-admin" Escenario.adminRow);
    reflexivity.
Defined.

End PoliticaProps.

(** ** Helpers on the stores *)

Lemma tomarAzar_eq (w : Mundo) :
  tomarAzar w = (hd uuidPorDefecto (azar w), ponerAzar (tail (azar w)) w).
Proof.
  unfold tomarAzar. destruct (azar w) as [| u r] eqn:E; cbn [hd tail];
    [| reflexivity].
  rewrite <- E, ponerAzar_azar. reflexivity.
Qed.

Lemma selectUno_ninguno t cols q w :
  seleccionar q (leerTabla t w) = [] ->
  selectUno t cols q MaybeSingle w = respVacia.
Proof. intros H. unfold selectUno. rewrite H. reflexivity. Qed.

(** Rows that an update has just written are found by what it wrote. *)
Lemma seleccionar_recien_escrito (q qa : Filtro) (cambios : fila)
    (l : list fila) (d : fila) :
  seleccionar q l = [d] ->
  seleccionar qa l = [] ->
  (forall f, cumple qa (aplicar cambios f) = true) ->
  seleccionar qa (actualizar q cambios l) = [aplicar cambios d].
Proof.
  intros Hq Hqa Hc. unfold seleccionar, actualizar in *.
  revert Hq Hqa.
  induction l as [| f l IH]; cbn [List.map List.filter]; [discriminate |].
  destruct (cumple qa f) eqn:Ea; [discriminate |].
  destruct (cumple q f) eqn:Eq1; intros Hq Hqa.
  - injection Hq as -> Hq. rewrite Hc. f_equal.
    fold (seleccionar q l) in Hq. fold (actualizar q cambios l).
    rewrite (actualizar_sin_filas _ _ _ Hq). exact Hqa.
  - rewrite Ea. auto.
Qed.

(** An identity that was appended to the credential store signs in, and
    deleting it gives the store back. *)
Lemma find_identidad_nueva (usuarios : list UsuarioAuth)
    (id email password : string) :
  existsb (tieneEmail email) usuarios = false ->
  List.find
    (fun u => tieneEmail email u && String.eqb (au_password u) password)
    (usuarios ++ [mkUsuario id email password])
  = Some (mkUsuario id email password).
Proof.
  induction usuarios as [| u l IH]; cbn [existsb List.find app].
  - intros _. unfold tieneEmail. cbn [au_email au_password].
    rewrite !String.eqb_refl. reflexivity.
  - intros H. apply orb_false_elim in H as [Hu Hl].
    rewrite Hu. cbn [andb]. auto.
Qed.



Lemma contieneRango_Exists (a b : nat) (s : string) :
  Exists (fun c => a <= nat_of_ascii c <= b) (list_ascii_of_string s) ->
  Js.contieneRango a b s = true.
Proof.
  induction s as [| c r IH]; cbn [list_ascii_of_string Js.contieneRango];
    intros H; inversion H as [x l [Ha Hb] | x l Hr]; subst.
  - apply Nat.leb_le in Ha, Hb. rewrite Ha, Hb. reflexivity.
  - rewrite (IH Hr). apply orb_true_r.
Qed.

(** A password that meets the policy passes [passwordSchema]. *)
Lemma contrasenaValida_schema (password : string) :
  contrasenaValida password -> Activar.passwordSchema password = None.
Proof.
  intros (Hl & Hmay & Hmin & Hnum). unfold Activar.passwordSchema.
  replace (Nat.ltb (Js.length password) 8) with false
    by (symmetry; apply Nat.ltb_ge; exact Hl).
  rewrite !contieneRango_Exists by assumption. reflexivity.
Qed.

(** The length that the policy tests is counted in UTF-16 code units: seven
    for a password that takes ten bytes. *)
Lemma politica_en_unidades :
  Js.length "Añoñoñ1" = 7
  /\ String.length "Añoñoñ1" = 10
  /\ Activar.passwordSchema "Añoñoñ1"
     = Some "La contraseña debe tener al menos 8 caracteres"
  /\ Activar.passwordSchema "Añoñoñ1x" = None.
Proof. vm_compute. repeat split. Qed.

(** A concrete password meets the policy: its length is computed, and a
    character of each kind is looked for from the left. *)
Ltac cumple_reglas :=
  unfold contrasenaValida; cbn [list_ascii_of_string];
  repeat split;
  [ vm_compute; lia
  | repeat first [ apply Exists_cons_hd; vm_compute; lia
                 | apply Exists_cons_tl ] .. ].

(** ** Activation, outcome by outcome *)

Module ActivacionProps.
Import Activar.

(** X3.  Every way [activarCuenta] can end.  A result it returns is a
    failure, and then no student row was written, nobody was signed in and
    no mail was sent.  Otherwise it ends in a redirect to /dashboard, to
    /admin/dashboard or to the login page with the notice that the account
    exists; it never returns a success.  An exception other than a redirect
    escapes only from the first call, the validation of the token, which is
    made outside the [try]. *)
Theorem activar_salidas (w w' : Mundo) (token email password : string)
    (salida : Salida Resultado) :
  run (activarCuenta token email password) w = (salida, w') ->
  match salida with
  | Normal r =>
      success r = false
      /\ estudiantes w' = estudiantes w
      /\ sesion w' = sesion w
      /\ correos w' = correos w
  | Excepcion (NextRedirect url) =>
      In url ["/dashboard"; "/admin/dashboard"; urlLoginCuentaCreada]
  | Excepcion (ErrorJS m) =>
      exists g, guion w = Lanza m :: g
  end.
Proof.
  intros H.
  unfold activarCuenta, validarToken, crearYVincular, correoYSesion,
    enviarBienvenida, redirect in H.
  cbn in H.
  match type of H with
  | context [ejecutar ?op ?w] =>
      destruct (ejecutar_casos op w eq_refl)
        as [(_ & E) | [(? & ? & ? & _ & Hc & E) | (? & g & Hg & E)]];
      rewrite E in H; clear E;
      [ unfold sinFallo, normal in H
      | cbn in Hc; injection Hc as <-
      | injection H as <- <-; exists g; exact Hg ];
      cbn in H
  end.
  all: simbolico H.
  all: try (injection H as <- <-).
  all: try (repeat split; reflexivity).
  all: try (cbn; tauto).
  all: match goal with
       | Ha : tomarAzar _ = _ |- _ => apply tomarAzar_mundo in Ha as ->
       end; repeat split; reflexivity.
Qed.

Lemma activar_salidas_witness :
  let w' := snd (run (activarCuenta "tok-1" "jane@example.org" "corta")
                   Escenario.invitada) in
  success
    (mkResultado false "La contraseña debe tener al menos 8 caracteres")
  = false
  /\ estudiantes w' = estudiantes Escenario.invitada
  /\ sesion w' = sesion Escenario.invitada
  /\ correos w' = correos Escenario.invitada.
Proof.
  intros w'.
  apply (activar_salidas Escenario.invitada w'
           "tok-1" "jane@example.org" "corta"
           (Normal (mkResultado false
                      "La contraseña debe tener al menos 8 caracteres"))).
  vm_compute. reflexivity.
Defined.

(** The run of an activation that goes through, with the world it
    leaves. *)
Lemma activar_camino_feliz_mundo (w : Mundo)
    (token email password nombre : string) (d : fila) :
  let correo := Js.toLowerCase (Js.trim email) in
  let authUserId := hd uuidPorDefecto (azar w) in
  seleccionar (Eq "onboarding_token" (VTexto token)) (estudiantes w) = [d] ->
  truthy (campo d "ha_completado_onboarding") = false ->
  campo d "nombre_completo_becado" = VTexto nombre ->
  nombre <> "" ->
  truthy (campo d "correo_personal") = true ->
  passwordSchema password = None ->
  correo <> "" ->
  existsb (tieneEmail correo) (auth_users w) = false ->
  seleccionar (Eq "auth_user_id" (VTexto authUserId)) (estudiantes w) = [] ->
  seleccionar (Eq "auth_user_id" (VTexto authUserId))
    (usuarios_administrativos w) = [] ->
  tranquilas 7 (guion w) = true ->
  run (activarCuenta token email password) w
  = (Excepcion (NextRedirect "/dashboard"),
     mkMundo
       (actualizar (Eq "onboarding_token" (VTexto token))
          (datosActivacion authUserId email) (estudiantes w))
       (usuarios_administrativos w) (solicitudes_horas w)
       (horas_voluntariados w)
       (auth_users w ++ [mkUsuario authUserId correo password])
       (Some authUserId)
       (correos w ++ [(correo, nombre)])
       (Nat.iter 7 (@tail Fallo) (guion w))
       (tail (azar w))).
Proof.
  intros correo authUserId Hsel Honb Hnombre Hno Hcorreo Hpass Hcne Hlibre
    Hfresco Hnoadmin Hg.
  assert (Htn : truthy (VTexto nombre) = true).
  { unfold truthy. apply String.eqb_neq in Hno. rewrite Hno. reflexivity. }
  apply String.eqb_neq in Hcne.
  unfold activarCuenta, validarToken.
  cbn [run bind llamar].
  tranquila Hg.
  rewrite (selectUno_uno _ _ _ _ _ d) by exact Hsel.
  cbn.
  rewrite !campo_proyectar by (repeat constructor).
  rewrite Honb, Hnombre, Htn, Hcorreo. cbn. rewrite Hpass.
  unfold crearYVincular. cbn.
  tranquila Hg.
  fold correo. rewrite Hcne, Hlibre.
  rewrite tomarAzar_eq. cbn. fold authUserId.
  tranquila Hg. tranquila Hg.
  rewrite (selectUno_uno _ _ _ _ _
             (aplicar (datosActivacion authUserId email) d)).
  2:{ cbn. apply seleccionar_recien_escrito; auto.
      intros f. cbn [cumple].
      rewrite (campo_aplicar_escrito _ _ _ (VTexto authUserId))
        by (vm_compute; reflexivity).
      apply String.eqb_refl. }
  cbn.
  rewrite campo_proyectar by (repeat constructor).
  rewrite campo_aplicar_intacto by (vm_compute; reflexivity).
  rewrite Hnombre. unfold oBien. rewrite Htn. cbn [aTexto].
  tranquila Hg. tranquila Hg.
  rewrite find_identidad_nueva by exact Hlibre. cbn.
  tranquila Hg.
  rewrite selectUno_ninguno by exact Hnoadmin. cbn.
  reflexivity.
Qed.

(** X4.  The activation that goes through.  The token belongs to one row
    that is not onboarded and has a name and a mail; the password has eight
    UTF-16 code units at least, an upper-case letter, a lower-case letter
    and a digit; the mail is made of ASCII characters and, trimmed and in
    lower case, is not empty and not taken; the identifier the credential
    store will hand out is not in use, and none of the seven backend calls
    is disturbed.  Then the caller is sent to /dashboard, the identity
    exists, the row is linked to it with the token burnt, the welcome mail
    went to the mail with the name of the row, and the caller is signed in
    as the new identity. *)
Theorem activar_camino_feliz (w : Mundo)
    (token email password nombre : string) (d : fila) :
  let correo := Js.toLowerCase (Js.trim email) in
  let authUserId := hd uuidPorDefecto (azar w) in
  seleccionar (Eq "onboarding_token" (VTexto token)) (estudiantes w) = [d] ->
  truthy (campo d "ha_completado_onboarding") = false ->
  campo d "nombre_completo_becado" = VTexto nombre ->
  nombre <> "" ->
  truthy (campo d "correo_personal") = true ->
  contrasenaValida password ->
  Js.esAscii email = true ->
  correo <> "" ->
  existsb (tieneEmail correo) (auth_users w) = false ->
  seleccionar (Eq "auth_user_id" (VTexto authUserId)) (estudiantes w) = [] ->
  seleccionar (Eq "auth_user_id" (VTexto authUserId))
    (usuarios_administrativos w) = [] ->
  tranquilas 7 (guion w) = true ->
  let '(salida, w') := run (activarCuenta token email password) w in
  salida = Excepcion (NextRedirect "/dashboard")
  /\ auth_users w' = auth_users w ++ [mkUsuario authUserId correo password]
  /\ (exists vinculado,
        seleccionar (Eq "auth_user_id" (VTexto authUserId)) (estudiantes w')
        = [vinculado]
        /\ campo vinculado "correo_personal" = VTexto correo
        /\ campo vinculado "ha_completado_onboarding" = VBool true
        /\ campo vinculado "onboarding_token" = VNull
        /\ campo vinculado "nombre_completo_becado" = VTexto nombre)
  /\ estudiantes w'
     = actualizar (Eq "onboarding_token" (VTexto token))
         (datosActivacion authUserId email) (estudiantes w)
  /\ correos w' = correos w ++ [(correo, nombre)]
  /\ sesion w' = Some authUserId.
Proof.
  intros correo authUserId Hsel Honb Hnombre Hno Hcorreo Hreglas Hascii Hcne
    Hlibre Hfresco Hnoadmin Hg.
  rewrite (activar_camino_feliz_mundo w token email password nombre d)
    by (assumption || exact (contrasenaValida_schema _ Hreglas)).
  fold correo authUserId. cbn [estudiantes auth_users correos sesion].
  split; [reflexivity |]. split; [reflexivity |].
  split; [| repeat split].
  exists (aplicar (datosActivacion authUserId email) d). split.
  - apply seleccionar_recien_escrito; auto.
    intros f. cbn [cumple].
    rewrite (campo_aplicar_escrito _ _ _ (VTexto authUserId))
      by (vm_compute; reflexivity).
    apply String.eqb_refl.
  - repeat split.
    + apply campo_aplicar_escrito. unfold datosActivacion.
      rewrite lookup_insert_ne by discriminate.
      apply lookup_insert_eq.
    + apply campo_aplicar_escrito. vm_compute. reflexivity.
    + apply campo_aplicar_escrito. vm_compute. reflexivity.
    + rewrite campo_aplicar_intacto by (vm_compute; reflexivity).
      exact Hnombre.
Qed.

Lemma activar_camino_feliz_witness :
  let '(salida, w') :=
    run (activarCuenta "tok-1" "  Jane@Example.org " "LongEnough1")
      Escenario.invitada in
  salida = Excepcion (NextRedirect "/dashboard")
  /\ auth_users w'
     = auth_users Escenario.invitada
       ++ [mkUsuario "uid-1" "jane@example.org" "LongEnough1"]
  /\ (exists vinculado,
        seleccionar (Eq "auth_user_id" (VTexto "uid-1")) (estudiantes w')
        = [vinculado]
        /\ campo vinculado "correo_personal" = VTexto "jane@example.org"
        /\ campo vinculado "ha_completado_onboarding" = VBool true
        /\ campo vinculado "onboarding_token" = VNull
        /\ campo vinculado "nombre_completo_becado" = VTexto "Jane Doe")
  /\ estudiantes w'
     = actualizar (Eq "onboarding_token" (VTexto "tok-1"))
         (datosActivacion "uid-1" "  Jane@Example.org ")
         (estudiantes Escenario.invitada)
  /\ correos w'
     = correos Escenario.invitada ++ [("jane@example.org", "Jane Doe")]
  /\ sesion w' = Some "uid-1".
Proof.
  apply (activar_camino_feliz Escenario.invitada
           "tok-1" "  Jane@Example.org " "LongEnough1" "Jane Doe"
           Escenario.jane);
    first [reflexivity | vm_compute; discriminate | cumple_reglas].
Defined.

Section Vinculo.

Variable w : Mundo.
Variables token email password : string.
Variable d : fila.

Let correo := Js.toLowerCase (Js.trim email).
Let authUserId := hd uuidPorDefecto (azar w).

Hypothesis Hsel :
  seleccionar (Eq "onboarding_token" (VTexto token)) (estudiantes w) = [d].
Hypothesis Honb : truthy (campo d "ha_completado_onboarding") = false.
Hypothesis Hnombre : truthy (campo d "nombre_completo_becado") = true.
Hypothesis Hcorreo : truthy (campo d "correo_personal") = true.
Hypothesis Hpass : passwordSchema password = None.
Hypothesis Hcne : correo <> "".
Hypothesis Hlibre : existsb (tieneEmail correo) (auth_users w) = false.
Hypothesis Hid : authUserId <> "".




End Vinculo.




End ActivacionProps.

(** ** What approving and rejecting can do *)

Module FlujoSolicitudesProps.
Import Solicitudes.

(** X8.  A rejection never throws and writes nothing but the state of the
    requests with that identifier: on success exactly these rows become
    'rechazado', on failure the table is as it was; the ledger of hours, the
    students and the credential store are never touched. *)
Theorem rechazar_efectos (w w' : Mundo) (solicitudId : string)
    (salida : Salida Resultado) :
  run (rechazarSolicitud solicitudId) w = (salida, w') ->
  exists r,
    salida = Normal r
    /\ solicitudes_horas w'
       = (if success r
          then actualizar (Eq "id" (VTexto solicitudId))
                 {[ "estado" := VTexto "rechazado" ]} (solicitudes_horas w)
          else solicitudes_horas w)
    /\ horas_voluntariados w' = horas_voluntariados w
    /\ estudiantes w' = estudiantes w
    /\ auth_users w' = auth_users w.
Proof.
  intros H. unfold rechazarSolicitud in H.
  destruct (idInvalido solicitudId).
  { cbn in H. injection H as <- <-. eexists. repeat split. }
  simbolico H; injection H as <- <-; eexists; repeat split.
Qed.

Lemma rechazar_efectos_witness :
  let w := ponerGuion [Lanza "fetch failed"]
             (Escenario.conSolicitud "pendiente") in
  let w' := snd (run (rechazarSolicitud "s-1") w) in
  exists r,
    Normal (mkResultado false msgInesperado) = Normal r
    /\ solicitudes_horas w'
       = (if success r
          then actualizar (Eq "id" (VTexto "s-1"))
                 {[ "estado" := VTexto "rechazado" ]} (solicitudes_horas w)
          else solicitudes_horas w)
    /\ horas_voluntariados w' = horas_voluntariados w
    /\ estudiantes w' = estudiantes w
    /\ auth_users w' = auth_users w.
Proof.
  intros w w'.
  apply (rechazar_efectos w w' "s-1"
           (Normal (mkResultado false msgInesperado))).
  vm_compute. reflexivity.
Defined.

(** X9.  Whatever the backend does, an approval never throws, never touches
    the students or the credential store, and changes the requests only when
    it succeeds, by marking those with that identifier 'aprobado'.  It adds
    at most one row to the ledger of hours, and a row it adds is 'validado'
    and has an internal ID, a name that is not blank and hours that are a
    number greater than zero.  A failure that has left such a row behind
    carries the message of the partial failure or the generic one. *)
Theorem aprobar_efectos (w w' : Mundo) (solicitudId : string)
    (horasAprobadas : option numero) (salida : Salida Resultado) :
  run (aprobarSolicitud solicitudId horasAprobadas) w = (salida, w') ->
  exists r,
    salida = Normal r
    /\ solicitudes_horas w'
       = (if success r
          then actualizar (Eq "id" (VTexto solicitudId))
                 {[ "estado" := VTexto "aprobado" ]} (solicitudes_horas w)
          else solicitudes_horas w)
    /\ estudiantes w' = estudiantes w
    /\ auth_users w' = auth_users w
    /\ ((success r = false
         /\ horas_voluntariados w' = horas_voluntariados w)
        \/ (exists entrada nombre,
              horas_voluntariados w' = horas_voluntariados w ++ [entrada]
              /\ campo entrada "estado" = VTexto "validado"
              /\ truthy (campo entrada "id_becado_interno") = true
              /\ campo entrada "nombre_completo_becado" = VTexto nombre
              /\ Js.trim nombre <> ""
              /\ isNaN (campo entrada "cantidad_horas")
                 || menorIgualCero (campo entrada "cantidad_horas") = false
              /\ (success r = true
                  \/ message r = msgParcial
                  \/ message r = msgInesperado))).
Proof.
  intros H. unfold aprobarSolicitud, nombreEnBlanco in H.
  destruct (idInvalido solicitudId).
  { cbn in H. injection H as <- <-. eexists. repeat split.
    left. split; reflexivity. }
  simbolico H; injection H as <- <-; eexists;
    (split; [reflexivity |]); (split; [reflexivity |]);
    (split; [reflexivity |]); (split; [reflexivity |]).
  all: cbn [success message horas_voluntariados avanzar ponerGuion
            ponerTabla leerTabla].
  all: try (left; split; reflexivity).
  all: right;
    match goal with
    | Hn : campo ?e "nombre_completo_becado" = VTexto ?s
      |- context [horasData ?e ?sol ?h] =>
        exists (horasData e sol h), s;
        assert (Hid : campo (horasData e sol h) "id_becado_interno"
                      = campo e "id_becado_interno") by reflexivity;
        assert (Hnom : campo (horasData e sol h) "nombre_completo_becado"
                       = campo e "nombre_completo_becado") by reflexivity;
        assert (Hh : campo (horasData e sol h) "cantidad_horas" = h)
          by reflexivity;
        rewrite Hid, Hnom, Hh
    end;
    repeat match goal with
           | Hb : negb _ = false |- _ => apply negb_false_iff in Hb
           | Hb : String.eqb _ _ = false |- _ => apply String.eqb_neq in Hb
           end;
    repeat split; auto.
Qed.

Lemma aprobar_efectos_witness :
  let w := ponerGuion [SinFallo; SinFallo; SinFallo; Lanza "fetch failed"]
             (Escenario.conSolicitud "pendiente") in
  let w' := snd (run (aprobarSolicitud "s-1" None) w) in
  solicitudes_horas w' = solicitudes_horas w
  /\ length (horas_voluntariados w') = 1.
Proof.
  intros w w'.
  destruct (aprobar_efectos w w' "s-1" None
              (Normal (mkResultado false msgInesperado)))
    as (r & Hr & Hsol & _).
  - vm_compute. reflexivity.
  - injection Hr as <-. split; [exact Hsol | reflexivity].
Defined.

Section Reintento.

Variable w : Mundo.
Variables solicitudId nombre : string.
Variables solicitud estudiante : fila.

Hypothesis Hid : idInvalido solicitudId = false.
Hypothesis Hsol :
  seleccionar (Eq "id" (VTexto solicitudId)) (solicitudes_horas w)
  = [solicitud].
Hypothesis Hpend : yaProcesada solicitud = false.
Hypothesis Hest :
  seleccionar (Eq "id" (campo solicitud "estudiante_id")) (estudiantes w)
  = [estudiante].
Hypothesis Hinterno : truthy (campo estudiante "id_becado_interno") = true.
Hypothesis Hnombre : campo estudiante "nombre_completo_becado" = VTexto nombre.
Hypothesis Hblanco : Js.trim nombre <> "".

Let horasDe (h : option numero) : valor := cantidadHorasFinal h solicitud.
Let asiento (h : option numero) : fila :=
  horasData
    (proyectar (Some ["id_becado_interno"; "nombre_completo_becado"])
       estudiante)
    solicitud (horasDe h).

(** The run of an approval up to and including the insertion into the
    ledger. *)
Ltac hasta_insertar Hg Hh :=
  cbn [run bind intentar llamar];
  tranquila Hg;
  rewrite (selectUno_uno _ _ _ _ _ solicitud) by exact Hsol;
  change (proyectar None solicitud) with solicitud;
  cbn; rewrite Hpend; cbn;
  tranquila Hg;
  rewrite (selectUno_uno _ _ _ _ _ estudiante) by exact Hest;
  cbn;
  rewrite !campo_proyectar by (repeat constructor);
  rewrite Hinterno, Hnombre; cbn;
  unfold nombreEnBlanco;
  replace (truthy (VTexto nombre)) with true
    by (unfold truthy; destruct nombre;
        [exfalso; apply Hblanco; reflexivity | reflexivity]);
  cbn;
  replace (String.eqb (Js.trim nombre) "") with false
    by (symmetry; apply String.eqb_neq; exact Hblanco);
  cbn;
  unfold horasDe in Hh; rewrite Hh; cbn;
  tranquila Hg.

(** X10.  Retrying after a partial failure counts the hours twice.  The
    first approval inserts the row into the ledger and then fails to mark
    the request, which therefore stays as it was; the same approval,
    repeated without disturbance, succeeds and inserts a second row for the
    same request. *)
Theorem aprobar_reintento_duplica (h1 h2 : option numero) (f : Fallo)
    (g : list Fallo) :
  isNaN (horasDe h1) || menorIgualCero (horasDe h1) = false ->
  isNaN (horasDe h2) || menorIgualCero (horasDe h2) = false ->
  guion w = SinFallo :: SinFallo :: SinFallo :: f :: g ->
  f <> SinFallo ->
  tranquilas 4 g = true ->
  let '(r1, w1) := run (aprobarSolicitud solicitudId h1) w in
  let '(r2, w2) := run (aprobarSolicitud solicitudId h2) w1 in
  r1 = Normal (mkResultado false
                 match f with
                 | Lanza _ => msgInesperado
                 | _ => msgParcial
                 end)
  /\ solicitudes_horas w1 = solicitudes_horas w
  /\ r2 = Normal (mkResultado true msgAprobada)
  /\ horas_voluntariados w2
     = horas_voluntariados w ++ [asiento h1; asiento h2].
Proof.
  intros Hh1 Hh2 Hguion Hf Hg2.
  assert (Hg : tranquilas 3 (guion w) = true)
    by (rewrite Hguion; reflexivity).
  unfold aprobarSolicitud. rewrite Hid.
  hasta_insertar Hg Hh1.
  unfold ejecutar at 1, tomarFallo. cbn. rewrite Hguion. cbn.
  destruct f as [| e | m]; [contradiction | |]; cbn;
    match goal with
    | |- context [ejecutar _ ?w0] =>
        change (tranquilas 4 (guion w0) = true) in Hg2
    end;
    hasta_insertar Hg2 Hh2; tranquila Hg2; repeat split;
    rewrite <- app_assoc; reflexivity.
Qed.

End Reintento.

Lemma aprobar_reintento_duplica_witness :
  let w :=
    ponerGuion
      [SinFallo; SinFallo; SinFallo;
       DevuelveError (mkError "57014" "canceling statement due to statement timeout")]
      (Escenario.conSolicitud "pendiente") in
  let '(r1, w1) := run (aprobarSolicitud "s-1" None) w in
  let '(r2, w2) := run (aprobarSolicitud "s-1" None) w1 in
  r1 = Normal (mkResultado false msgParcial)
  /\ solicitudes_horas w1 = solicitudes_horas w
  /\ r2 = Normal (mkResultado true msgAprobada)
  /\ List.map (fun f => campo f "cantidad_horas") (horas_voluntariados w2)
     = [VNum (Finito 4); VNum (Finito 4)].
Proof.
  intros w.
  pose proof
    (aprobar_reintento_duplica w "s-1" "Jane Doe"
       (Escenario.solicitud "pendiente") Escenario.jane
       eq_refl eq_refl eq_refl eq_refl eq_refl eq_refl
       ltac:(vm_compute; discriminate)
       None None
       (DevuelveError (mkError "57014" "canceling statement due to statement timeout"))
       [] eq_refl eq_refl eq_refl ltac:(discriminate) eq_refl) as H.
  destruct (run (aprobarSolicitud "s-1" None) w) as [r1 w1].
  destruct (run (aprobarSolicitud "s-1" None) w1) as [r2 w2].
  destruct H as (H1 & H2 & H3 & H4).
  repeat split; try assumption.
  rewrite H4. reflexivity.
Defined.

Section Carrera.

Variable w : Mundo.
Variables solicitudId nombre : string.
Variables solicitud estudiante : fila.

Hypothesis Hid : idInvalido solicitudId = false.
Hypothesis Hsol :
  seleccionar (Eq "id" (VTexto solicitudId)) (solicitudes_horas w)
  = [solicitud].
Hypothesis Hpend : yaProcesada solicitud = false.
Hypothesis Hest :
  seleccionar (Eq "id" (campo solicitud "estudiante_id")) (estudiantes w)
  = [estudiante].
Hypothesis Hinterno : truthy (campo estudiante "id_becado_interno") = true.
Hypothesis Hnombre : campo estudiante "nombre_completo_becado" = VTexto nombre.
Hypothesis Hblanco : Js.trim nombre <> "".

Let horasDe (h : option numero) : valor := cantidadHorasFinal h solicitud.
Let asiento (h : option numero) : fila :=
  horasData
    (proyectar (Some ["id_becado_interno"; "nombre_completo_becado"])
       estudiante)
    solicitud (horasDe h).

(** X11.  Two approvals of the same request in flight.  When the two
    requests take turns, one backend call each, both read the request before
    either marks it: both report success, and the ledger gets two rows for
    the one request. *)
Theorem aprobar_carrera_duplica (h1 h2 : option numero) :
  isNaN (horasDe h1) || menorIgualCero (horasDe h1) = false ->
  isNaN (horasDe h2) || menorIgualCero (horasDe h2) = false ->
  tranquilas 8 (guion w) = true ->
  let '(p, q, w') :=
    intercalar Escenario.porTurnos
      (aprobarSolicitud solicitudId h1) (aprobarSolicitud solicitudId h2) w in
  p = Ret (mkResultado true msgAprobada)
  /\ q = Ret (mkResultado true msgAprobada)
  /\ horas_voluntariados w'
     = horas_voluntariados w ++ [asiento h1; asiento h2].
Proof.
  intros Hh1 Hh2 Hg. unfold horasDe in Hh1, Hh2.
  assert (Htn : truthy (VTexto nombre) = true).
  { unfold truthy. destruct nombre; [| reflexivity].
    exfalso. apply Hblanco. reflexivity. }
  assert (Hbl : String.eqb (Js.trim nombre) "" = false)
    by (apply String.eqb_neq; exact Hblanco).
  unfold aprobarSolicitud, Escenario.porTurnos. rewrite Hid.
  cbn [intercalar paso intentar bind llamar].
  (* both look the request up *)
  tranquila Hg.
  rewrite (selectUno_uno _ _ _ _ _ solicitud) by exact Hsol.
  change (proyectar None solicitud) with solicitud.
  cbn. rewrite Hpend. cbn.
  tranquila Hg.
  rewrite (selectUno_uno _ _ _ _ _ solicitud) by exact Hsol.
  change (proyectar None solicitud) with solicitud.
  cbn. rewrite Hpend. cbn.
  (* both look the student up *)
  tranquila Hg.
  rewrite (selectUno_uno _ _ _ _ _ estudiante) by exact Hest. cbn.
  rewrite !campo_proyectar by (repeat constructor).
  rewrite Hinterno, Hnombre. cbn.
  unfold nombreEnBlanco. rewrite Htn. cbn. rewrite Hbl. cbn.
  rewrite Hh1. cbn.
  tranquila Hg.
  rewrite (selectUno_uno _ _ _ _ _ estudiante) by exact Hest. cbn.
  rewrite !campo_proyectar by (repeat constructor).
  rewrite Hinterno, Hnombre. cbn.
  rewrite Htn. cbn. rewrite Hbl. cbn.
  rewrite Hh2. cbn.
  (* both insert, both update *)
  tranquila Hg. tranquila Hg. tranquila Hg. tranquila Hg.
  repeat split.
  rewrite <- app_assoc. reflexivity.
Qed.

End Carrera.

Lemma aprobar_carrera_duplica_witness :
  let '(p, q, w') :=
    intercalar Escenario.porTurnos
      (aprobarSolicitud "s-1" None) (aprobarSolicitud "s-1" (Some (Finito 5)))
      (Escenario.conSolicitud "pendiente") in
  p = Ret (mkResultado true msgAprobada)
  /\ q = Ret (mkResultado true msgAprobada)
  /\ List.map (fun f => campo f "cantidad_horas") (horas_voluntariados w')
     = [VNum (Finito 4); VNum (Finito 5)].
Proof.
  pose proof
    (aprobar_carrera_duplica (Escenario.conSolicitud "pendiente")
       "s-1" "Jane Doe" (Escenario.solicitud "pendiente") Escenario.jane
       eq_refl eq_refl eq_refl eq_refl eq_refl eq_refl
       ltac:(vm_compute; discriminate)
       None (Some (Finito 5)) eq_refl eq_refl eq_refl) as H.
  destruct (intercalar Escenario.porTurnos
              (aprobarSolicitud "s-1" None)
              (aprobarSolicitud "s-1" (Some (Finito 5)))
              (Escenario.conSolicitud "pendiente")) as [[p q] w'].
  destruct H as (H1 & H2 & H3).
  repeat split; try assumption.
  rewrite H3. reflexivity.
Defined.

End FlujoSolicitudesProps.

(** ** Helpers on scripts and selections *)

Lemma tranquilas_tail (n : nat) (g : list Fallo) :
  tranquilas (S n) g = true -> tranquilas n (tail g) = true.
Proof.
  destruct g as [| [| e | m] g]; cbn [tranquilas tail];
    try discriminate; auto.
  destruct n; reflexivity.
Qed.

(** An update that leaves the filtered column alone keeps the selection,
    row by row. *)
Lemma seleccionar_actualizar_otra q q' cambios (l : list fila) :
  (forall f, cumple q (aplicar cambios f) = cumple q f) ->
  seleccionar q (actualizar q' cambios l)
  = List.map (fun f => if cumple q' f then aplicar cambios f else f)
      (seleccionar q l).
Proof.
  intros Hq. unfold seleccionar, actualizar.
  induction l as [| f l IH]; cbn [List.map List.filter]; [reflexivity |].
  destruct (cumple q' f) eqn:E'.
  - rewrite Hq. destruct (cumple q f); cbn [List.map]; rewrite ?E', IH;
      reflexivity.
  - destruct (cumple q f); cbn [List.map]; rewrite ?E', IH; reflexivity.
Qed.

(** An update that writes something else into the filtered column selects
    nothing new. *)
Lemma seleccionar_actualizar_nada q q' cambios (l : list fila) :
  (forall f, cumple q (aplicar cambios f) = false) ->
  seleccionar q l = [] ->
  seleccionar q (actualizar q' cambios l) = [].
Proof.
  intros Hq. unfold seleccionar, actualizar.
  induction l as [| f l IH]; cbn [List.map List.filter]; [reflexivity |].
  destruct (cumple q f) eqn:E; [discriminate |]. intros Hl.
  destruct (cumple q' f); rewrite ?Hq, ?E; auto.
Qed.

(** ** Administration of students, outcome by outcome *)

Module GestionEstudiantesProps.
Import Estudiantes Permisos.

Lemma verificarAdmin_solo_admin (w w1 : Mundo) (msg userId : string) :
  run (verificarAdmin msg) w = (Normal (inr userId), w1) ->
  llamadorEsAdmin w = true.
Proof.
  intros H. unfold verificarAdmin in H.
  simbolico H.
  unfold llamadorEsAdmin.
  cbn [sesion avanzar ponerGuion] in *.
  match goal with
  | Hs : sesion w = Some _ |- _ => rewrite Hs
  end.
  match goal with
  | Hd : data (selectUno _ _ _ _ _) = Some _ |- _ =>
      apply selectUno_dato in Hd as (f & Hsel & _)
  end.
  cbn [leerTabla avanzar ponerGuion usuarios_administrativos] in Hsel.
  rewrite Hsel. reflexivity.
Qed.

Lemma verificarAdmin_marco (w w1 : Mundo) (msg : string)
    (salida : Salida (Resultado + string)) :
  run (verificarAdmin msg) w = (salida, w1) ->
  estudiantes w1 = estudiantes w /\ auth_users w1 = auth_users w
  /\ match salida with
     | Normal (inl r) => success r = false
     | _ => True
     end.
Proof.
  intros H. unfold verificarAdmin in H.
  simbolico H; injection H as <- <-; repeat split.
Qed.

(** X12.  Only administrators reset and unlink.  For a caller who is not
    signed in, or who does not have exactly one row in
    usuarios_administrativos, both actions return a failure and leave every
    student row and the credential store as they were, whatever the backend
    does. *)
Theorem acciones_solo_admin (w w' : Mundo) (estudianteId : string)
    (salida : Salida Resultado) :
  llamadorEsAdmin w = false ->
  run (resetearPerfilEstudiante estudianteId) w = (salida, w')
  \/ run (desvincularCuentaEstudiante estudianteId) w = (salida, w') ->
  (exists r, salida = Normal r /\ success r = false)
  /\ estudiantes w' = estudiantes w
  /\ auth_users w' = auth_users w.
Proof.
  intros Hno H.
  assert (Hcomun :
    forall (msg : string) (resto : Resultado + string -> Prog Resultado)
           (h : excepcion -> Resultado),
      (forall r, resto (inl r) = Ret r) ->
      (forall e, success (h e) = false) ->
      run (intentar
             (if idEnBlanco estudianteId
              then Ret (mkResultado false msgIdInvalido)
              else bind (verificarAdmin msg) resto)
             (fun e => Ret (h e))) w = (salida, w') ->
      (exists r, salida = Normal r /\ success r = false)
      /\ estudiantes w' = estudiantes w
      /\ auth_users w' = auth_users w).
  { intros msg resto h Hresto Hh Hrun.
    destruct (idEnBlanco estudianteId).
    { cbn in Hrun. injection Hrun as <- <-. eauto. }
    rewrite run_intentar, run_bind in Hrun.
    destruct (run (verificarAdmin msg) w) as [[[r | userId] | e] w1] eqn:Hv.
    - rewrite Hresto in Hrun. cbn in Hrun. injection Hrun as <- <-.
      apply verificarAdmin_marco in Hv as (He & Ha & Hr). eauto.
    - apply verificarAdmin_solo_admin in Hv. congruence.
    - cbn in Hrun. injection Hrun as <- <-.
      apply verificarAdmin_marco in Hv as (He & Ha & _). eauto. }
  destruct H as [H | H].
  - unfold resetearPerfilEstudiante in H.
    eapply (Hcomun _ _ (fun e => mkResultado false (msgInesperado e)));
      [| | exact H]; reflexivity.
  - unfold desvincularCuentaEstudiante in H.
    eapply (Hcomun _ _ (fun e => mkResultado false (msgInesperado e)));
      [| | exact H]; reflexivity.
Qed.

Lemma acciones_solo_admin_witness :
  let w' := snd (run (desvincularCuentaEstudiante "BDI-042")
                   (ponerSesion (Some "uid-1") Escenario.activa)) in
  (exists r,
     Normal (mkResultado false msgSinPermisoDesvincular) = Normal r
     /\ success r = false)
  /\ estudiantes w' = estudiantes Escenario.activa
  /\ auth_users w' = auth_users Escenario.activa.
Proof.
  intros w'.
  apply (acciones_solo_admin (ponerSesion (Some "uid-1") Escenario.activa)
           w' "BDI-042"
           (Normal (mkResultado false msgSinPermisoDesvincular)));
    [reflexivity |].
  right. vm_compute. reflexivity.
Defined.

Lemma datosReset_fuera (c : string) :
  c ∉ Perfil.camposWizard ++ Perfil.camposDocumentos ->
  datosReset !! c = None.
Proof.
  intros H. unfold datosReset.
  apply not_elem_of_list_to_map_1. intros Hin. apply H. clear H.
  cbn in Hin.
  repeat (apply elem_of_cons in Hin as [-> | Hin];
          [unfold Perfil.camposWizard, Perfil.camposDocumentos; cbn [app];
           set_solver |]).
  inversion Hin.
Qed.

(** The two things a reset can have done to the stores. *)
Lemma resetear_clases (w w' : Mundo) (estudianteId : string)
    (salida : Salida Resultado) :
  run (resetearPerfilEstudiante estudianteId) w = (salida, w') ->
  (exists r, salida = Normal r
     /\ (success r = false -> estudiantes w' = estudiantes w))
  /\ (estudiantes w' = estudiantes w
      \/ exists v, estudiantes w'
                   = actualizar (Eq "id" v) datosReset (estudiantes w))
  /\ auth_users w' = auth_users w
  /\ solicitudes_horas w' = solicitudes_horas w
  /\ horas_voluntariados w' = horas_voluntariados w.
Proof.
  intros H.
  unfold resetearPerfilEstudiante, verificarAdmin in H.
  destruct (idEnBlanco estudianteId).
  { cbn in H. injection H as <- <-. repeat split; eauto. }
  simbolico H; injection H as <- <-;
    cbn [estudiantes auth_users solicitudes_horas horas_voluntariados
         avanzar ponerGuion ponerTabla leerTabla success];
    (split; [eexists; split; [reflexivity |] |]);
    try (intros _; first [ reflexivity
                         | apply actualizar_sin_filas;
                           eapply map_eq_nil; eassumption ]).
  all: try (repeat split; try (left; reflexivity); fail).
  all: try (intros Hf; discriminate Hf).
  all: try (split; [right; eexists; reflexivity | repeat split]).
Qed.

(** X13.  What a reset leaves alone.  Whatever the backend does, a reset
    never throws, a reset that fails has written nothing, and a reset that
    succeeds has written only the columns of the profile wizard and the two
    document URLs: every row keeps every other column (its identifiers,
    name, mail, token and linked identity), and requests, ledger and
    credential store are untouched. *)
Theorem resetear_efectos (w w' : Mundo) (estudianteId : string)
    (salida : Salida Resultado) :
  run (resetearPerfilEstudiante estudianteId) w = (salida, w') ->
  (exists r,
     salida = Normal r
     /\ (success r = false -> estudiantes w' = estudiantes w))
  /\ length (estudiantes w') = length (estudiantes w)
  /\ (forall i est est' c,
        estudiantes w !! i = Some est ->
        estudiantes w' !! i = Some est' ->
        c ∉ Perfil.camposWizard ++ Perfil.camposDocumentos ->
        campo est' c = campo est c)
  /\ auth_users w' = auth_users w
  /\ solicitudes_horas w' = solicitudes_horas w
  /\ horas_voluntariados w' = horas_voluntariados w.
Proof.
  intros H.
  destruct (resetear_clases _ _ _ _ H)
    as (Hr & [Hest | (v & Hest)] & Ha & Hs & Hh);
    (split; [exact Hr |]); rewrite Hest.
  - repeat split; auto. intros i est est' c Hi Hi' _. congruence.
  - split; [apply length_actualizar |]. repeat split; auto.
    intros i est est' c Hi Hi' Hc.
    rewrite (actualizar_lookup _ _ _ _ _ Hi) in Hi'.
    destruct (cumple (Eq "id" v) est); injection Hi' as <-; [| reflexivity].
    apply campo_aplicar_intacto, datosReset_fuera, Hc.
Qed.

Lemma resetear_efectos_witness :
  let w' := snd (run (resetearPerfilEstudiante "BDI-042") Escenario.activa) in
  length (estudiantes w') = length (estudiantes Escenario.activa)
  /\ (forall est' c,
        estudiantes w' !! 0 = Some est' ->
        c ∉ Perfil.camposWizard ++ Perfil.camposDocumentos ->
        campo est' c = campo Escenario.janeActiva c)
  /\ auth_users w' = auth_users Escenario.activa.
Proof.
  intros w'.
  destruct (resetear_efectos Escenario.activa w' "BDI-042"
              (Normal (mkResultado true
                         (msgReseteado Escenario.janeActiva))))
    as (_ & Hlen & Hmarco & Ha & _).
  - vm_compute. reflexivity.
  - split; [exact Hlen |]. split; [| exact Ha].
    intros est' c. apply (Hmarco 0 Escenario.janeActiva est' c).
    reflexivity.
Defined.

Section Desvincular.

Variable w : Mundo.
Variables estudianteId adminId nuevoToken : string.
Variables adminData estudiante : fila.

Hypothesis Hid : idEnBlanco estudianteId = false.
Hypothesis Hses : sesion w = Some adminId.
Hypothesis Hadm :
  seleccionar (Eq "auth_user_id" (VTexto adminId))
    (usuarios_administrativos w) = [adminData].
Hypothesis Hest :
  seleccionar (porIdOIdInterno estudianteId) (estudiantes w) = [estudiante].
Hypothesis Hpk :
  seleccionar (Eq "id" (campo estudiante "id")) (estudiantes w)
  = [estudiante].
Hypothesis Hazar : hd uuidPorDefecto (azar w) = nuevoToken.
Hypothesis Hg : tranquilas 5 (guion w) = true.
Hypothesis Hcuenta :
  truthy (campo estudiante "auth_user_id") = true ->
  existsb (tieneId (campo estudiante "auth_user_id")) (auth_users w) = true.

(** The run of an unlink that goes through, with the world it leaves. *)
Lemma desvincular_exito_mundo :
  let '(r, w') := run (desvincularCuentaEstudiante estudianteId) w in
  r = Normal (mkResultado true (msgDesvinculado estudiante))
  /\ estudiantes w'
     = actualizar (Eq "id" (campo estudiante "id"))
         (datosDesvinculacion nuevoToken) (estudiantes w)
  /\ auth_users w'
     = (if truthy (campo estudiante "auth_user_id")
        then List.filter
               (fun u => negb (tieneId (campo estudiante "auth_user_id") u))
               (auth_users w)
        else auth_users w)
  /\ usuarios_administrativos w' = usuarios_administrativos w
  /\ sesion w' = sesion w
  /\ correos w' = correos w
  /\ azar w' = tail (azar w)
  /\ guion w'
     = (if truthy (campo estudiante "auth_user_id")
        then Nat.iter 5 (@tail Fallo) (guion w)
        else Nat.iter 4 (@tail Fallo) (guion w)).
Proof.
  pose proof Hg as Hg0.
  unfold desvincularCuentaEstudiante, verificarAdmin. rewrite Hid.
  cbn [run bind intentar llamar].
  tranquila Hg0. rewrite Hses. cbn.
  tranquila Hg0.
  rewrite (selectUno_uno _ _ _ _ _ adminData) by exact Hadm. cbn.
  tranquila Hg0.
  rewrite (selectUno_uno _ _ _ _ _ estudiante) by exact Hest. cbn.
  rewrite ejecutar_uuid. cbn [azar avanzar ponerGuion].
  rewrite Hazar. cbn.
  rewrite !campo_proyectar by (repeat constructor).
  tranquila Hg0. rewrite Hpk. cbn.
  unfold borrarDeAuth.
  assert (Hmsg : msgDesvinculado
                   (proyectar
                      (Some ["id"; "id_becado_interno";
                             "nombre_completo_becado"; "auth_user_id"])
                      estudiante)
                 = msgDesvinculado estudiante).
  { unfold msgDesvinculado, nombreMostrado.
    rewrite !campo_proyectar by (repeat constructor). reflexivity. }
  destruct (truthy (campo estudiante "auth_user_id")) eqn:Hauth; cbn.
  - tranquila Hg0. rewrite Hcuenta by reflexivity. cbn.
    rewrite Hmsg. repeat split; auto.
  - rewrite Hmsg. repeat split; auto.
Qed.

(** X14.  The unlink that goes through.  An administrator unlinks a student
    that the identifier names, none of the calls is disturbed, and the
    identity of the student, if the row has one, is in the credential store.
    Then the action succeeds, the rows with the primary key of the student
    have no identity, are not onboarded and carry the fresh token, and the
    identity is gone from the credential store; a row without identity
    leaves the credential store alone. *)
Theorem desvincular_exito :
  let '(r, w') := run (desvincularCuentaEstudiante estudianteId) w in
  r = Normal (mkResultado true (msgDesvinculado estudiante))
  /\ estudiantes w'
     = actualizar (Eq "id" (campo estudiante "id"))
         (datosDesvinculacion nuevoToken) (estudiantes w)
  /\ auth_users w'
     = (if truthy (campo estudiante "auth_user_id")
        then List.filter
               (fun u => negb (tieneId (campo estudiante "auth_user_id") u))
               (auth_users w)
        else auth_users w).
Proof.
  pose proof desvincular_exito_mundo as H.
  destruct (run (desvincularCuentaEstudiante estudianteId) w) as [r w'].
  destruct H as (Hr & He & Ha & _). auto.
Qed.

End Desvincular.

Lemma desvincular_exito_witness :
  let '(r, w') :=
    run (desvincularCuentaEstudiante "BDI-042") Escenario.activa in
  r = Normal (mkResultado true (msgDesvinculado Escenario.janeActiva))
  /\ estudiantes w'
     = actualizar (Eq "id" (campo Escenario.janeActiva "id"))
         (datosDesvinculacion "tok-2") (estudiantes Escenario.activa)
  /\ auth_users w'
     = (if truthy (campo Escenario.janeActiva "auth_user_id")
        then List.filter
               (fun u =>
                  negb (tieneId (campo Escenario.janeActiva "auth_user_id") u))
               (auth_users Escenario.activa)
        else auth_users Escenario.activa).
Proof.
  apply (desvincular_exito Escenario.activa "BDI-042" "uid-admin" "tok-2"
           Escenario.adminRow Escenario.janeActiva);
    try reflexivity.
Defined.


Section IdaYVuelta.

Variable w : Mundo.
Variables estudianteId adminId nuevoToken nuevoId viejoId : string.
Variable resto : list string.
Variables adminData estudiante : fila.
Variables nombre email password : string.

Let correo := Js.toLowerCase (Js.trim email).
Let pk := Eq "id" (campo estudiante "id").

Hypothesis Hid : idEnBlanco estudianteId = false.
Hypothesis Hses : sesion w = Some adminId.
Hypothesis Hadm :
  seleccionar (Eq "auth_user_id" (VTexto adminId))
    (usuarios_administrativos w) = [adminData].
Hypothesis Hest :
  seleccionar (porIdOIdInterno estudianteId) (estudiantes w) = [estudiante].
Hypothesis Hpk : seleccionar pk (estudiantes w) = [estudiante].
Hypothesis Hviejo : campo estudiante "auth_user_id" = VTexto viejoId.
Hypothesis Hviejo_ne : viejoId <> "".
Hypothesis Hexiste :
  existsb (tieneId (VTexto viejoId)) (auth_users w) = true.
Hypothesis Hnombre : campo estudiante "nombre_completo_becado" = VTexto nombre.
Hypothesis Hnombre_ne : nombre <> "".
Hypothesis Hcorreo : truthy (campo estudiante "correo_personal") = true.
Hypothesis Hazar : azar w = nuevoToken :: nuevoId :: resto.
Hypothesis Hfresco :
  seleccionar (Eq "onboarding_token" (VTexto nuevoToken)) (estudiantes w)
  = [].
Hypothesis HnuevoId :
  seleccionar (Eq "auth_user_id" (VTexto nuevoId)) (estudiantes w) = [].
Hypothesis Hnoadmin :
  seleccionar (Eq "auth_user_id" (VTexto nuevoId))
    (usuarios_administrativos w) = [].
Hypothesis Hreglas : contrasenaValida password.
Hypothesis Hascii : Js.esAscii email = true.
Hypothesis Hcne : correo <> "".
Hypothesis Hlibre :
  existsb (tieneEmail correo)
    (List.filter (fun u => negb (tieneId (VTexto viejoId) u)) (auth_users w))
  = false.
Hypothesis Hg : tranquilas 12 (guion w) = true.

(** X15.  Unlinking and activating again.  An administrator unlinks a
    student whose row has a name and a personal mail and whose identity is
    in the credential store, and then the activation is run with the token
    the unlink has generated.  None of the twelve backend calls is
    disturbed; the password has eight UTF-16 code units at least, an
    upper-case letter, a lower-case letter and a digit; the mail is made of
    ASCII characters and, trimmed and in lower case, is not empty and not
    held by another identity; the identifier the credential store will hand
    out is not in use.  Then the unlink succeeds, the activation sends the
    caller to /dashboard, the old identity is gone and the new one is
    there, the caller is signed in as the new identity, and the same row
    is linked to it, onboarded, with no token. *)
Theorem desvincular_y_reactivar :
  let '(r1, w1) := run (desvincularCuentaEstudiante estudianteId) w in
  let '(r2, w2) := run (Activar.activarCuenta nuevoToken email password) w1 in
  r1 = Normal (mkResultado true (msgDesvinculado estudiante))
  /\ r2 = Excepcion (NextRedirect "/dashboard")
  /\ (exists vinculado,
        seleccionar pk (estudiantes w2) = [vinculado]
        /\ campo vinculado "auth_user_id" = VTexto nuevoId
        /\ campo vinculado "ha_completado_onboarding" = VBool true
        /\ campo vinculado "onboarding_token" = VNull)
  /\ auth_users w2
     = List.filter (fun u => negb (tieneId (VTexto viejoId) u)) (auth_users w)
       ++ [mkUsuario nuevoId correo password]
  /\ sesion w2 = Some nuevoId.
Proof using All.
  assert (Htv : truthy (campo estudiante "auth_user_id") = true).
  { rewrite Hviejo. unfold truthy. apply String.eqb_neq in Hviejo_ne.
    rewrite Hviejo_ne. reflexivity. }
  pose proof Hg as Hg5. do 7 apply tranquilas_menos in Hg5.
  pose proof (desvincular_exito_mundo w estudianteId adminId nuevoToken
                adminData estudiante Hid Hses Hadm Hest Hpk
                ltac:(rewrite Hazar; reflexivity) Hg5
                ltac:(intros _; rewrite Hviejo; exact Hexiste)) as H1.
  destruct (run (desvincularCuentaEstudiante estudianteId) w) as [r1 w1].
  destruct H1 as (Hr1 & He1 & Ha1 & Hadm1 & Hs1 & Hc1 & Hz1 & Hg1).
  rewrite Htv, Hviejo in *. rewrite Hazar in Hz1. cbn [tail] in Hz1.
  set (desvinculado := aplicar (datosDesvinculacion nuevoToken) estudiante).
  assert (Hsel1 :
    seleccionar (Eq "onboarding_token" (VTexto nuevoToken)) (estudiantes w1)
    = [desvinculado]).
  { rewrite He1. rewrite EstudiantesProps.seleccionar_token_nuevo by exact Hfresco.
    fold pk. rewrite Hpk. reflexivity. }
  assert (Hg7 : tranquilas 7 (guion w1) = true).
  { rewrite Hg1. cbn [Nat.iter]. pose proof Hg as Hg7.
    do 5 apply tranquilas_tail in Hg7. exact Hg7. }
  assert (Hrun2 := ActivacionProps.activar_camino_feliz_mundo w1 nuevoToken email password
                     nombre desvinculado Hsel1).
  cbv zeta in Hrun2. rewrite Hz1 in Hrun2. cbn [hd tail] in Hrun2.
  rewrite Hrun2; clear Hrun2.
  - split; [exact Hr1 |]. split; [reflexivity |].
    cbn [estudiantes auth_users sesion]. rewrite Ha1.
    split; [| split; reflexivity].
    exists (aplicar (Activar.datosActivacion nuevoId email) desvinculado).
    split.
    + rewrite seleccionar_actualizar_otra.
      2:{ intros f. unfold pk. cbn [cumple].
          rewrite campo_aplicar_intacto by (vm_compute; reflexivity).
          reflexivity. }
      rewrite He1. fold pk.
      rewrite seleccionar_actualizar.
      2:{ intros f. unfold pk. cbn [cumple].
          rewrite campo_aplicar_intacto by (vm_compute; reflexivity).
          reflexivity. }
      rewrite Hpk. cbn [List.map]. fold desvinculado.
      replace (cumple (Eq "onboarding_token" (VTexto nuevoToken))
                 desvinculado) with true; [reflexivity |].
      symmetry. unfold desvinculado. cbn [cumple].
      rewrite (campo_aplicar_escrito _ _ _ (VTexto nuevoToken))
        by (vm_compute; reflexivity).
      apply String.eqb_refl.
    + repeat split; apply campo_aplicar_escrito; vm_compute; reflexivity.
  - unfold desvinculado.
    rewrite (campo_aplicar_escrito _ _ _ (VBool false))
      by (vm_compute; reflexivity).
    reflexivity.
  - unfold desvinculado.
    rewrite campo_aplicar_intacto by (vm_compute; reflexivity).
    exact Hnombre.
  - exact Hnombre_ne.
  - unfold desvinculado.
    rewrite campo_aplicar_intacto by (vm_compute; reflexivity).
    exact Hcorreo.
  - exact (contrasenaValida_schema _ Hreglas).
  - exact Hcne.
  - rewrite Ha1. exact Hlibre.
  - rewrite He1. apply seleccionar_actualizar_nada; [| exact HnuevoId].
    intros f. cbn [cumple].
    rewrite (campo_aplicar_escrito _ _ _ VNull) by (vm_compute; reflexivity).
    reflexivity.
  - rewrite Hadm1. exact Hnoadmin.
  - exact Hg7.
Qed.
End IdaYVuelta.

Lemma desvincular_y_reactivar_witness :
  let w := ponerAzar ["tok-2"; "uid-2"] Escenario.activa in
  let '(r1, w1) := run (desvincularCuentaEstudiante "BDI-042") w in
  let '(r2, w2) :=
    run (Activar.activarCuenta "tok-2" "jane@example.org" "OtraClave9") w1 in
  r1 = Normal (mkResultado true (msgDesvinculado Escenario.janeActiva))
  /\ r2 = Excepcion (NextRedirect "/dashboard")
  /\ (exists vinculado,
        seleccionar (Eq "id" (campo Escenario.janeActiva "id"))
          (estudiantes w2) = [vinculado]
        /\ campo vinculado "auth_user_id" = VTexto "uid-2"
        /\ campo vinculado "ha_completado_onboarding" = VBool true
        /\ campo vinculado "onboarding_token" = VNull)
  /\ auth_users w2
     = List.filter (fun u => negb (tieneId (VTexto "uid-1") u))
         (auth_users w)
       ++ [mkUsuario "uid-2" (Js.toLowerCase (Js.trim "jane@example.org"))
             "OtraClave9"]
  /\ sesion w2 = Some "uid-2".
Proof.
  intros w.
  apply (desvincular_y_reactivar w "BDI-042" "uid-admin" "tok-2" "uid-2"
           "uid-1" [] Escenario.adminRow Escenario.janeActiva
           "Jane Doe" "jane@example.org" "OtraClave9");
    first [reflexivity | vm_compute; discriminate | cumple_reglas].
Defined.

End GestionEstudiantesProps.

(** ** What the pages show *)

Module PaginasProps.
Import AccesoRapido Dashboard TablaEstudiantes PaginaActivar Permisos.
Import Estudiantes.


Lemma esPendiente_truthy (url : valor) :
  esPendiente url = true -> truthy url = true.
Proof.
  destruct url as [| s | b | n]; cbn; try discriminate.
  intros H. apply String.eqb_eq in H. subst s. reflexivity.
Qed.

(** X16.  The card of a document, case by case.  For the carnet and for the
    expediente alike: the disabled card with the spinner is shown exactly
    for the mark 'PENDIENTE'; an external link is shown only for a URL that
    is there and is not the mark, and leads to that URL; the link into the
    application leads to /completar-perfil and is shown only when there is
    no URL and the profile is not complete; the card without link is left
    for a complete profile without URL.  The fallback card 'Próximamente' is
    never shown. *)
Theorem acceso_rapido_documentos (perfilCompleto : bool) (url : valor)
    (opcion : Opcion) :
  opcion = opcionCarnet perfilCompleto url
  \/ opcion = opcionExpediente perfilCompleto url ->
  match tarjeta opcion with
  | Generando _ _ _ => esPendiente url = true
  | EnlaceExterno href _ _ _ =>
      href = url /\ truthy url = true /\ esPendiente url = false
  | EnlaceInterno href _ _ texto =>
      href = "/completar-perfil" /\ texto = "Completar Perfil"
      /\ truthy url = false /\ perfilCompleto = false
  | SinEnlace _ _ _ => truthy url = false /\ perfilCompleto = true
  | Proximamente _ _ => False
  end.
Proof.
  intros [-> | ->];
    unfold tarjeta, opcionCarnet, opcionExpediente;
    cbn [estaGenerando link esExterno tieneLink internalLink habilitado
         titulo descripcion textoBoton];
    pose proof (esPendiente_truthy url) as Hp;
    destruct (esPendiente url), (truthy url) eqn:Ht, perfilCompleto;
    cbn; try rewrite Ht; cbn; auto;
    try (specialize (Hp eq_refl); discriminate Hp);
    change (truthy VNull) with false;
    change (String.eqb "/completar-perfil" "") with false;
    cbn; auto.
Qed.

Lemma acceso_rapido_documentos_witness :
  esPendiente (VTexto "PENDIENTE") = true.
Proof.
  exact (acceso_rapido_documentos true (VTexto "PENDIENTE")
           (opcionCarnet true (VTexto "PENDIENTE")) (or_introl eq_refl)).
Defined.

Lemma oBien_nulo_idem (v : valor) : oBien (oBien v VNull) VNull = oBien v VNull.
Proof.
  unfold oBien. destruct (truthy v) eqn:E; [rewrite E |]; reflexivity.
Qed.

Lemma perfilCompletoDe_cierto (v : valor) :
  perfilCompletoDe (oBien v VNull) = true ->
  exists s, v = VTexto s /\ Js.trim s <> "".
Proof.
  unfold oBien. destruct (truthy v) eqn:E; [| discriminate].
  destruct v as [| s | b | n]; try discriminate.
  unfold perfilCompletoDe. rewrite E. cbn [andb].
  intros H. apply negb_true_iff, String.eqb_neq in H. eauto.
Qed.

Lemma campo_camposExtra_emergencia (extra f : fila) :
  campo (aplicar (camposExtra extra) f) "nombre_emergencia"
  = oBien (campo extra "nombre_emergencia") VNull.
Proof.
  apply campo_aplicar_escrito. unfold camposExtra. apply lookup_insert_eq.
Qed.

Lemma campo_basico_emergencia (f : fila) :
  campo (proyectar (Some ["id"; "nombre_completo_becado"; "sexo"]) f)
    "nombre_emergencia" = VNull.
Proof.
  unfold campo, proyectar. rewrite proyectarCols_lookup.
  rewrite decide_False; [reflexivity |].
  intros Hin.
  repeat (apply elem_of_cons in Hin as [Hin | Hin]; [discriminate Hin |]).
  inversion Hin.
Qed.

(** X17.  Who sees the dashboard.  Whatever the backend does, the page
    renders only for a caller who is signed in and has exactly one student
    row; the name in the heading is the name of that row (or 'Becario'), and
    a profile shown as complete has an emergency contact that is not blank.
    Otherwise the page redirects to /login, /admin/dashboard or
    /unauthorized, to /admin/dashboard only for an administrator.  The page
    writes nothing. *)
Theorem dashboard_salidas (w w' : Mundo) (salida : Salida Props) :
  run DashboardPage w = (salida, w') ->
  match salida with
  | Normal props =>
      exists userId estudiante,
        sesion w = Some userId
        /\ seleccionar (Eq "auth_user_id" (VTexto userId)) (estudiantes w)
           = [estudiante]
        /\ nombreCompleto props
           = oBien (campo estudiante "nombre_completo_becado")
               (VTexto "Becario")
        /\ (perfilCompleto props = true ->
            exists s, campo estudiante "nombre_emergencia" = VTexto s
                      /\ Js.trim s <> "")
  | Excepcion (NextRedirect url) =>
      In url ["/login"; "/admin/dashboard"; "/unauthorized"]
      /\ (url = "/admin/dashboard" -> llamadorEsAdmin w = true)
  | Excepcion (ErrorJS _) => True
  end
  /\ estudiantes w' = estudiantes w
  /\ usuarios_administrativos w' = usuarios_administrativos w
  /\ auth_users w' = auth_users w
  /\ sesion w' = sesion w.
Proof.
  intros H.
  unfold DashboardPage, consultarExtra, presentar, saludoDe, redirect in H.
  simbolico H.
  all: injection H as <- <-.
  all: split; [| repeat split; cbn; auto].
  all: try exact I.
  all: try (split; [cbn; tauto | intros E; try discriminate E]).
  all: try (unfold llamadorEsAdmin;
            match goal with Hs : sesion _ = Some _ |- _ => rewrite Hs end;
            match goal with
            | Hd : data (selectUno T_usuarios_administrativos _ _ _ _)
                   = Some _ |- _ =>
                apply selectUno_dato in Hd as (f & Hsel & _);
                cbn [leerTabla avanzar ponerGuion usuarios_administrativos]
                  in Hsel;
                rewrite Hsel; reflexivity
            end).
  all: match goal with
       | Hd : data (selectUno T_estudiantes (Some _) _ _ _) = Some _ |- _ =>
           apply selectUno_dato in Hd as (f & Hsel & ->);
           cbn [leerTabla avanzar ponerGuion estudiantes] in Hsel;
           eexists _, f; split; [reflexivity |]; split; [exact Hsel |]
       end.
  all: try match goal with
       | Hd : data (selectUno T_estudiantes None _ _ _) = Some _ |- _ =>
           apply selectUno_dato in Hd as (f' & Hsel' & ->);
           cbn [leerTabla avanzar ponerGuion estudiantes] in Hsel';
           rewrite Hsel in Hsel'; injection Hsel' as <-;
           change (proyectar None f) with f
       end.
  all: cbn [nombreCompleto perfilCompleto];
       rewrite ?campo_camposExtra_emergencia, ?campo_basico_emergencia,
         ?oBien_nulo_idem;
       rewrite ?campo_aplicar_intacto by (vm_compute; reflexivity);
       rewrite campo_proyectar by (repeat constructor);
       (split; [reflexivity |]);
       first [ apply perfilCompletoDe_cierto | intros E; discriminate E ].
Qed.

Lemma dashboard_salidas_witness :
  let w' := snd (run DashboardPage Escenario.activa) in
  (In "/admin/dashboard" ["/login"; "/admin/dashboard"; "/unauthorized"]
   /\ ("/admin/dashboard" = "/admin/dashboard" ->
       llamadorEsAdmin Escenario.activa = true))
  /\ estudiantes w' = estudiantes Escenario.activa
  /\ usuarios_administrativos w'
     = usuarios_administrativos Escenario.activa
  /\ auth_users w' = auth_users Escenario.activa
  /\ sesion w' = sesion Escenario.activa.
Proof.
  intros w'.
  apply (dashboard_salidas Escenario.activa w'
           (Excepcion (NextRedirect "/admin/dashboard"))).
  vm_compute. reflexivity.
Defined.

(** X19.  Who sees the wizard.  Whatever the backend does, the page shows
    the wizard only to a caller who is signed in and has exactly one student
    row, whose emergency contact is missing or blank, and it sends a caller
    to /dashboard only when the row has an emergency contact that is not
    blank.  The other redirects are to /login, /admin/dashboard (only for an
    administrator) and /unauthorized.  The page writes nothing. *)
Theorem completar_perfil_salidas (w w' : Mundo) (salida : Salida fila) :
  run CompletarPerfil.CompletarPerfilPage w = (salida, w') ->
  match salida with
  | Normal estudiante =>
      (exists userId,
         sesion w = Some userId
         /\ seleccionar (Eq "auth_user_id" (VTexto userId)) (estudiantes w)
            = [estudiante])
      /\ (forall s, campo estudiante "nombre_emergencia" = VTexto s ->
                    Js.trim s = "")
  | Excepcion (NextRedirect url) =>
      In url ["/login"; "/dashboard"; "/admin/dashboard"; "/unauthorized"]
      /\ (url = "/dashboard" ->
          exists userId estudiante s,
            sesion w = Some userId
            /\ seleccionar (Eq "auth_user_id" (VTexto userId))
                 (estudiantes w) = [estudiante]
            /\ campo estudiante "nombre_emergencia" = VTexto s
            /\ Js.trim s <> "")
      /\ (url = "/admin/dashboard" -> llamadorEsAdmin w = true)
  | Excepcion (ErrorJS _) => True
  end
  /\ estudiantes w' = estudiantes w
  /\ usuarios_administrativos w' = usuarios_administrativos w
  /\ auth_users w' = auth_users w
  /\ sesion w' = sesion w.
Proof.
  intros H.
  unfold CompletarPerfil.CompletarPerfilPage, CompletarPerfil.perfilCompleto, redirect in H.
  simbolico H.
  all: injection H as <- <-.
  all: split; [| repeat split; cbn; auto].
  all: try exact I.
  all: repeat match goal with
       | Hd : data (selectUno _ _ _ _ _) = Some _ |- _ =>
           apply selectUno_dato in Hd as (? & ? & ->)
       end;
       cbn [leerTabla avanzar ponerGuion estudiantes
            usuarios_administrativos] in *;
       change (proyectar None ?f) with f in *.
  all: repeat match goal with
       | Hb : negb _ = true |- _ => apply negb_true_iff in Hb
       | Hb : negb _ = false |- _ => apply negb_false_iff in Hb
       | Hb : String.eqb _ _ = true |- _ => apply String.eqb_eq in Hb
       | Hb : String.eqb _ _ = false |- _ => apply String.eqb_neq in Hb
       end.
  all: try (split; [cbn; tauto |];
            split; intros E; try discriminate E).
  all: try (unfold llamadorEsAdmin;
            match goal with Hs : sesion _ = Some _ |- _ => rewrite Hs end;
            match goal with
            | Hsel : seleccionar _ (usuarios_administrativos _) = [_]
              |- _ => rewrite Hsel; reflexivity
            end).
  all: try (eexists _, _, _; repeat split; eauto; fail).
  all: split; [eauto |].
  - intros s0 E. rewrite E in *. unfold truthy in *.
    match goal with
    | Hb : negb (String.eqb s0 "") = false |- _ =>
        apply negb_false_iff, String.eqb_eq in Hb; subst s0
    end.
    reflexivity.
  - intros s1 E.
    match goal with
    | Hv : campo _ "nombre_emergencia" = VTexto _ |- _ =>
        rewrite Hv in E; injection E as <-
    end.
    assumption.
Qed.

Lemma completar_perfil_salidas_witness :
  let w := ponerSesion (Some "uid-1") Escenario.activa in
  let w' := snd (run CompletarPerfil.CompletarPerfilPage w) in
  ((exists userId,
      sesion w = Some userId
      /\ seleccionar (Eq "auth_user_id" (VTexto userId)) (estudiantes w)
         = [Escenario.janeActiva])
   /\ (forall s, campo Escenario.janeActiva "nombre_emergencia" = VTexto s ->
                 Js.trim s = ""))
  /\ estudiantes w' = estudiantes w
  /\ usuarios_administrativos w' = usuarios_administrativos w
  /\ auth_users w' = auth_users w
  /\ sesion w' = sesion w.
Proof.
  intros w w'.
  apply (completar_perfil_salidas w w' (Normal Escenario.janeActiva)).
  reflexivity.
Defined.

Lemma campo_camposExtra_carnet (extra f : fila) :
  campo (aplicar (camposExtra extra) f) "url_carnet"
  = oBien (campo extra "url_carnet")
      (oBien (campo extra "url_carnet_digital") VNull).
Proof.
  apply campo_aplicar_escrito. unfold camposExtra.
  rewrite lookup_insert_ne by discriminate. apply lookup_insert_eq.
Qed.

Lemma campo_camposExtra_expediente (extra f : fila) :
  campo (aplicar (camposExtra extra) f) "url_expediente"
  = oBien (campo extra "url_expediente")
      (oBien (campo extra "url_expediente_digital") VNull).
Proof.
  apply campo_aplicar_escrito. unfold camposExtra.
  rewrite !lookup_insert_ne by discriminate. apply lookup_singleton_eq.
Qed.

Lemma oBien_nulo_izquierda (v : valor) : oBien VNull v = v.
Proof. reflexivity. Qed.

Lemma oBien_idem (v d : valor) : oBien (oBien v d) d = oBien v d.
Proof.
  unfold oBien. destruct (truthy v) eqn:E; [rewrite E; reflexivity |].
  destruct (truthy d); reflexivity.
Qed.

Lemma oBien_dos_nulo (a b : valor) :
  oBien (oBien a (oBien b VNull)) VNull = oBien a (oBien b VNull).
Proof.
  unfold oBien.
  destruct (truthy a) eqn:Ea; [rewrite Ea; reflexivity |].
  destruct (truthy b) eqn:Eb; [rewrite Eb |]; reflexivity.
Qed.

Lemma campo_basico_fuera (f : fila) (c : string) :
  c ∉ ["id"; "nombre_completo_becado"; "sexo"] ->
  campo (proyectar (Some ["id"; "nombre_completo_becado"; "sexo"]) f) c
  = VNull.
Proof.
  intros H. unfold campo, proyectar. rewrite proyectarCols_lookup.
  rewrite decide_False by exact H. reflexivity.
Qed.

Ltac fuera_de_lista :=
  let Hin := fresh "Hin" in
  intros Hin;
  repeat (apply elem_of_cons in Hin as [Hin | Hin]; [discriminate Hin |]);
  inversion Hin.

(** The dashboard of a student when nothing disturbs its three calls. *)
Lemma dashboard_presenta (w : Mundo) (userId : string) (estudiante : fila) :
  sesion w = Some userId ->
  seleccionar (Eq "auth_user_id" (VTexto userId)) (estudiantes w)
  = [estudiante] ->
  campo estudiante "sexo" = VNull
  \/ (exists s, campo estudiante "sexo" = VTexto s) ->
  tranquilas 3 (guion w) = true ->
  exists saludo,
    fst (run DashboardPage w)
    = Normal
        (mkProps saludo
           (oBien (campo estudiante "nombre_completo_becado")
              (VTexto "Becario"))
           (perfilCompletoDe
              (oBien (campo estudiante "nombre_emergencia") VNull))
           (oBien (campo estudiante "url_carnet")
              (oBien (campo estudiante "url_carnet_digital") VNull))
           (oBien (campo estudiante "url_expediente")
              (oBien (campo estudiante "url_expediente_digital") VNull))).
Proof.
  intros Hses Hsel Hsexo Hg.
  unfold DashboardPage. cbn [run bind llamar].
  tranquila Hg. rewrite Hses. cbn.
  tranquila Hg.
  rewrite (selectUno_uno _ _ _ _ _ estudiante) by exact Hsel. cbn.
  unfold consultarExtra. cbn.
  tranquila Hg.
  rewrite (selectUno_uno _ _ _ _ _ estudiante) by exact Hsel. cbn.
  change (proyectar None estudiante) with estudiante.
  unfold presentar.
  rewrite campo_camposExtra_emergencia, campo_camposExtra_carnet,
    campo_camposExtra_expediente.
  rewrite !campo_aplicar_intacto by (vm_compute; reflexivity).
  rewrite !campo_proyectar by (repeat constructor).
  rewrite !campo_basico_fuera by fuera_de_lista.
  rewrite oBien_nulo_idem, oBien_nulo_izquierda, !oBien_dos_nulo.
  destruct Hsexo as [-> | (s & ->)].
  - eexists. reflexivity.
  - unfold oBien. destruct (truthy (VTexto s)); eexists; reflexivity.
Qed.

(** The wizard page of a student whose profile is not complete, when
    nothing disturbs its two calls. *)
Lemma completar_perfil_presenta (w : Mundo) (userId : string)
    (estudiante : fila) :
  sesion w = Some userId ->
  seleccionar (Eq "auth_user_id" (VTexto userId)) (estudiantes w)
  = [estudiante] ->
  truthy (campo estudiante "nombre_emergencia") = false ->
  tranquilas 2 (guion w) = true ->
  fst (run CompletarPerfil.CompletarPerfilPage w) = Normal estudiante.
Proof.
  intros Hses Hsel Hne Hg.
  unfold CompletarPerfil.CompletarPerfilPage. cbn [run bind llamar].
  tranquila Hg. rewrite Hses. cbn.
  tranquila Hg.
  rewrite (selectUno_uno _ _ _ _ _ estudiante) by exact Hsel. cbn.
  change (proyectar None estudiante) with estudiante.
  unfold CompletarPerfil.perfilCompleto. rewrite Hne. reflexivity.
Qed.


Ltac en_lista :=
  unfold Perfil.camposWizard, Perfil.camposDocumentos; cbn [app];
  repeat first [ apply list_elem_of_here | apply list_elem_of_further ].

Section Reapertura.

Variable w : Mundo.
Variables estudianteId adminId userId : string.
Variables adminData estudiante : fila.

Hypothesis Hid : idEnBlanco estudianteId = false.
Hypothesis Hses : sesion w = Some adminId.
Hypothesis Hadm :
  seleccionar (Eq "auth_user_id" (VTexto adminId))
    (usuarios_administrativos w) = [adminData].
Hypothesis Hest :
  seleccionar (porIdOIdInterno estudianteId) (estudiantes w) = [estudiante].
Hypothesis Hpk :
  seleccionar (Eq "id" (campo estudiante "id")) (estudiantes w)
  = [estudiante].

(** The run of a reset that goes through, with the world it leaves. *)
Lemma resetear_exito_mundo :
  tranquilas 4 (guion w) = true ->
  run (resetearPerfilEstudiante estudianteId) w
  = (Normal (mkResultado true (msgReseteado estudiante)),
     mkMundo
       (actualizar (Eq "id" (campo estudiante "id")) datosReset
          (estudiantes w))
       (usuarios_administrativos w) (solicitudes_horas w)
       (horas_voluntariados w) (auth_users w) (sesion w) (correos w)
       (Nat.iter 4 (@tail Fallo) (guion w)) (azar w)).
Proof.
  intros Hg.
  unfold resetearPerfilEstudiante, verificarAdmin. rewrite Hid.
  cbn [run bind intentar llamar].
  tranquila Hg. rewrite Hses. cbn.
  tranquila Hg.
  rewrite (selectUno_uno _ _ _ _ _ adminData) by exact Hadm. cbn.
  tranquila Hg.
  rewrite (selectUno_uno _ _ _ _ _ estudiante) by exact Hest. cbn.
  rewrite !campo_proyectar by (repeat constructor).
  tranquila Hg. rewrite Hpk. cbn.
  assert (Hmsg : msgReseteado
                   (proyectar
                      (Some ["id"; "id_becado_interno";
                             "nombre_completo_becado"])
                      estudiante)
                 = msgReseteado estudiante).
  { unfold msgReseteado, nombreMostrado.
    rewrite !campo_proyectar by (repeat constructor). reflexivity. }
  rewrite Hmsg, Hses. reflexivity.
Qed.

Hypothesis Huid :
  seleccionar (Eq "auth_user_id" (VTexto userId)) (estudiantes w)
  = [estudiante].
Hypothesis Hsexo :
  campo estudiante "sexo" = VNull
  \/ (exists s, campo estudiante "sexo" = VTexto s).
Hypothesis Hcarnet : truthy (campo estudiante "url_carnet") = false.
Hypothesis Hexpediente : truthy (campo estudiante "url_expediente") = false.
Hypothesis Hg : tranquilas 7 (guion w) = true.

(** X20.  A reset opens the wizard again.  An administrator resets a student
    and nothing disturbs the calls; the row has no URL in the columns
    url_carnet and url_expediente, which the reset does not write.  When the
    student then signs in, the dashboard shows the profile as not complete
    and both document cards lead to /completar-perfil; the wizard page shows
    the wizard instead of redirecting, for a row whose wizard columns are
    all null; and the table of the administrator shows that row as
    'Pendiente'. *)
Theorem reset_reabre_formulario :
  let '(r, w') := run (resetearPerfilEstudiante estudianteId) w in
  let ws := ponerSesion (Some userId) w' in
  r = Normal (mkResultado true (msgReseteado estudiante))
  /\ (exists props,
        fst (run DashboardPage ws) = Normal props
        /\ perfilCompleto props = false
        /\ firstn 2
             (AccesoRapido.AccesoRapido (perfilCompleto props)
                (urlCarnet props) (urlExpediente props))
           = [ EnlaceInterno "/completar-perfil" "Mi Carnet Digital"
                 "Completa tu perfil para obtener tu carnet digital."
                 "Completar Perfil";
               EnlaceInterno "/completar-perfil" "Mi Expediente"
                 "Completa tu perfil para generar tu expediente."
                 "Completar Perfil" ])
  /\ (exists reseteado,
        fst (run CompletarPerfil.CompletarPerfilPage ws) = Normal reseteado
        /\ (forall c, c ∈ Perfil.camposWizard -> campo reseteado c = VNull)
        /\ estadoDe reseteado = Normal Pendiente).
Proof.
  pose proof Hg as Hg4. do 3 apply tranquilas_menos in Hg4.
  rewrite (resetear_exito_mundo Hg4).
  set (w' := mkMundo _ _ _ _ _ _ _ _ _).
  set (reseteado := aplicar datosReset estudiante).
  assert (Hsel' :
    seleccionar (Eq "auth_user_id" (VTexto userId))
      (estudiantes (ponerSesion (Some userId) w'))
    = [reseteado]).
  { cbn [estudiantes ponerSesion w'].
    rewrite seleccionar_actualizar_otra.
    2:{ intros f. cbn [cumple].
        rewrite campo_aplicar_intacto by (vm_compute; reflexivity).
        reflexivity. }
    rewrite Huid. cbn [List.map].
    apply seleccionar_uno_lookup in Hpk as [-> _]. reflexivity. }
  assert (Hg3 : tranquilas 3 (guion (ponerSesion (Some userId) w')) = true).
  { cbn [guion ponerSesion w' Nat.iter]. pose proof Hg as Hg3.
    do 4 apply tranquilas_tail in Hg3. exact Hg3. }
  assert (Hnulo : forall c,
            c ∈ Perfil.camposWizard ++ Perfil.camposDocumentos ->
            campo reseteado c = VNull).
  { intros c Hc.
    apply campo_aplicar_escrito, EstudiantesProps.datosReset_anula, Hc. }
  intros ws. subst ws.
  split; [reflexivity |]. split.
  - destruct (dashboard_presenta (ponerSesion (Some userId) w') userId
                reseteado eq_refl Hsel') as (saludo & Hrun).
    + unfold reseteado.
      rewrite campo_aplicar_intacto by (vm_compute; reflexivity).
      exact Hsexo.
    + exact Hg3.
    + eexists. split; [exact Hrun |].
      cbn [perfilCompleto urlCarnet urlExpediente].
      rewrite (Hnulo "nombre_emergencia"), (Hnulo "url_carnet_digital"),
        (Hnulo "url_expediente_digital") by en_lista.
      unfold reseteado.
      rewrite !campo_aplicar_intacto by (vm_compute; reflexivity).
      unfold oBien. rewrite Hcarnet, Hexpediente.
      split; reflexivity.
  - exists reseteado. split; [| split].
    + apply (completar_perfil_presenta _ userId); auto.
      * rewrite Hnulo by en_lista. reflexivity.
      * apply tranquilas_menos. exact Hg3.
    + intros c Hc. apply Hnulo. apply elem_of_app. left. exact Hc.
    + unfold estadoDe.
      rewrite (Hnulo "url_carnet_digital"), (Hnulo "url_expediente_digital")
        by en_lista.
      reflexivity.
Qed.

End Reapertura.

Lemma reset_reabre_formulario_witness :
  let '(r, w') :=
    run (resetearPerfilEstudiante "BDI-042") Escenario.activa in
  let ws := ponerSesion (Some "uid-1") w' in
  r = Normal (mkResultado true (msgReseteado Escenario.janeActiva))
  /\ (exists props,
        fst (run DashboardPage ws) = Normal props
        /\ perfilCompleto props = false
        /\ firstn 2
             (AccesoRapido.AccesoRapido (perfilCompleto props)
                (urlCarnet props) (urlExpediente props))
           = [ EnlaceInterno "/completar-perfil" "Mi Carnet Digital"
                 "Completa tu perfil para obtener tu carnet digital."
                 "Completar Perfil";
               EnlaceInterno "/completar-perfil" "Mi Expediente"
                 "Completa tu perfil para generar tu expediente."
                 "Completar Perfil" ])
  /\ (exists reseteado,
        fst (run CompletarPerfil.CompletarPerfilPage ws) = Normal reseteado
        /\ (forall c, c ∈ Perfil.camposWizard -> campo reseteado c = VNull)
        /\ estadoDe reseteado = Normal Pendiente).
Proof.
  apply (reset_reabre_formulario Escenario.activa "BDI-042" "uid-admin"
           "uid-1" Escenario.adminRow Escenario.janeActiva);
    try reflexivity.
  left. reflexivity.
Defined.

(** X18.  The second query of the dashboard must not block it.  A student is
    signed in, the first two calls go through and the query for the
    additional columns comes back with an error or throws.  The page still
    renders, but as for an incomplete profile without documents, whatever
    the row holds: both document cards lead to /completar-perfil. *)
Theorem dashboard_degradado (w : Mundo) (userId : string) (estudiante : fila)
    (f : Fallo) (g : list Fallo) :
  sesion w = Some userId ->
  seleccionar (Eq "auth_user_id" (VTexto userId)) (estudiantes w)
  = [estudiante] ->
  campo estudiante "sexo" = VNull
  \/ (exists s, campo estudiante "sexo" = VTexto s) ->
  guion w = SinFallo :: SinFallo :: f :: g ->
  f <> SinFallo ->
  exists props,
    fst (run DashboardPage w) = Normal props
    /\ nombreCompleto props
       = oBien (campo estudiante "nombre_completo_becado") (VTexto "Becario")
    /\ perfilCompleto props = false
    /\ urlCarnet props = VNull
    /\ urlExpediente props = VNull
    /\ firstn 2
         (AccesoRapido.AccesoRapido (perfilCompleto props)
            (urlCarnet props) (urlExpediente props))
       = [ EnlaceInterno "/completar-perfil" "Mi Carnet Digital"
             "Completa tu perfil para obtener tu carnet digital."
             "Completar Perfil";
           EnlaceInterno "/completar-perfil" "Mi Expediente"
             "Completa tu perfil para generar tu expediente."
             "Completar Perfil" ].
Proof.
  intros Hses Hsel Hsexo Hguion Hf.
  assert (Hg : tranquilas 2 (guion w) = true)
    by (rewrite Hguion; reflexivity).
  unfold DashboardPage. cbn [run bind llamar].
  tranquila Hg. rewrite Hses. cbn.
  tranquila Hg.
  rewrite (selectUno_uno _ _ _ _ _ estudiante) by exact Hsel. cbn.
  unfold consultarExtra. cbn.
  unfold ejecutar at 1, tomarFallo. cbn. rewrite Hguion. cbn.
  assert (Hfin :
    forall w0,
    exists props,
      fst (run (presentar
                  (proyectar (Some ["id"; "nombre_completo_becado"; "sexo"])
                     estudiante)) w0)
      = Normal props
      /\ nombreCompleto props
         = oBien (campo estudiante "nombre_completo_becado")
             (VTexto "Becario")
      /\ perfilCompleto props = false
      /\ urlCarnet props = VNull
      /\ urlExpediente props = VNull
      /\ firstn 2
           (AccesoRapido.AccesoRapido (perfilCompleto props)
              (urlCarnet props) (urlExpediente props))
         = [ EnlaceInterno "/completar-perfil" "Mi Carnet Digital"
               "Completa tu perfil para obtener tu carnet digital."
               "Completar Perfil";
             EnlaceInterno "/completar-perfil" "Mi Expediente"
               "Completa tu perfil para generar tu expediente."
               "Completar Perfil" ]).
  { intros w0. unfold presentar.
    rewrite !campo_proyectar by (repeat constructor).
    rewrite !campo_basico_fuera by fuera_de_lista.
    destruct Hsexo as [-> | (s & ->)].
    - eexists. split; [reflexivity |]. repeat split.
    - assert (Hs : oBien (VTexto s) VNull = VTexto s
                   \/ oBien (VTexto s) VNull = VNull)
        by (unfold oBien; destruct (truthy (VTexto s)); auto).
      destruct Hs as [-> | ->];
        eexists; (split; [reflexivity |]); repeat split. }
  destruct f as [| e | m]; [contradiction | |]; cbn; apply Hfin.
Qed.

Lemma dashboard_degradado_witness :
  let w :=
    ponerGuion [SinFallo; SinFallo; Lanza "fetch failed"]
      (ponerSesion (Some "uid-1") Escenario.activa) in
  exists props,
    fst (run DashboardPage w) = Normal props
    /\ nombreCompleto props
       = oBien (campo Escenario.janeActiva "nombre_completo_becado")
           (VTexto "Becario")
    /\ perfilCompleto props = false
    /\ urlCarnet props = VNull
    /\ urlExpediente props = VNull
    /\ firstn 2
         (AccesoRapido.AccesoRapido (perfilCompleto props)
            (urlCarnet props) (urlExpediente props))
       = [ EnlaceInterno "/completar-perfil" "Mi Carnet Digital"
             "Completa tu perfil para obtener tu carnet digital."
             "Completar Perfil";
           EnlaceInterno "/completar-perfil" "Mi Expediente"
             "Completa tu perfil para generar tu expediente."
             "Completar Perfil" ].
Proof.
  intros w.
  apply (dashboard_degradado w "uid-1" Escenario.janeActiva
           (Lanza "fetch failed") []);
    try reflexivity.
  - left. reflexivity.
  - discriminate.
Defined.

(** X21.  When the activation page shows the form.  Whatever the backend
    does, the form is shown only for a token that is not empty and belongs
    to exactly one student row, which is not onboarded and has a name and a
    mail, and the form shows that name and that mail.  And for such a token
    the form is shown, when the lookup is not disturbed. *)
Theorem activar_pagina_formulario (w : Mundo) (token error : option string)
    (t : string) (nombre correo : valor) (e : option string) :
  (forall w',
     run (ActivarPage token error) w
     = (Normal (Formulario t nombre correo e), w') ->
     token = Some t /\ e = error /\ t <> ""
     /\ exists d,
          seleccionar (Eq "onboarding_token" (VTexto t)) (estudiantes w)
          = [d]
          /\ truthy (campo d "ha_completado_onboarding") = false
          /\ nombre = campo d "nombre_completo_becado"
          /\ correo = campo d "correo_personal"
          /\ truthy nombre = true /\ truthy correo = true)
  /\ (forall d,
        t <> "" ->
        seleccionar (Eq "onboarding_token" (VTexto t)) (estudiantes w)
        = [d] ->
        truthy (campo d "ha_completado_onboarding") = false ->
        truthy (campo d "nombre_completo_becado") = true ->
        truthy (campo d "correo_personal") = true ->
        tranquilas 1 (guion w) = true ->
        fst (run (ActivarPage (Some t) error) w)
        = Normal (Formulario t (campo d "nombre_completo_becado")
                    (campo d "correo_personal") error)).
Proof.
  split.
  - intros w' H. unfold ActivarPage, Activar.validarToken in H.
    destruct token as [t0 |]; [| discriminate H].
    destruct (String.eqb t0 "") eqn:Et; [discriminate H |].
    apply String.eqb_neq in Et.
    simbolico H; injection H as <- <- <- <- _.
    match goal with
    | Hd : data (selectUno _ _ _ _ _) = Some _ |- _ =>
        apply selectUno_dato in Hd as (d & Hsel & ->)
    end.
    cbn [leerTabla avanzar ponerGuion estudiantes] in Hsel.
    rewrite !campo_proyectar in * by (repeat constructor).
    match goal with
    | Hn : negb _ || negb _ = false |- _ =>
        apply orb_false_elim in Hn as [Hn Hc];
        apply negb_false_iff in Hn, Hc
    end.
    repeat split; auto. exists d. repeat split; auto.
  - intros d Ht Hsel Honb Hn Hc Hg.
    apply String.eqb_neq in Ht.
    unfold ActivarPage, Activar.validarToken. rewrite Ht.
    cbn [run bind llamar].
    tranquila Hg.
    rewrite (selectUno_uno _ _ _ _ _ d) by exact Hsel. cbn.
    rewrite !campo_proyectar by (repeat constructor).
    rewrite Honb, Hn, Hc. reflexivity.
Qed.

Lemma activar_pagina_formulario_witness :
  fst (run (ActivarPage (Some "tok-1") None) Escenario.invitada)
  = Normal (Formulario "tok-1" (VTexto "Jane Doe")
              (VTexto "jane@example.org") None).
Proof.
  apply (proj2 (activar_pagina_formulario Escenario.invitada
                  (Some "tok-1") None "tok-1" VNull VNull None)
           Escenario.jane);
    try reflexivity.
  discriminate.
Defined.

End PaginasProps.

(** ** Names of generated files *)

Module DocumentosProps.
Import Documentos.

Local Abbreviation limpio := (Forall (fun u => problematico u = false)).

Lemma quitarEspaciosInicio_sufijo (l : Cadena) :
  exists p, l = p ++ quitarEspaciosInicio l.
Proof.
  induction l as [| u l (p & IH)]; cbn [quitarEspaciosInicio].
  - exists []. reflexivity.
  - destruct (esEspacio u).
    + exists (u :: p). cbn. congruence.
    + exists []. reflexivity.
Qed.

Lemma quitarGuionesInicio_sufijo (l : Cadena) :
  exists p, l = p ++ quitarGuionesInicio l.
Proof.
  induction l as [| u l (p & IH)]; cbn [quitarGuionesInicio].
  - exists []. reflexivity.
  - destruct (esGuion u).
    + exists (u :: p). cbn. congruence.
    + exists []. reflexivity.
Qed.

(** Stripping both ends keeps a segment of the list. *)
Lemma recorte_segmento (quitar : Cadena -> Cadena) (l : Cadena) :
  (forall x, exists p, x = p ++ quitar x) ->
  exists p q, l = p ++ rev (quitar (rev (quitar l))) ++ q.
Proof.
  intros Hq.
  destruct (Hq l) as (p & Hp).
  destruct (Hq (rev (quitar l))) as (q & Hq').
  exists p, (rev q).
  rewrite <- rev_app_distr, <- Hq', rev_involutive. exact Hp.
Qed.

Lemma Forall_segmento {A} (P : A -> Prop) (p m q : list A) :
  Forall P (p ++ m ++ q) -> Forall P m.
Proof.
  intros H. apply Forall_app in H as [_ H]. apply Forall_app in H as [H _].
  exact H.
Qed.

Lemma length_segmento {A} (l p m q : list A) :
  l = p ++ m ++ q -> length m <= length l.
Proof. intros ->. rewrite !length_app. lia. Qed.

Lemma trim_segmento (l : Cadena) :
  exists p q, l = p ++ trim l ++ q.
Proof. apply recorte_segmento, quitarEspaciosInicio_sufijo. Qed.

Lemma limpio_reemplazo (l : Cadena) :
  limpio (List.map (fun u => if problematico u then 45%N else u) l).
Proof.
  apply Forall_map, Forall_forall. intros u _.
  destruct (problematico u) eqn:E; [reflexivity | exact E].
Qed.

Lemma limpio_colapsarGuiones (b : bool) (l : Cadena) :
  limpio l -> limpio (colapsarGuiones b l).
Proof.
  intros H. revert b.
  induction H as [| u l Hu Hl IH]; intros b; cbn [colapsarGuiones].
  - constructor.
  - destruct (esGuion u); [destruct b |]; auto.
Qed.

Lemma limpio_extremos (l : Cadena) :
  limpio l -> limpio (quitarGuionesExtremos l).
Proof.
  intros H. unfold quitarGuionesExtremos.
  destruct (recorte_segmento quitarGuionesInicio l
              quitarGuionesInicio_sufijo) as (p & q & E).
  rewrite E in H. exact (Forall_segmento _ _ _ _ H).
Qed.

Lemma limpio_trim (l : Cadena) : limpio l -> limpio (trim l).
Proof.
  intros H. destruct (trim_segmento l) as (p & q & E).
  rewrite E in H. exact (Forall_segmento _ _ _ _ H).
Qed.

Lemma length_trim (l : Cadena) : length (trim l) <= length l.
Proof.
  destruct (trim_segmento l) as (p & q & E).
  exact (length_segmento _ _ _ _ E).
Qed.

(** What [problematico] rules out, code by code. *)
Lemma problematico_false (u : N) :
  problematico u = false ->
  (31 < u)%N /\ ~ In u [60; 62; 58; 34; 47; 92; 124; 63; 42]%N.
Proof.
  unfold problematico. intros H.
  apply orb_false_iff in H as [Hc Hn].
  apply N.leb_gt in Hc. split; [exact Hc |].
  intros Hin.
  assert (Hx : existsb (N.eqb u) [60; 62; 58; 34; 47; 92; 124; 63; 42]%N
               = true).
  { apply existsb_exists. exists u. split; [exact Hin | apply N.eqb_refl]. }
  congruence.
Qed.

(** X22.  Whatever the name, the name that goes into the path of a
    generated file is not the empty string, has at most 150 UTF-16 code
    units, and holds no code unit below U+0020 and none of the nine
    characters that the function replaces (less than, greater than, colon,
    double quote, slash, backslash, bar, question mark, asterisk). *)
Theorem sanear_nombre_seguro (nombre : Cadena) :
  let saneado := sanearNombreArchivo nombre in
  saneado <> []
  /\ length saneado <= 150
  /\ Forall
       (fun u =>
          (31 < u)%N /\ ~ In u [60; 62; 58; 34; 47; 92; 124; 63; 42]%N)
       saneado.
Proof.
  cbv zeta.
  assert (Hdefecto :
    literal "SinNombre" <> []
    /\ length (literal "SinNombre") <= 150
    /\ limpio (literal "SinNombre")).
  { split; [discriminate |]. split; [cbn; lia |].
    repeat constructor. }
  enough (H : sanearNombreArchivo nombre <> []
              /\ length (sanearNombreArchivo nombre) <= 150
              /\ limpio (sanearNombreArchivo nombre)).
  { destruct H as (H1 & H2 & H3). repeat split; auto.
    eapply Forall_impl; [exact H3 |]. apply problematico_false. }
  unfold sanearNombreArchivo.
  destruct (vacia nombre); [exact Hdefecto |].
  set (sinExtremos :=
         quitarGuionesExtremos
           (colapsarGuiones false
              (List.map (fun u => if problematico u then 45%N else u)
                 (colapsarEspacios false (trim nombre))))).
  assert (Hlimpio : limpio sinExtremos).
  { apply limpio_extremos, limpio_colapsarGuiones, limpio_reemplazo. }
  match goal with
  | |- context [vacia ?l] =>
      set (saneado := l);
      assert (Hs : length saneado <= 150 /\ limpio saneado)
  end.
  { unfold saneado. destruct (Nat.ltb 150 (length sinExtremos)) eqn:El.
    - split.
      + etransitivity; [apply length_trim |].
        rewrite length_firstn. lia.
      + apply limpio_trim, Forall_take, Hlimpio.
    - apply Nat.ltb_ge in El. split; [exact El | exact Hlimpio]. }
  destruct saneado as [| u r] eqn:E; cbn [vacia].
  - exact Hdefecto.
  - split; [discriminate | exact Hs].
Qed.

(** The function at work: white space beyond ASCII is stripped and
    collapsed, the characters of the class become dashes, runs of dashes
    become one and those at the ends go; DEL stays, and a name made of
    dashes around a space comes out as a lone space. *)
Lemma sanear_nombre_ejemplos :
  sanearNombreArchivo
    ([160] ++ literal "Jane" ++ [8195; 32] ++ literal "Doe: 3/4?" ++ [160])%N
  = literal "Jane Doe- 3-4"
  /\ sanearNombreArchivo [127]%N = [127]%N
  /\ sanearNombreArchivo (literal "- -") = literal " "
  /\ sanearNombreArchivo (literal "<>") = literal "SinNombre"
  /\ sanearNombreArchivo [] = literal "SinNombre".
Proof. repeat split; vm_compute; reflexivity. Qed.

End DocumentosProps.

(** ** From the activation to the wizard *)

Module RecorridosProps.
Import Activar Dashboard AccesoRapido Permisos.

Section PrimerIngreso.

Variable w : Mundo.
Variables token email password nombre : string.
Variable d : fila.

Let correo := Js.toLowerCase (Js.trim email).
Let authUserId := hd uuidPorDefecto (azar w).

Hypothesis Hsel :
  seleccionar (Eq "onboarding_token" (VTexto token)) (estudiantes w) = [d].
Hypothesis Honb : truthy (campo d "ha_completado_onboarding") = false.
Hypothesis Hnombre : campo d "nombre_completo_becado" = VTexto nombre.
Hypothesis Hnombre_ne : nombre <> "".
Hypothesis Hcorreo : truthy (campo d "correo_personal") = true.
Hypothesis Hreglas : contrasenaValida password.
Hypothesis Hascii : Js.esAscii email = true.
Hypothesis Hcne : correo <> "".
Hypothesis Hlibre : existsb (tieneEmail correo) (auth_users w) = false.
Hypothesis Hfresco :
  seleccionar (Eq "auth_user_id" (VTexto authUserId)) (estudiantes w) = [].
Hypothesis Hnoadmin :
  seleccionar (Eq "auth_user_id" (VTexto authUserId))
    (usuarios_administrativos w) = [].
Hypothesis Hsexo :
  campo d "sexo" = VNull \/ (exists s, campo d "sexo" = VTexto s).
Hypothesis Hemergencia : truthy (campo d "nombre_emergencia") = false.
Hypothesis Hg : tranquilas 10 (guion w) = true.

(** X23.  The first visit.  An activation is run for a row without
    emergency contact, and none of its seven backend calls nor of the three
    that follow is disturbed.  The token belongs to this one row, which is
    not onboarded and has a name and a mail; the password has eight UTF-16
    code units at least, an upper-case letter, a lower-case letter and a
    digit; the mail is made of ASCII characters and, trimmed and in lower
    case, is not empty and not taken; the identifier the credential store
    will hand out is not in use.  Then the caller is sent to /dashboard;
    there the gate lets the new session through, the dashboard renders with
    the name of the student and the profile shown as not complete, and the
    wizard page shows the wizard for the row that has just been linked. *)
Theorem primer_ingreso :
  let '(salida, w') := run (activarCuenta token email password) w in
  salida = Excepcion (NextRedirect "/dashboard")
  /\ fst (run (Middleware.middleware "/dashboard" (sesion w')) w')
     = Normal Middleware.Continuar
  /\ (exists props,
        fst (run DashboardPage w') = Normal props
        /\ nombreCompleto props = VTexto nombre
        /\ perfilCompleto props = false)
  /\ (exists vinculado,
        fst (run CompletarPerfil.CompletarPerfilPage w') = Normal vinculado
        /\ campo vinculado "auth_user_id" = VTexto authUserId
        /\ campo vinculado "nombre_completo_becado" = VTexto nombre).
Proof using All.
  pose proof Hg as Hg7. do 3 apply tranquilas_menos in Hg7.
  rewrite (ActivacionProps.activar_camino_feliz_mundo w token email password
             nombre d)
    by (assumption || exact (contrasenaValida_schema _ Hreglas)).
  fold correo authUserId.
  set (w' := mkMundo _ _ _ _ _ _ _ _ _).
  set (vinculado := aplicar (datosActivacion authUserId email) d).
  assert (Hsel' :
    seleccionar (Eq "auth_user_id" (VTexto authUserId)) (estudiantes w')
    = [vinculado]).
  { cbn [estudiantes w'].
    apply seleccionar_recien_escrito; auto.
    intros f. cbn [cumple].
    rewrite (campo_aplicar_escrito _ _ _ (VTexto authUserId))
      by (vm_compute; reflexivity).
    apply String.eqb_refl. }
  assert (Hg3 : tranquilas 3 (guion w') = true).
  { cbn [guion w' Nat.iter]. pose proof Hg as Hg3.
    do 7 apply tranquilas_tail in Hg3. exact Hg3. }
  assert (Hg1 : tranquilas 1 (guion w') = true)
    by (do 2 apply tranquilas_menos in Hg3; exact Hg3).
  split; [reflexivity |]. split; [| split].
  - cbn [sesion w'].
    rewrite (PoliticaProps.run_middleware "/dashboard" authUserId w' eq_refl).
    rewrite (ejecutar_tranquila _ _ 0 Hg1) by reflexivity.
    unfold sinFallo, normal, consultaAdmin.
    rewrite selectUno_ninguno; [reflexivity |].
    cbn [leerTabla avanzar ponerGuion usuarios_administrativos w'].
    exact Hnoadmin.
  - destruct (PaginasProps.dashboard_presenta w' authUserId vinculado
                eq_refl Hsel') as (saludo & Hrun).
    + unfold vinculado.
      rewrite campo_aplicar_intacto by (vm_compute; reflexivity).
      exact Hsexo.
    + exact Hg3.
    + eexists. split; [exact Hrun |].
      cbn [nombreCompleto perfilCompleto]. unfold vinculado.
      rewrite !campo_aplicar_intacto by (vm_compute; reflexivity).
      rewrite Hnombre. unfold oBien at 1.
      replace (truthy (VTexto nombre)) with true
        by (unfold truthy; apply String.eqb_neq in Hnombre_ne;
            rewrite Hnombre_ne; reflexivity).
      split; [reflexivity |].
      unfold oBien. rewrite Hemergencia. reflexivity.
  - exists vinculado. split; [| split].
    + apply (PaginasProps.completar_perfil_presenta _ authUserId); auto.
      * unfold vinculado.
        rewrite campo_aplicar_intacto by (vm_compute; reflexivity).
        exact Hemergencia.
      * apply tranquilas_menos. exact Hg3.
    + apply campo_aplicar_escrito. vm_compute. reflexivity.
    + unfold vinculado.
      rewrite campo_aplicar_intacto by (vm_compute; reflexivity).
      exact Hnombre.
Qed.

End PrimerIngreso.

Lemma primer_ingreso_witness :
  let '(salida, w') :=
    run (activarCuenta "tok-1" "jane@example.org" "LongEnough1")
      Escenario.invitada in
  salida = Excepcion (NextRedirect "/dashboard")
  /\ fst (run (Middleware.middleware "/dashboard" (sesion w')) w')
     = Normal Middleware.Continuar
  /\ (exists props,
        fst (run DashboardPage w') = Normal props
        /\ nombreCompleto props = VTexto "Jane Doe"
        /\ perfilCompleto props = false)
  /\ (exists vinculado,
        fst (run CompletarPerfil.CompletarPerfilPage w') = Normal vinculado
        /\ campo vinculado "auth_user_id" = VTexto "uid-1"
        /\ campo vinculado "nombre_completo_becado" = VTexto "Jane Doe").
Proof.
  apply (primer_ingreso Escenario.invitada "tok-1" "jane@example.org"
           "LongEnough1" "Jane Doe" Escenario.jane);
    first [ reflexivity | left; reflexivity | vm_compute; discriminate
          | cumple_reglas ].
Defined.

End RecorridosProps.

(** ** Signing in *)

Module LoginProps.
Import Login Permisos.






End LoginProps.
